(* ===== verification/_CoqProject ===== *)
-Q . S2P
Prelude.v
Format.v
Css.v
PyRandom.v
Telemetry.v
StableSort.v
Tracker.v
Widgets.v
App.v
Page.v
Protocol.v
