(* ===== verification/Prelude.v ===== *)
(** * Avishkar Hyperloop Control Center: a verification development

    The program is [src/main.py], a Streamlit script (226 lines) that
    simulates the telemetry of three hyperloop pods.  Streamlit re-runs
    the whole script on every interaction of a browser session; what
    survives a re-run is [st.session_state] (per session) and the state
    of Python's [random] module (per process, so shared by sessions).
    A run initialises the session's fleet if it has none, updates it once
    ([update_pod_data]), then renders four panels that read it: the
    tracker table, the weather monitor, the energy tip and the pod
    comparison.  Every value is drawn from [random], in that order.

    Files, in dependency order:

    - [Prelude] (this file): the effect of a Python script, a state monad
      with exceptions [PyM S A = S -> Result A * S] ([Raise] keeps the
      state reached, as an exception keeps what was already assigned),
      its notation [x <- m ;; k] in [py_scope], the loops [fold_m],
      [map_m], [replicate_m] and the lemmas that run them ([map_m_run],
      [replicate_m_run]), [keeps] (a run relates the states before and
      after) with its rules, Python's [min]/[max] ([py_min], [py_max]:
      CPython returns the first argument unless the second is strictly
      better), the tactics [py_minmax], [keeps_step], [run_with],
      [decide_by_eval] and the hint database [pyq].
    - [PyRandom]: the interface the script uses of [random] ([random()],
      [_randbelow]) as the class [PyRandom] with its range laws
      [PyRandomLaws]; [uniform], [choice] and [choices] written on it as
      CPython's Lib/random.py computes them; [Replay], a generator that
      replays recorded draws, for the witnesses.
    - [Format]: Python's [format(x, '.1f')] ([format_1f]: the exact
      value of [|x| * 10] rounded half to even by [round_half_even], a
      minus sign for negative [x]), a reader of fixed-point texts
      ([parse_fixed]) and a UTF-8 decoder of one- and two-byte sequences
      ([utf8_decode]), the reader's side against which the texts the
      page shows are stated.
    - [Css]: the style sheet of main.py 17-96: the literal line by line
      ([css_source]) and the same sheet as data ([stylesheet]: an
      [@import] and fourteen rules), tied to the literal by a printer in
      its layout ([style_block_source]); Page.v passes the literal to
      [st.markdown].
    - [Telemetry]: the DataFrame [st.session_state.pods] as a list of
      [Pod] rows; [init_pods] (main.py 103-108) and [update_pod_data]
      (110-114) written as the source's index loop with [.loc] reads and
      writes ([update_row_at]); [update_row], the rule on one row.
    - [StableSort]: the sort of [sort_values(ascending=False)]: pandas'
      [nargsort] around numpy's small-array insertion sort
      ([nargsort_desc]), the contract pandas promises ([DescSort]), an
      abstract specification of a stable descending sort
      ([stable_desc_of]) with a unique solution, a reference sort, and an
      algorithm within the contract that reverses ties ([unstable_sort]).
    - [Tracker]: [pod_tracker] (116-137): the select boxes, the status
      options ([Series.unique]), the status mask and the sort, proved for
      any [DescSort].
    - [Widgets]: [route_monitor] (139-156) with its three metric texts
      and warning ([route_panel]), [energy_section] (158-166),
      [pod_comparison] (168-207).
    - [App]: a run of the script ([run_script]: [init_session], then
      [main] = [update_session] then [render]) over [World] = session
      state and generator state; a [Server] of sessions sharing one
      generator, [rerun] one interaction of one session, and [reach n],
      the servers reachable in [n] runs.
    - [Page]: the Streamlit calls of a run as [Element] values with the
      script's arguments ([script_prelude]: [st.set_page_config], the CSS
      markdown and the title, main.py 10-99; then [main_elements] from
      the [Page] a run returns), and Streamlit's checks on that sequence
      ([st_run]: [set_page_config] first and once, unique widget
      identities and keys), modelled from Streamlit's documentation.
    - [Protocol]: the widget states a session keeps between runs
      ([PServer]: the server of App.v with each session's states and last
      page), the picks a run reads from them ([input_of], by each box's
      identity, index 0 when none is stored), the events ([Rerun], and
      [Select]: a pick in a box of the last page, then a rerun), and the
      servers reachable by events ([preach]); Streamlit's protocol,
      modelled from its documentation.

    What the theorems show (claim ids in the doc comments):
    - the update (C1-C5): never raises, draws twice per Operational row
      in row order, keeps battery in [[0,100]] and speed at most 1000,
      lowers battery by at most one point per call and moves speed by at
      most 50; the index loop with its [.loc] reads and writes equals the
      row map.  Initialisation (C6): the three named pods in the drawn
      ranges.  Refinement (C18): where no Operational speed is below 50,
      the update implements the spec's clamped rule.
    - the tracker (C7-C9): the table is exactly the matching rows sorted
      by decreasing column for any algorithm within pandas' contract;
      with the algorithm pandas runs, ties keep fleet order; the filter
      offers 'All' and each status once.
    - the widgets (C10-C12, C20): ranges of the weather sample and the
      speed limit text; the comparison's values and colours; [IndexError]
      for a missing name; the two metric texts read back within [0.05]
      of the sample, the temperature followed by the bytes C3 82 C2 B0 43
      of main.py 151 ('Â°C', not '°C').
    - the application (C13-C17, C19): invariants of every reachable
      server by induction on [reach]; after [n] runs every speed is at
      least [600 - 50 n], and that floor is attained for every [n]
      (C15), so speed goes below 0 (main.py 113 has no lower clamp,
      against the spec's [0 <= speed]); a run stores exactly one update
      and does not raise on picks within the options; from one run of a
      session to the next no battery rises.
    - the page (C21-C23): every page a run shows passes Streamlit's
      checks on its calls; on every reachable server the tracker's
      battery progress bars are filled within [[0, 1]] of their
      configured range [[0, 100]]; two consecutive runs of a session give
      every select box the same identity, so Streamlit keeps the user's
      selections.
    - the widget protocol (C24-C26): on every server reachable by reruns
      and picks, no run raises; a pick in the status filter shows exactly
      the rows of that status in the run it triggers and stays stored; a
      pick in 'Sort by' orders the table by that column, keeps the rows
      the filter selects, and stays stored.

    Lemmas that are not claims document the findings on fixed inputs
    ([pod_tracker_ties]: the sort contract allows reversed ties;
    [shared_generator_couples_sessions]: one session's fleet depends on
    another's runs) and validate the library models ([nargsort_desc_stable],
    [round_half_even_spec], [format_1f_reads_back]).

    Numbers and bounds.  Python floats are modelled as exact rationals
    [Q]: the properties proved are order properties against the code's
    constants, and [min]/[max] return one of their arguments unchanged,
    so the float computation satisfies them as well.  No fuel is needed:
    every loop of the script is over a finite list, and every definition
    is structurally recursive.  numpy's
    [argsort(kind='quicksort')] is modelled by its scalar insertion-sort
    path, which it takes below 17 elements (the fleet has three rows);
    the vectorised routine numpy 1.25 and later may use on CPUs with
    AVX-512 is not modelled.

    Formatting.  CPython formats a float by rounding its exact binary
    value; [format_1f] takes that value as a rational, so on the exact
    value of a float it is CPython's result (the float [0.35], which is
    below [35/100], prints as [0.3]; the rational [35/100] as [0.4]).

    Not modelled: how the browser draws the elements (Streamlit's front
    end and Plotly); what the CSS selectors match, which depends on the
    DOM Streamlit generates; the formatting the front end applies to the
    table (main.py 133: [%.2f] for speed), which is library code the
    script only configures ([tracker_columns] records the
    configuration).  The imports (main.py 1-8) have no effect the model
    needs ([requests], [time] and [datetime] are never used).  A select
    box is represented by the index the user picks in its options;
    Protocol.v reads that index from the session's widget states.  The
    stray expression [1.] on main.py 227 has no effect. *)

From stdpp Require Export base list strings decidable sorting.
From Stdlib Require Export QArith Qround Lqa.

Declare Scope py_scope.
Delimit Scope py_scope with py.

(** ** Python exceptions and the script monad *)

(** The exceptions the modelled code can raise. *)
Inductive PyExc := IndexError | KeyError | ValueError.

#[export] Instance PyExc_eq_dec : EqDecision PyExc.
Proof. solve_decision. Defined.

Inductive Result (A : Type) : Type :=
  | Ok (a : A)
  | Raise (e : PyExc).
Arguments Ok {A} a.
Arguments Raise {A} e.

(** A computation of the script over a state [S]: it returns a value or
    raises, and in both cases hands back the state reached. *)
Definition PyM (S A : Type) : Type := S -> Result A * S.

Section Monad.
Context {St : Type}.

Definition py_ret {A} (a : A) : PyM St A := fun s => (Ok a, s).

Definition py_bind {A B} (m : PyM St A) (k : A -> PyM St B) : PyM St B :=
  fun s =>
    match m s with
    | (Ok a, s') => k a s'
    | (Raise e, s') => (Raise e, s')
    end.

Definition py_raise {A} (e : PyExc) : PyM St A := fun s => (Raise e, s).

Definition py_get : PyM St St := fun s => (Ok s, s).

Definition py_put (s : St) : PyM St unit := fun _ => (Ok tt, s).

(** [x = l[i]] style reads: a missing value raises [e]. *)
Definition of_option {A} (e : PyExc) (o : option A) : PyM St A :=
  match o with
  | Some a => py_ret a
  | None => py_raise e
  end.
End Monad.

Notation "x <- m ;; k" := (py_bind m (fun x => k))
  (at level 62, m at next level, right associativity) : py_scope.
Notation "m ;;; k" := (py_bind m (fun _ => k))
  (at level 62, right associativity) : py_scope.

Open Scope py_scope.

Section Loops.
Context {St : Type}.

(** A [for] loop that threads an accumulator: [for x in xs: acc = f(acc, x)]. *)
Fixpoint fold_m {A B} (f : B -> A -> PyM St B) (acc : B) (xs : list A) : PyM St B :=
  match xs with
  | [] => py_ret acc
  | x :: xs' => b <- f acc x;; fold_m f b xs'
  end.

(** [[f(x) for x in xs]]. *)
Fixpoint map_m {A B} (f : A -> PyM St B) (xs : list A) : PyM St (list B) :=
  match xs with
  | [] => py_ret []
  | x :: xs' => y <- f x;; ys <- map_m f xs';; py_ret (y :: ys)
  end.

(** [[m for _ in range(n)]]. *)
Fixpoint replicate_m {A} (n : nat) (m : PyM St A) : PyM St (list A) :=
  match n with
  | O => py_ret []
  | S n' => y <- m;; ys <- replicate_m n' m;; py_ret (y :: ys)
  end.
End Loops.

(** ** Python's [min] and [max] on numbers *)

#[export] Instance Qle_decision (x y : Q) : Decision (x <= y) :=
  match Qlt_le_dec y x with
  | left H => right (Qlt_not_le y x H)
  | right H => left H
  end.

#[export] Instance Qeq_decision (x y : Q) : Decision (x == y) := Qeq_dec x y.

#[export] Instance Qlt_decision (x y : Q) : Decision (x < y) :=
  match Qlt_le_dec x y with
  | left H => left H
  | right H => right (Qle_not_lt y x H)
  end.

Definition Qltb (x y : Q) : bool := negb (Qle_bool y x).

(** CPython's [min(a, b)] keeps [a] unless [b < a]; [max(a, b)] keeps [a]
    unless [b > a]. *)
Definition py_min (a b : Q) : Q := if Qltb b a then b else a.
Definition py_max (a b : Q) : Q := if Qltb a b then b else a.

(** ** Running the monad *)

Section Running.
Context {St : Type}.

Lemma py_bind_ok {A B} (m : PyM St A) (k : A -> PyM St B) s a s' :
  m s = (Ok a, s') -> (x <- m;; k x) s = k a s'.
Proof. intros H. unfold py_bind. by rewrite H. Qed.

Lemma py_bind_raise {A B} (m : PyM St A) (k : A -> PyM St B) s e s' :
  m s = (Raise e, s') -> (x <- m;; k x) s = (Raise e, s').
Proof. intros H. unfold py_bind. by rewrite H. Qed.

(** A loop over [xs] whose body succeeds on every element, producing a
    value related to it and moving the state by [adv x], succeeds; its
    state is the composition of the moves, in the order of [xs]. *)
Lemma map_m_run {A B} (f : A -> PyM St B) (R : A -> B -> Prop)
    (adv : A -> St -> St) (xs : list A) (s : St) :
  (forall x s0, x ∈ xs -> exists y, f x s0 = (Ok y, adv x s0) /\ R x y) ->
  exists ys, map_m f xs s = (Ok ys, fold_left (fun s0 x => adv x s0) xs s)
             /\ Forall2 R xs ys.
Proof.
  revert s. induction xs as [|x xs IH]; intros s Hf; simpl.
  - eexists; split; [reflexivity | constructor].
  - destruct (Hf x s) as [y [Hy HR]]; [by left|].
    destruct (IH (adv x s)) as [ys [Hys HRs]].
    { intros x' s0 Hx'. apply Hf. by right. }
    exists (y :: ys). unfold py_bind. rewrite Hy, Hys. split; [done|by constructor].
Qed.

Lemma replicate_m_run {A} (m : PyM St A) (P : A -> Prop) (adv : St -> St) n s :
  (forall s0, exists y, m s0 = (Ok y, adv s0) /\ P y) ->
  exists ys, replicate_m n m s = (Ok ys, Nat.iter n adv s)
             /\ length ys = n /\ Forall P ys.
Proof.
  intros Hm. revert s. induction n as [|n IH]; intros s; simpl.
  - eexists; split; [reflexivity | split; [done | constructor]].
  - destruct (Hm s) as [y [Hy Py]]. destruct (IH (adv s)) as [ys [Hys [Hl HP]]].
    exists (y :: ys). unfold py_bind. rewrite Hy, Hys, <- Nat.iter_succ_r.
    split; [done|]. split; [simpl; lia | by constructor].
Qed.
End Running.

(** ** Lemmas on [py_min] and [py_max] *)

Lemma Qltb_spec x y : BoolSpec (x < y) (y <= x) (Qltb x y).
Proof.
  unfold Qltb. destruct (Qle_bool y x) eqn:E; constructor.
  - by apply Qle_bool_iff.
  - apply Qnot_le_lt. intros H. apply Qle_bool_iff in H. congruence.
Qed.

(** Case on every comparison of a [py_min]/[py_max], then decide the
    linear arithmetic that is left. *)
Ltac py_minmax :=
  unfold py_min, py_max in *;
  repeat match goal with
    | |- context [Qltb ?x ?y] => destruct (Qltb_spec x y)
    | H : context [Qltb ?x ?y] |- _ => destruct (Qltb_spec x y)
    end;
  cbn iota in *; try reflexivity; try lra; try (exfalso; lra).

Create HintDb pyq discriminated.

Lemma py_min_le_l a b : py_min a b <= a.
Proof. py_minmax. Qed.
Lemma py_min_le_r a b : py_min a b <= b.
Proof. py_minmax. Qed.
Lemma py_min_glb c a b : c <= a -> c <= b -> c <= py_min a b.
Proof. py_minmax. Qed.
Lemma py_max_ge_l a b : a <= py_max a b.
Proof. py_minmax. Qed.
Lemma py_max_ge_r a b : b <= py_max a b.
Proof. py_minmax. Qed.
Lemma py_max_lub a b c : a <= c -> b <= c -> py_max a b <= c.
Proof. py_minmax. Qed.

(** [min] and [max] return their first argument unchanged when it wins or
    ties. *)
Lemma py_min_l a b : a <= b -> py_min a b = a.
Proof. intros. py_minmax. Qed.
Lemma py_max_l a b : b <= a -> py_max a b = a.
Proof. intros. py_minmax. Qed.
Lemma py_min_r a b : b < a -> py_min a b = b.
Proof. intros. py_minmax. Qed.
Lemma py_max_r a b : a < b -> py_max a b = b.
Proof. intros. py_minmax. Qed.

(** The clamp [max(lo, min(hi, x))] lands in [[lo, hi]]. *)
Lemma py_clamp_range lo hi x :
  lo <= hi -> lo <= py_max lo (py_min hi x) <= hi.
Proof. intros. py_minmax. Qed.

#[export] Hint Resolve py_min_le_l py_min_le_r py_min_glb py_max_ge_l
  py_max_ge_r py_max_lub py_clamp_range : pyq.

(** ** Lists written in place *)

(** Writing row [length l1] of [l1 ++ y :: l2] replaces [y]. *)
Lemma list_insert_middle {A} (l1 l2 : list A) (x y : A) :
  <[length l1 := x]> (l1 ++ y :: l2) = l1 ++ x :: l2.
Proof. pose proof (insert_app_r l1 (y :: l2) 0 x) as H. by rewrite Nat.add_0_r in H. Qed.

Lemma py_bind_ret_r {St A} (m : PyM St A) s : (x <- m;; py_ret x) s = m s.
Proof. unfold py_bind. by destruct (m s) as [[] ?]. Qed.

Lemma Forall2_Forall_transport {A B} (R : A -> B -> Prop) (P : A -> Prop) (Q : B -> Prop)
    (l : list A) (k : list B) :
  (forall x y, R x y -> P x -> Q y) -> Forall2 R l k -> Forall P l -> Forall Q k.
Proof. intros HRQ HR. induction HR; intros HP; inversion HP; subst; eauto. Qed.

(** Close a decidable proposition about concrete data by evaluating its
    decision procedure. *)
Ltac decide_by_eval := apply (bool_decide_unpack _); vm_compute; exact I.

(** A filter that keeps nothing of [l]. *)
Lemma filter_none {A} (P : A -> Prop) `{!forall x, Decision (P x)} (l : list A) :
  Forall (fun x => ~ P x) l -> filter P l = [].
Proof. induction 1; [done|]. rewrite filter_cons, decide_False; done. Qed.

Lemma lookup_map_Some {A B} (f : A -> B) (l : list A) i x :
  l !! i = Some x -> map f l !! i = Some (f x).
Proof.
  revert i. induction l as [|y l IH]; intros [|i] H; simpl in *; [done | done | | by apply IH].
  by injection H as ->.
Qed.

(** ** Computations that keep a relation on the state *)

(** [keeps R m]: running [m] relates the state before to the state after,
    whatever [m] returns. *)
Definition keeps {St A} (R : relation St) (m : PyM St A) : Prop :=
  forall s, R s (m s).2.

Section Keeps.
Context {St : Type} (R : relation St) `{!PreOrder R}.

Lemma keeps_ret {A} (a : A) : keeps R (py_ret a).
Proof. intros s. simpl. reflexivity. Qed.

Lemma keeps_raise {A} e : keeps R (@py_raise St A e).
Proof. intros s. simpl. reflexivity. Qed.

Lemma keeps_of_option {A} e (o : option A) : keeps R (of_option e o).
Proof. destruct o; [apply keeps_ret | apply keeps_raise]. Qed.

Lemma keeps_bind {A B} (m : PyM St A) (k : A -> PyM St B) :
  keeps R m -> (forall a, keeps R (k a)) -> keeps R (x <- m;; k x).
Proof.
  intros Hm Hk s. unfold py_bind. specialize (Hm s).
  destruct (m s) as [[a|e] s'] eqn:E; simpl in *; [etrans; [exact Hm | apply Hk] | exact Hm].
Qed.
End Keeps.

#[export] Hint Resolve keeps_ret keeps_raise keeps_of_option keeps_bind : pyq.

(** One step of a [keeps] proof: split a bind, or close a leaf. *)
Ltac keeps_step :=
  first [ eapply keeps_bind; [typeclasses eauto | | intros ?]
        | apply keeps_ret; typeclasses eauto
        | apply keeps_raise; typeclasses eauto
        | apply keeps_of_option; typeclasses eauto ].

(** Run the first statement of a [x <- m;; k] whose run is known. *)
Ltac run_with H := rewrite (py_bind_ok _ _ _ _ _ H); cbv beta.
