(* ===== verification/Format.v ===== *)
(** * Format: Python's [format(x, '.1f')] and a reader for its output

    The weather panel shows [f"{weather['temperature']:.1f}Â°C"] and
    [f"{weather['humidity']:.1f}%"] (main.py 151, 153).  For a float [x],
    CPython's fixed-point formatting with one decimal rounds the exact
    value of [x * 10] to the nearest integer, ties to even, and prints a
    minus sign whenever [x] is negative (so [-0.04] prints as [-0.0]).
    [format_1f] is that computation on a rational; [round_half_even] its
    rounding.  [parse_fixed] reads such a text back (an optional '-',
    digits, '.', digits, nothing after); it is the reader's side, not
    code of the program, and serves the round-trip theorem. *)

From stdpp Require Import pretty.
From Stdlib Require Import Qabs Ascii.
From S2P Require Import Prelude.

Local Open Scope Q_scope.

(** Round to the nearest integer, ties to even. *)
Definition round_half_even (x : Q) : Z :=
  let f := Qfloor x in
  let r := x - inject_Z f in
  if Qltb r (1#2) then f
  else if Qltb (1#2) r then (f + 1)%Z
  else if Z.even f then f else (f + 1)%Z.

(** [format(x, '.1f')] *)
Definition format_1f (x : Q) : string :=
  let n := Z.to_N (round_half_even (Qabs x * 10)) in
  (if Qltb x 0 then "-" else "") +:+ pretty (n `div` 10)%N +:+ "." +:+ pretty (n `mod` 10)%N.

(** ** A reader for fixed-point texts *)

Definition digit_of (c : Ascii.ascii) : option N :=
  match c with
  | "0" => Some 0%N | "1" => Some 1%N | "2" => Some 2%N | "3" => Some 3%N
  | "4" => Some 4%N | "5" => Some 5%N | "6" => Some 6%N | "7" => Some 7%N
  | "8" => Some 8%N | "9" => Some 9%N
  | _ => None
  end%char.

(** Read digits into [acc], counting them in [k]; return the value, the
    count and the rest. *)
Fixpoint read_digits (acc : N) (k : nat) (s : string) : N * nat * string :=
  match s with
  | String c s' =>
      match digit_of c with
      | Some d => read_digits (10 * acc + d)%N (S k) s'
      | None => (acc, k, s)
      end
  | EmptyString => (acc, k, s)
  end.

Definition parse_unsigned (s1 : string) : option Q :=
  let '(ip, ni, s2) := read_digits 0 0 s1 in
  match s2 with
  | String "."%char s3 =>
      let '(fp, nf, s4) := read_digits 0 0 s3 in
      if Nat.eqb ni 0 || Nat.eqb nf 0 || negb (bool_decide (s4 = "")) then None
      else Some (inject_Z (Z.of_N ip) + inject_Z (Z.of_N fp) / inject_Z (10 ^ Z.of_nat nf))
  | _ => None
  end.

Definition parse_fixed (s : string) : option Q :=
  match s with
  | String c s' => if decide (c = "-"%char) then Qopp <$> parse_unsigned s' else parse_unsigned s
  | EmptyString => parse_unsigned s
  end.

(** ** Rounding *)

Lemma round_half_even_bound x :
  x - (1#2) <= inject_Z (round_half_even x) <= x + (1#2).
Proof.
  unfold round_half_even.
  pose proof (Qfloor_le x) as Hl. pose proof (Qlt_floor x) as Hu.
  rewrite inject_Z_plus in Hu. change (inject_Z 1) with 1 in Hu.
  destruct (Qltb_spec (x - inject_Z (Qfloor x)) (1#2)); [lra|].
  destruct (Qltb_spec (1#2) (x - inject_Z (Qfloor x)));
    [| destruct (Z.even (Qfloor x))]; rewrite ?inject_Z_plus; change (inject_Z 1) with 1; lra.
Qed.

Lemma round_half_even_nonneg x : 0 <= x -> (0 <= round_half_even x)%Z.
Proof.
  intros Hx. pose proof (round_half_even_bound x) as [Hl _].
  assert (Hlt : (-1 < round_half_even x)%Z).
  { rewrite Zlt_Qlt. change (inject_Z (-1)) with (-1). lra. }
  lia.
Qed.

(** The two outcomes of the rounding: down to the floor when the fraction
    is at most one half, up when it is at least one half, to the even one
    on a tie. *)
Lemma round_half_even_cases x :
  let f := Qfloor x in let r := x - inject_Z f in
  (round_half_even x = f /\ r <= 1#2 /\ (r == 1#2 -> Z.even f = true))
  \/ (round_half_even x = (f + 1)%Z /\ 1#2 <= r /\ (r == 1#2 -> Z.even (f + 1) = true)).
Proof.
  cbv zeta. unfold round_half_even.
  destruct (Qltb_spec (x - inject_Z (Qfloor x)) (1#2)); [left; split_and!; [done|lra|lra]|].
  destruct (Qltb_spec (1#2) (x - inject_Z (Qfloor x))); [right; split_and!; [done|lra|lra]|].
  destruct (Z.even (Qfloor x)) eqn:He; [left | right]; split_and!; try done; try lra.
  intros _. by rewrite Z.even_add, He.
Qed.

(** An integer is at least as far from [x] as both ends of the unit
    interval holding [x]. *)
Lemma int_dist_lower x f d k :
  inject_Z f <= x < inject_Z f + 1 -> d <= x - inject_Z f -> d <= inject_Z f + 1 - x ->
  d <= Qabs (x - inject_Z k).
Proof.
  intros Hx H1 H2. pose proof (Qle_Qabs (x - inject_Z k)) as Ha.
  pose proof (Qle_Qabs (- (x - inject_Z k))) as Hb. rewrite Qabs_opp in Hb.
  destruct (Z.le_gt_cases k f) as [Hk|Hk].
  - rewrite Zle_Qle in Hk. lra.
  - assert (Hk' : (f + 1 <= k)%Z) by lia. rewrite Zle_Qle in Hk'.
    rewrite inject_Z_plus in Hk'. change (inject_Z 1) with 1 in Hk'. lra.
Qed.

(** ** Reading back what [pretty] prints *)

Lemma digit_of_pretty_char d : (d < 10)%N -> digit_of (pretty_N_char d) = Some d.
Proof.
  intros Hd. assert (d = 0 \/ d = 1 \/ d = 2 \/ d = 3 \/ d = 4 \/ d = 5 \/ d = 6
                     \/ d = 7 \/ d = 8 \/ d = 9)%N as Hcases by lia.
  by repeat destruct Hcases as [->|Hcases]; [..|subst].
Qed.

Lemma pretty_digit d : (d < 10)%N -> pretty d = String (pretty_N_char d) "".
Proof.
  intros Hd. assert (d = 0 \/ d = 1 \/ d = 2 \/ d = 3 \/ d = 4 \/ d = 5 \/ d = 6
                     \/ d = 7 \/ d = 8 \/ d = 9)%N as Hcases by lia.
  by repeat destruct Hcases as [->|Hcases]; [..|subst].
Qed.

(** Reading the digits [pretty_N_go x] puts before [s] adds them to the
    accumulator, as many as there are. *)
Lemma read_digits_pretty_go x s t acc k :
  exists j, read_digits acc k (pretty_N_go x s +:+ t)
            = read_digits (acc * 10 ^ N.of_nat j + x)%N (k + j) (s +:+ t)
            /\ ((0 < x)%N -> (0 < j)%nat).
Proof.
  revert s acc k. induction (N.lt_wf_0 x) as [x _ IH]; intros s acc k.
  destruct (decide (x = 0%N)) as [->|Hx].
  - exists 0%nat. rewrite pretty_N_go_0, N.pow_0_r, N.mul_1_r, N.add_0_r, Nat.add_0_r.
    split; [done | lia].
  - rewrite pretty_N_go_step by lia.
    destruct (IH (x `div` 10)%N ltac:(apply N.div_lt; lia)
                (String (pretty_N_char (x `mod` 10)) s) acc k) as [j [Hj _]].
    exists (S j). rewrite Hj.
    change (String (pretty_N_char (x `mod` 10)) s +:+ t)
      with (String (pretty_N_char (x `mod` 10)) (s +:+ t)).
    unfold read_digits at 1. fold read_digits.
    rewrite digit_of_pretty_char by (apply N.mod_lt; lia).
    split; [|lia]. rewrite Nat.add_succ_r, Nat2N.inj_succ, N.pow_succ_r'. f_equal.
    pose proof (N.div_mod x 10 ltac:(lia)). nia.
Qed.

(** Reading stops at a character that is not a digit, or at the end. *)
Definition stops (t : string) : Prop :=
  match t with
  | EmptyString => True
  | String c _ => digit_of c = None
  end.

Lemma read_digits_stop acc k t : stops t -> read_digits acc k t = (acc, k, t).
Proof. destruct t as [|c t]; simpl; [done|]. by intros ->. Qed.

(** The digits [pretty n] prints read back as [n]. *)
Lemma read_digits_pretty n t :
  stops t -> exists j, read_digits 0 0 (pretty n +:+ t) = (n, j, t) /\ (0 < j)%nat.
Proof.
  intros Ht. unfold pretty, pretty_N. case_decide as Hn.
  - subst. exists 1%nat. split; [|lia]. destruct t as [|c t]; simpl in *; [done|]. by rewrite Ht.
  - destruct (read_digits_pretty_go n "" t 0 0) as [j [Hj Hpos]].
    exists j. rewrite Hj. simpl. rewrite read_digits_stop by done. split; [done | apply Hpos; lia].
Qed.

(** The value a [format_1f] text stands for. *)
Definition value_1f (x : Q) : Q :=
  let v := inject_Z (round_half_even (Qabs x * 10)) / 10 in
  if Qltb x 0 then - v else v.

Lemma value_1f_bound x : x - (1#20) <= value_1f x <= x + (1#20).
Proof.
  unfold value_1f. pose proof (round_half_even_bound (Qabs x * 10)) as Hb.
  set (r := inject_Z (round_half_even (Qabs x * 10))) in *.
  unfold Qdiv. change (/ 10) with (1#10).
  destruct (Qltb_spec x 0).
  - rewrite Qabs_neg in Hb by lra. lra.
  - rewrite Qabs_pos in Hb by lra. lra.
Qed.

(** A text whose leading digits are not empty has no sign. *)
Lemma parse_fixed_unsigned s n j t :
  read_digits 0 0 s = (n, j, t) -> (0 < j)%nat -> parse_fixed s = parse_unsigned s.
Proof.
  destruct s as [|c s]; [done|]. intros Hr Hj. simpl.
  case_decide as Hc; [|done]. subst. simpl in Hr. simplify_eq. lia.
Qed.

Lemma parse_unsigned_digits a b :
  (b < 10)%N ->
  parse_unsigned (pretty a +:+ "." +:+ pretty b)
  = Some (inject_Z (Z.of_N a) + inject_Z (Z.of_N b) / 10).
Proof.
  intros Hb. destruct (read_digits_pretty a ("." +:+ pretty b)) as [j [Hj Hpos]]; [done|].
  unfold parse_unsigned. rewrite Hj. rewrite pretty_digit by done. simpl.
  rewrite digit_of_pretty_char by done. simpl.
  destruct j; [lia|]. done.
Qed.

Lemma digits_value (n : N) :
  inject_Z (Z.of_N (n `div` 10)) + inject_Z (Z.of_N (n `mod` 10)) / 10
  == inject_Z (Z.of_N n) / 10.
Proof.
  assert (Hn : Z.of_N n = (10 * Z.of_N (n `div` 10) + Z.of_N (n `mod` 10))%Z).
  { pose proof (N.div_mod n 10 ltac:(lia)). lia. }
  rewrite Hn, inject_Z_plus, inject_Z_mult. change (inject_Z 10) with 10. field.
Qed.

(** ** Round trip *)

(** The text of [format_1f x] reads back as [value_1f x]. *)
Lemma format_1f_reads_back x :
  exists y, parse_fixed (format_1f x) = Some y /\ y == value_1f x
            /\ x - (1#20) <= y <= x + (1#20).
Proof.
  unfold format_1f, value_1f.
  set (r := round_half_even (Qabs x * 10)).
  assert (Hr : (0 <= r)%Z) by (apply round_half_even_nonneg; pose proof (Qabs_nonneg x); lra).
  set (n := Z.to_N r).
  assert (Hnr : Z.of_N n = r) by (unfold n; lia).
  pose proof (parse_unsigned_digits (n `div` 10) (n `mod` 10) ltac:(apply N.mod_lt; lia)) as Hp.
  pose proof (digits_value n) as Hv. rewrite Hnr in Hv.
  pose proof (value_1f_bound x) as Hb. unfold value_1f in Hb. fold r in Hb.
  destruct (Qltb x 0).
  - eexists. split.
    { change ("-" +:+ ?s) with (String "-"%char s). unfold parse_fixed.
      rewrite decide_True by done. rewrite Hp. reflexivity. }
    split; [|rewrite Hv]; [rewrite Hv; reflexivity | lra].
  - destruct (read_digits_pretty (n `div` 10)%N ("." +:+ pretty (n `mod` 10)%N)) as [j [Hj Hpos]];
      [done|].
    eexists. split; [change ("" +:+ ?s) with s; rewrite (parse_fixed_unsigned _ _ _ _ Hj Hpos); exact Hp|].
    split; [|rewrite Hv]; [exact Hv | lra].
Qed.

(** [round_half_even] is Python's rounding: no integer is nearer to
    [x] than the result, and on a tie (distance one half) the result is
    even. *)
Lemma round_half_even_spec x :
  (forall k : Z, Qabs (x - inject_Z (round_half_even x)) <= Qabs (x - inject_Z k))
  /\ (Qabs (x - inject_Z (round_half_even x)) == 1#2 -> Z.even (round_half_even x) = true).
Proof.
  pose proof (Qfloor_le x) as Hl. pose proof (Qlt_floor x) as Hu.
  rewrite inject_Z_plus in Hu. change (inject_Z 1) with 1 in Hu.
  destruct (round_half_even_cases x) as [(-> & Hr & Ht) | (-> & Hr & Ht)];
    cbv zeta in *; rewrite ?inject_Z_plus in *; change (inject_Z 1) with 1 in *; split.
  - intros k. rewrite Qabs_pos by lra. apply (int_dist_lower x (Qfloor x)); lra.
  - rewrite Qabs_pos by lra. exact Ht.
  - intros k. rewrite Qabs_neg by lra. apply (int_dist_lower x (Qfloor x)); lra.
  - rewrite Qabs_neg by lra. intros Hh. apply Ht. lra.
Qed.

Example format_samples :
  format_1f (2537#100) = "25.4" /\ format_1f (-(4#100)) = "-0.0"
  /\ format_1f (25#100) = "0.2" /\ format_1f 20 = "20.0"
  /\ parse_fixed "12." = None /\ parse_fixed "-3.25" = Some (-(325#100)).
Proof. vm_compute. split_and!; reflexivity. Qed.

(** ** What a reader decodes

    Strings of the program are byte strings (a Rocq [string] holds bytes);
    a browser shows them decoded as UTF-8.  [utf8_decode] reads the
    one- and two-byte sequences, which is all the texts here use. *)

Fixpoint ascii_text (s : string) : bool :=
  match s with
  | EmptyString => true
  | String c s' => (N_of_ascii c <? 128)%N && ascii_text s'
  end.

Fixpoint utf8_decode (s : string) : option (list N) :=
  match s with
  | EmptyString => Some []
  | String c s' =>
      let b := N_of_ascii c in
      if (b <? 128)%N then cons b <$> utf8_decode s'
      else if (192 <=? b)%N && (b <? 224)%N then
        match s' with
        | String c2 s'' =>
            let b2 := N_of_ascii c2 in
            if (128 <=? b2)%N && (b2 <? 192)%N
            then cons ((b - 192) * 64 + (b2 - 128))%N <$> utf8_decode s''
            else None
        | EmptyString => None
        end
      else None
  end.

Lemma ascii_text_app s t : ascii_text (s +:+ t) = ascii_text s && ascii_text t.
Proof. induction s as [|c s IH]; simpl; [done|]. by rewrite IH, andb_assoc. Qed.

Lemma ascii_text_pretty_N_go x s : ascii_text (pretty_N_go x s) = ascii_text s.
Proof.
  revert s. induction (N.lt_wf_0 x) as [x _ IH]; intros s.
  destruct (decide (x = 0%N)) as [->|Hx]; [done|].
  rewrite pretty_N_go_step by lia. rewrite IH by (apply N.div_lt; lia). simpl.
  assert (Hc : (N_of_ascii (pretty_N_char (x `mod` 10)) <? 128)%N = true).
  { unfold pretty_N_char. repeat case_match; reflexivity. }
  by rewrite Hc.
Qed.

Lemma ascii_text_pretty (n : N) : ascii_text (pretty n) = true.
Proof.
  unfold pretty, pretty_N. case_decide; [done|]. by rewrite ascii_text_pretty_N_go.
Qed.

Lemma ascii_text_format_1f x : ascii_text (format_1f x) = true.
Proof.
  unfold format_1f. rewrite !ascii_text_app, !ascii_text_pretty.
  by destruct (Qltb x 0).
Qed.

(** An ASCII prefix decodes to its own bytes. *)
Lemma utf8_decode_ascii_app s t :
  ascii_text s = true ->
  utf8_decode (s +:+ t) = app (N_of_ascii <$> String.list_ascii_of_string s) <$> utf8_decode t.
Proof.
  induction s as [|c s IH]; intros Hs.
  - change ("" +:+ t) with t. by destruct (utf8_decode t).
  - change (String c s +:+ t) with (String c (s +:+ t)). simpl in *.
    apply andb_prop in Hs as [-> Hs]. rewrite IH by done. by destruct (utf8_decode t).
Qed.

(** [2.5] lies halfway between [2] and [3]; the rounding picks [2]. *)
