(* ===== verification/Css.v ===== *)
(** * Css: the style sheet of main.py

    main.py 17-96 hands [st.markdown] one string literal with
    [unsafe_allow_html=True]: a [<style>] element holding an [@import] of
    the Orbitron font and fourteen rules that colour and set the font of
    Streamlit's elements.  [css_source] is that literal, line by line as
    the source has it ([dq] stands for the double quote the literal holds
    inside the attribute selectors).  [stylesheet] is the same sheet as
    data: items that are an [@import] or a rule (its selectors and its
    declarations, each a property, a value and its [!important] flag).
    The printer [style_block] is not code of the program: it lays a sheet
    out the way the literal is laid out, so that [style_block_source]
    (the data printed is the literal, byte for byte) ties [stylesheet] to
    main.py.  Page.v hands [css_source] to [st.markdown]. *)

From Stdlib Require Import Ascii.
From S2P Require Import Prelude.

(** ** The sheet as data *)

Record Decl := decl { d_property : string; d_value : string; d_important : bool }.

Inductive CssItem :=
  | CssImport (url : string)
  | CssRule (selectors : list string) (decls : list Decl).

Definition Stylesheet := list CssItem.

(** The double quote, which a string literal here cannot hold. *)
Definition dq : string := String "034"%char EmptyString.

Definition nl : ascii := "010"%char.

Definition stylesheet : Stylesheet := [
  CssImport "'https://fonts.googleapis.com/css2?family=Orbitron:wght@400;500;600;700&display=swap'";
  CssRule [".stApp"]
    [decl "background-color" "rgba(0, 0, 0, 0.95)" false];
  CssRule [".main"]
    [decl "background-color" "rgba(0, 0, 0, 0.95)" false];
  CssRule [".stMarkdown"; ".stTitle"; ".stHeader"]
    [decl "font-family" "'Orbitron', sans-serif" true;
     decl "color" "#00ff00" true];
  CssRule [("div[data-testid=" +:+ dq +:+ "stMetricValue" +:+ dq +:+ "]")]
    [decl "font-family" "'Orbitron', sans-serif" true;
     decl "color" "#00ff00" true];
  CssRule ["div.stButton > button"]
    [decl "font-family" "'Orbitron', sans-serif" true;
     decl "background-color" "rgba(0, 68, 0, 0.8)" false;
     decl "color" "#00ff00" false;
     decl "border" "1px solid #00ff00" false];
  CssRule [("div[data-testid=" +:+ dq +:+ "stSelectbox" +:+ dq +:+ "]")]
    [decl "font-family" "'Orbitron', sans-serif" true;
     decl "color" "#00ff00" false];
  CssRule ["div.stDataFrame"]
    [decl "font-family" "'Orbitron', sans-serif" true;
     decl "background-color" "rgba(0, 68, 0, 0.3)" false;
     decl "border" "1px solid #00ff00" false];
  CssRule [("div[data-testid=" +:+ dq +:+ "stMetricLabel" +:+ dq +:+ "]")]
    [decl "font-family" "'Orbitron', sans-serif" true;
     decl "color" "#00ff00" false];
  CssRule [".reportview-container"]
    [decl "background" "rgba(0, 0, 0, 0.95)" false];
  CssRule [".sidebar .sidebar-content"]
    [decl "background" "rgba(0, 0, 0, 0.95)" false];
  CssRule ["h1"]
    [decl "font-family" "'Orbitron', sans-serif" true;
     decl "text-align" "center" true;
     decl "width" "100%" true;
     decl "color" "#00ff00" true;
     decl "padding" "1rem" false;
     decl "border-bottom" "2px solid #00ff00" false;
     decl "margin-bottom" "2rem" false];
  CssRule [("div[data-testid=" +:+ dq +:+ "stHeader" +:+ dq +:+ "]")]
    [decl "background-color" "rgba(0, 0, 0, 0.95)" false];
  CssRule [".stWarning"]
    [decl "background-color" "rgba(0, 68, 0, 0.3)" false;
     decl "border" "1px solid #00ff00" false;
     decl "color" "#00ff00" false];
  CssRule [".stInfo"]
    [decl "background-color" "rgba(0, 68, 0, 0.3)" false;
     decl "border" "1px solid #00ff00" false;
     decl "color" "#00ff00" false]
].

(** main.py 17-96: the lines of the literal passed to [st.markdown]; the
    literal starts with the newline after its opening quotes. *)
Definition css_lines : list string := [
  "<style>";
  "@import url('https://fonts.googleapis.com/css2?family=Orbitron:wght@400;500;600;700&display=swap');";
  "";
  ".stApp {";
  "    background-color: rgba(0, 0, 0, 0.95);";
  "}";
  "";
  ".main {";
  "    background-color: rgba(0, 0, 0, 0.95);";
  "}";
  "";
  ".stMarkdown, .stTitle, .stHeader {";
  "    font-family: 'Orbitron', sans-serif !important;";
  "    color: #00ff00 !important;";
  "}";
  "";
  "div[data-testid=" +:+ dq +:+ "stMetricValue" +:+ dq +:+ "] {";
  "    font-family: 'Orbitron', sans-serif !important;";
  "    color: #00ff00 !important;";
  "}";
  "";
  "div.stButton > button {";
  "    font-family: 'Orbitron', sans-serif !important;";
  "    background-color: rgba(0, 68, 0, 0.8);";
  "    color: #00ff00;";
  "    border: 1px solid #00ff00;";
  "}";
  "";
  "div[data-testid=" +:+ dq +:+ "stSelectbox" +:+ dq +:+ "] {";
  "    font-family: 'Orbitron', sans-serif !important;";
  "    color: #00ff00;";
  "}";
  "";
  "div.stDataFrame {";
  "    font-family: 'Orbitron', sans-serif !important;";
  "    background-color: rgba(0, 68, 0, 0.3);";
  "    border: 1px solid #00ff00;";
  "}";
  "";
  "div[data-testid=" +:+ dq +:+ "stMetricLabel" +:+ dq +:+ "] {";
  "    font-family: 'Orbitron', sans-serif !important;";
  "    color: #00ff00;";
  "}";
  "";
  ".reportview-container {";
  "    background: rgba(0, 0, 0, 0.95);";
  "}";
  "";
  ".sidebar .sidebar-content {";
  "    background: rgba(0, 0, 0, 0.95);";
  "}";
  "";
  "h1 {";
  "    font-family: 'Orbitron', sans-serif !important;";
  "    text-align: center !important;";
  "    width: 100% !important;";
  "    color: #00ff00 !important;";
  "    padding: 1rem;";
  "    border-bottom: 2px solid #00ff00;";
  "    margin-bottom: 2rem;";
  "}";
  "";
  "div[data-testid=" +:+ dq +:+ "stHeader" +:+ dq +:+ "] {";
  "    background-color: rgba(0, 0, 0, 0.95);";
  "}";
  "";
  ".stWarning {";
  "    background-color: rgba(0, 68, 0, 0.3);";
  "    border: 1px solid #00ff00;";
  "    color: #00ff00;";
  "}";
  "";
  ".stInfo {";
  "    background-color: rgba(0, 68, 0, 0.3);";
  "    border: 1px solid #00ff00;";
  "    color: #00ff00;";
  "}";
  "</style>"
].

Definition css_source : string :=
  String nl (String.concat (String nl EmptyString) css_lines +:+ String nl EmptyString).

(** ** Printing a sheet in the layout of the source *)

Definition lstr : string -> list ascii := String.list_ascii_of_string.

Definition print_decl (d : Decl) : list ascii :=
  lstr "    " ++ lstr (d_property d) ++ lstr ": " ++ lstr (d_value d)
  ++ (if d_important d then lstr " !important" else []) ++ lstr ";" ++ [nl].

Fixpoint print_selectors (sels : list string) : list ascii :=
  match sels with
  | [] => []
  | [s] => lstr s
  | s :: rest => lstr s ++ lstr ", " ++ print_selectors rest
  end.

Definition print_item (i : CssItem) : list ascii :=
  match i with
  | CssImport u => lstr "@import url(" ++ lstr u ++ lstr ");" ++ [nl]
  | CssRule sels ds => print_selectors sels ++ lstr " {" ++ [nl] ++ flat_map print_decl ds ++ lstr "}" ++ [nl]
  end.

(** Items are separated by an empty line. *)
Fixpoint print_items (items : Stylesheet) : list ascii :=
  match items with
  | [] => []
  | [i] => print_item i
  | i :: rest => print_item i ++ [nl] ++ print_items rest
  end.

Definition style_block (sheet : Stylesheet) : string :=
  String.string_of_list_ascii ([nl] ++ lstr "<style>" ++ [nl] ++ print_items sheet ++ lstr "</style>" ++ [nl]).

Lemma style_block_source : style_block stylesheet = css_source.
Proof. vm_compute. reflexivity. Qed.
