(* ===== verification/PyRandom.v ===== *)
(** * PyRandom: the part of Python's [random] module the script calls

    [src/main.py] draws every value through the module-level functions
    [random.uniform], [random.choice] and [random.choices].  In CPython
    (Lib/random.py) these are computed from two primitives of the
    process-wide generator: [random()], a float in [[0, 1)], and
    [_randbelow(n)], an integer in [[0, n)].  The class [PyRandom] is that
    interface over a generator state [G], [PyRandomLaws] its two range
    laws; [uniform], [choice] and [choices] are written on top of it as
    Lib/random.py writes them.  All theorems about the script are proved
    for every generator satisfying the laws; [Replay], a generator that
    replays recorded draws, gives the witnesses a concrete one. *)

From S2P Require Import Prelude.

Local Open Scope Q_scope.

Class PyRandom (G : Type) := {
  random_step : G -> Q * G;
  randbelow_step : nat -> G -> nat * G
}.

Class PyRandomLaws (G : Type) `{!PyRandom G} := {
  random_range : forall g, 0 <= (random_step g).1 < 1;
  randbelow_range : forall n g, (0 < n)%nat -> ((randbelow_step n g).1 < n)%nat
}.

Section Draws.
Context {G : Type} `{!PyRandom G}.

(** [self.random()] *)
Definition random : PyM G Q :=
  fun g => let '(r, g') := random_step g in (Ok r, g').

(** [self._randbelow(n)] *)
Definition randbelow (n : nat) : PyM G nat :=
  fun g => let '(k, g') := randbelow_step n g in (Ok k, g').

(** [uniform(a, b)]: [return a + (b - a) * self.random()]. *)
Definition uniform (a b : Q) : PyM G Q :=
  r <- random;; py_ret (a + (b - a) * r).

(** [choice(seq)]: an empty sequence raises [IndexError], otherwise
    [seq[self._randbelow(len(seq))]]. *)
Definition choice {A} (seq : list A) : PyM G A :=
  if decide (length seq = 0%nat) then py_raise IndexError
  else i <- randbelow (length seq);; of_option IndexError (seq !! i).

(** [choices(population, k=k)] with no weights:
    [n = len(population)] and
    [[population[floor(random() * n)] for i in _repeat(None, k)]]. *)
Definition choices {A} (population : list A) (k : nat) : PyM G (list A) :=
  let n := inject_Z (Z.of_nat (length population)) in
  replicate_m k
    (r <- random;; of_option IndexError (population !! Z.to_nat (Qfloor (r * n)))).
End Draws.

(** The state of the generator after [k] calls of [random()]. *)
Definition after_randoms {G} `{!PyRandom G} (k : nat) (g : G) : G :=
  Nat.iter k (fun g0 => (random_step g0).2) g.

(** ** A generator that replays recorded values of [random()] *)

(** A recorded value outside [[0, 1)] is read as [0], and an exhausted
    record keeps drawing [0]; [_randbelow(n)] is [floor(r * n)] of the
    next recorded [r]. *)
Record Replay := { recorded : list Q }.

Definition clip01 (r : Q) : Q := if Qle_bool 0 r && Qltb r 1 then r else 0.

Definition floor_index (r : Q) (n : nat) : nat :=
  Z.to_nat (Qfloor (r * inject_Z (Z.of_nat n))).

#[export] Instance Replay_random : PyRandom Replay := {
  random_step g :=
    match recorded g with
    | [] => (0, g)
    | r :: rs => (clip01 r, {| recorded := rs |})
    end;
  randbelow_step n g :=
    match recorded g with
    | [] => (0%nat, g)
    | r :: rs => (floor_index (clip01 r) n, {| recorded := rs |})
    end
}.

(** ** The draws under the laws *)

Lemma floor_index_lt r n :
  0 <= r < 1 -> (0 < n)%nat -> (floor_index r n < n)%nat.
Proof.
  intros [H0 H1] Hn. unfold floor_index.
  assert (HN : 0 < inject_Z (Z.of_nat n)) by (unfold Qlt; simpl; lia).
  assert (Hlt : (Qfloor (r * inject_Z (Z.of_nat n)) < Z.of_nat n)%Z).
  { rewrite Zlt_Qlt. eapply Qle_lt_trans; [apply Qfloor_le | nra]. }
  lia.
Qed.

Lemma clip01_range r : 0 <= clip01 r < 1.
Proof.
  unfold clip01. destruct (Qle_bool 0 r) eqn:E; simpl; [|lra].
  apply Qle_bool_iff in E. destruct (Qltb_spec r 1); lra.
Qed.

#[export] Instance Replay_laws : PyRandomLaws Replay.
Proof.
  split.
  - intros [[|r rs]]; simpl; [lra | apply clip01_range].
  - intros n [[|r rs]] Hn; simpl; [lia | apply floor_index_lt; [apply clip01_range | done]].
Qed.

Section Laws.
Context {G : Type} `{!PyRandom G, !PyRandomLaws G}.

Lemma random_run g : random g = (Ok (random_step g).1, after_randoms 1 g).
Proof. unfold random, after_randoms. simpl. by destruct (random_step g). Qed.

(** [uniform(a, b)] takes one [random()] and lands in [[a, b]]. *)
Lemma uniform_run a b g :
  uniform a b g = (Ok (a + (b - a) * (random_step g).1), after_randoms 1 g).
Proof. unfold uniform. by rewrite (py_bind_ok _ _ _ _ _ (random_run g)). Qed.

Lemma uniform_spec a b g :
  a <= b -> exists u, uniform a b g = (Ok u, after_randoms 1 g) /\ a <= u <= b.
Proof.
  intros Hab. rewrite uniform_run. eexists; split; [reflexivity|].
  pose proof (random_range g). nra.
Qed.

(** [choice] on a non-empty sequence returns one of its elements after one
    [_randbelow]; on an empty one it raises [IndexError]. *)
Lemma choice_run {A} (seq : list A) g :
  seq <> [] ->
  exists x, choice seq g = (Ok x, (randbelow_step (length seq) g).2) /\ x ∈ seq.
Proof.
  intros Hne. unfold choice.
  rewrite decide_False by (destruct seq; simpl; congruence).
  pose proof (randbelow_range (length seq) g) as Hr.
  destruct (lookup_lt_is_Some_2 seq (randbelow_step (length seq) g).1) as [x Hx].
  { apply Hr. destruct seq; simpl; [congruence | lia]. }
  exists x. unfold py_bind, randbelow. destruct (randbelow_step _ g) as [i g'] eqn:E.
  simpl in *. rewrite Hx. split; [done | by eapply list_elem_of_lookup_2].
Qed.

Lemma choice_empty {A} g : @choice G _ A [] g = (Raise IndexError, g).
Proof. reflexivity. Qed.

(** [choices(population, k=k)] on a non-empty population returns [k]
    elements of it after [k] calls of [random()]. *)
Lemma choices_run {A} (population : list A) k g :
  population <> [] ->
  exists ys, choices population k g = (Ok ys, after_randoms k g)
             /\ length ys = k /\ Forall (fun y => y ∈ population) ys.
Proof.
  intros Hne. apply replicate_m_run. intros g0.
  assert (Hn : (0 < length population)%nat) by (destruct population; simpl; [congruence | lia]).
  pose proof (floor_index_lt _ _ (random_range g0) Hn) as Hi.
  destruct (lookup_lt_is_Some_2 _ _ Hi) as [y Hy].
  exists y. rewrite (py_bind_ok _ _ _ _ _ (random_run g0)).
  unfold floor_index in Hy. cbv beta. rewrite Hy.
  split; [done | by eapply list_elem_of_lookup_2].
Qed.
End Laws.

#[export] Hint Resolve uniform_spec choice_run choices_run : pyq.

Lemma after_randoms_add {G} `{!PyRandom G} m n (g : G) :
  after_randoms m (after_randoms n g) = after_randoms (m + n) g.
Proof. unfold after_randoms. by rewrite Nat.iter_add. Qed.

Lemma after_randoms_iter {G} `{!PyRandom G} n (g : G) :
  Nat.iter n (after_randoms 1) g = after_randoms n g.
Proof.
  induction n as [|n IH]; [done|].
  by rewrite Nat.iter_succ, IH, after_randoms_add.
Qed.

(** [k] draws of [uniform(a, b)] take [k] calls of [random()] and land in
    [[a, b]]. *)
Lemma uniforms_run {G} `{!PyRandom G, !PyRandomLaws G} k a b (g : G) :
  a <= b ->
  exists us, replicate_m k (uniform a b) g = (Ok us, after_randoms k g)
             /\ length us = k /\ Forall (fun u => a <= u <= b) us.
Proof.
  intros Hab. rewrite <- after_randoms_iter. apply replicate_m_run.
  intros g0. by apply uniform_spec.
Qed.
