(* ===== verification/Telemetry.v ===== *)
(** * Telemetry: the fleet of pods and its update rule

    [st.session_state.pods] is a pandas DataFrame with the columns
    'Pod Name', 'Speed (km/h)', 'Battery (%)' and 'Status' and the index
    0, 1, 2; it is modelled as the list of its rows, a row as the record
    [Pod], the 'Status' strings as the enumeration [Status] (printed back
    by [status_str]).  [init_pods] is the DataFrame built when a session
    has none (main.py 103-108), [update_pod_data] the loop of main.py
    110-114, written as the source writes it: an index loop that reads a
    row with [.loc] and writes its speed, then its battery.  [update_row]
    is the same rule on one row; the loop is proved equal to mapping it
    over the rows, and every theorem about the update is proved from
    that equation and the laws of the random source. *)

From Stdlib Require Import Qminmax.
From S2P Require Import Prelude PyRandom.

Local Open Scope Q_scope.

Inductive Status := Operational | Maintenance | Docked.

#[export] Instance Status_eq_dec : EqDecision Status.
Proof. solve_decision. Defined.

(** The strings stored in the 'Status' column. *)
Definition status_str (s : Status) : string :=
  match s with
  | Operational => "Operational"
  | Maintenance => "Maintenance"
  | Docked => "Docked"
  end.

(** The population handed to [random.choices] (main.py 107). *)
Definition statuses : list Status := [Operational; Maintenance; Docked].

(** One row of the DataFrame. *)
Record Pod := mkPod {
  pod_name : string;
  speed : Q;
  battery : Q;
  status : Status
}.

Definition set_speed (v : Q) (p : Pod) : Pod :=
  mkPod (pod_name p) v (battery p) (status p).

Definition set_battery (v : Q) (p : Pod) : Pod :=
  mkPod (pod_name p) (speed p) v (status p).

Definition pod_names : list string := ["Avishkar-1"; "Avishkar-2"; "Avishkar-3"].

(** [pd.DataFrame({...})] from four columns: the rows, or [ValueError]
    when the columns differ in length. *)
Fixpoint zip_rows (names : list string) (sp bt : list Q) (st : list Status) : list Pod :=
  match names, sp, bt, st with
  | n :: ns, s :: ss, b :: bs, t :: ts => mkPod n s b t :: zip_rows ns ss bs ts
  | _, _, _, _ => []
  end.

Definition make_frame {S} (names : list string) (sp bt : list Q) (st : list Status)
    : PyM S (list Pod) :=
  if decide (length sp = length names /\ length bt = length names
             /\ length st = length names)
  then py_ret (zip_rows names sp bt st)
  else py_raise ValueError.

Section Fleet.
Context {G : Type} `{!PyRandom G}.

(** main.py 103-108: the columns are evaluated in the order of the dict
    literal: three speeds, three batteries, then three statuses. *)
Definition init_pods : PyM G (list Pod) :=
  speeds <- replicate_m 3 (uniform 600 1000);;
  batteries <- replicate_m 3 (uniform 60 100);;
  sts <- choices statuses 3;;
  make_frame pod_names speeds batteries sts.

(** One iteration [i] of the loop of main.py 111-114. *)
Definition update_row_at (pods : list Pod) (i : nat) : PyM G (list Pod) :=
  p <- of_option KeyError (pods !! i);;
  if decide (status p = Operational) then
    d <- uniform (-50) 50;;
    let pods1 := <[i := set_speed (py_min 1000 (speed p + d)) p]> pods in
    p1 <- of_option KeyError (pods1 !! i);;
    u <- uniform 0 1;;
    py_ret (<[i := set_battery (py_max 0 (py_min 100 (battery p1 - u))) p1]> pods1)
  else py_ret pods.

(** main.py 110-114: [for i in range(len(st.session_state.pods))]. *)
Definition update_pod_data (pods : list Pod) : PyM G (list Pod) :=
  fold_m update_row_at pods (seq 0 (length pods)).

(** The rule of main.py 112-114 on one row. *)
Definition update_row (p : Pod) : PyM G Pod :=
  if decide (status p = Operational) then
    d <- uniform (-50) 50;;
    u <- uniform 0 1;;
    py_ret (set_battery (py_max 0 (py_min 100 (battery p - u)))
              (set_speed (py_min 1000 (speed p + d)) p))
  else py_ret p.
End Fleet.

(** ** The loop of [update_pod_data] is the row rule mapped over the rows *)

Section LoopEquiv.
Context {G : Type} `{!PyRandom G}.

(** Iteration [i] of the loop changes row [i] only, by [update_row]. *)
Lemma update_row_at_middle (pre post : list Pod) (p : Pod) (g : G) :
  update_row_at (pre ++ p :: post) (length pre) g
  = (p' <- update_row p;; py_ret (pre ++ p' :: post)) g.
Proof.
  unfold update_row_at, update_row.
  rewrite list_lookup_middle by done. unfold py_bind at 1. cbn [of_option py_ret].
  case_decide; [| reflexivity].
  unfold py_bind. destruct (uniform (-50) 50 g) as [[d|e] g1]; [|done].
  rewrite list_insert_middle, list_lookup_middle by done. cbn [of_option py_ret].
  destruct (uniform 0 1 g1) as [[u|e] g2]; [|done].
  by rewrite list_insert_middle.
Qed.

Lemma update_loop_from (pre post : list Pod) (g : G) :
  fold_m update_row_at (pre ++ post) (seq (length pre) (length post)) g
  = (ys <- map_m update_row post;; py_ret (pre ++ ys)) g.
Proof.
  revert pre g. induction post as [|p post IH]; intros pre g.
  - cbn. by rewrite app_nil_r.
  - cbn [length seq fold_m map_m]. unfold py_bind at 1.
    rewrite update_row_at_middle. unfold py_bind.
    destruct (update_row p g) as [[p'|e] g1]; [|done]. cbn [py_ret].
    specialize (IH (pre ++ [p']) g1).
    rewrite length_app, Nat.add_1_r, <- app_assoc in IH. simpl in IH.
    rewrite IH. unfold py_bind. destruct (map_m update_row post g1) as [[ys|e] g2]; [|done].
    by rewrite <- app_assoc.
Qed.

(** C5: the index loop of [update_pod_data] (read row [i], write its
    speed, read it again, write its battery) computes the same rows and
    the same generator state as applying [update_row] to each row in
    order. *)
Theorem update_pod_data_rowwise (pods : list Pod) (g : G) :
  update_pod_data pods g = map_m update_row pods g.
Proof. unfold update_pod_data. pose proof (update_loop_from [] pods g) as H. simpl in H. rewrite H. apply py_bind_ret_r. Qed.
End LoopEquiv.

(** ** What one update does to a row *)

(** The number of [random()] calls the update makes on a row. *)
Definition draws (p : Pod) : nat :=
  if decide (status p = Operational) then 2 else 0.

Definition n_operational (pods : list Pod) : nat :=
  length (filter (fun p => status p = Operational) pods).

(** The code's rule on one row, with the two draws abstracted: an
    operational row gets [min(1000, speed + d)] and
    [max(0, min(100, battery - u))] for some [d] in [[-50, 50]] and [u]
    in [[0, 1]]; any other row is left as it is. *)
Definition row_update (p p' : Pod) : Prop :=
  pod_name p' = pod_name p /\ status p' = status p /\
  if decide (status p = Operational) then
    exists d u, -50 <= d <= 50 /\ 0 <= u <= 1 /\
      speed p' = py_min 1000 (speed p + d) /\
      battery p' = py_max 0 (py_min 100 (battery p - u))
  else p' = p.

(** The invariant the code keeps: battery in [[0, 100]], speed at most
    1000.  (No lower bound on speed: see [App].) *)
Definition pod_inv (p : Pod) : Prop := 0 <= battery p <= 100 /\ speed p <= 1000.

#[export] Instance pod_inv_dec p : Decision (pod_inv p).
Proof. unfold pod_inv. apply _. Defined.

Lemma row_update_inv p p' : row_update p p' -> pod_inv p -> pod_inv p'.
Proof.
  intros (_ & _ & Hr) Hi. unfold pod_inv. case_decide; [| by subst].
  destruct Hr as (d & u & Hd & Hu & -> & ->). destruct Hi as [_ Hs].
  split; [apply py_clamp_range; lra | apply py_min_le_l].
Qed.

Lemma row_update_battery p p' :
  row_update p p' -> 0 <= battery p <= 100 -> battery p - 1 <= battery p' <= battery p.
Proof.
  intros (_ & _ & Hr) Hb. case_decide; [| subst; lra].
  destruct Hr as (d & u & Hd & Hu & _ & ->). py_minmax.
Qed.

Lemma row_update_speed p p' :
  row_update p p' -> speed p <= 1000 ->
  speed p - 50 <= speed p' /\ speed p' <= py_min 1000 (speed p + 50).
Proof.
  intros (_ & _ & Hr) Hs. case_decide; [| subst; py_minmax].
  destruct Hr as (d & u & Hd & Hu & -> & _). py_minmax.
Qed.

#[export] Hint Resolve row_update_inv : pyq.

Section UpdateSpec.
Context {G : Type} `{!PyRandom G, !PyRandomLaws G}.

Lemma update_row_run (p : Pod) (g : G) :
  exists p', update_row p g = (Ok p', after_randoms (draws p) g) /\ row_update p p'.
Proof.
  unfold update_row, draws, row_update. case_decide as Hop.
  - destruct (uniform_spec (-50) 50 g) as (d & Hd & Rd); [lra|].
    destruct (uniform_spec 0 1 (after_randoms 1 g)) as (u & Hu & Ru); [lra|].
    eexists. unfold py_bind. rewrite Hd, Hu, after_randoms_add. split; [done|].
    do 2 (split; [reflexivity|]). exists d, u. split; [exact Rd|]. split; [exact Ru|]. by split.
  - by exists p.
Qed.

Lemma fold_draws (pods : list Pod) (g : G) :
  fold_left (fun g0 p => after_randoms (draws p) g0) pods g
  = after_randoms (2 * n_operational pods) g.
Proof.
  revert g. induction pods as [|p pods IH]; intros g; [done|].
  simpl. rewrite IH, after_randoms_add. f_equal.
  unfold n_operational, draws. rewrite filter_cons. case_decide; simpl; lia.
Qed.

(** The update runs row by row: one [update_row] per row, in order. *)
Lemma update_pod_data_rows (pods : list Pod) (g : G) :
  exists pods',
    update_pod_data pods g = (Ok pods', after_randoms (2 * n_operational pods) g)
    /\ Forall2 row_update pods pods'.
Proof.
  unfold update_pod_data. pose proof (update_loop_from [] pods g) as H. simpl in H.
  rewrite H, py_bind_ret_r, <- fold_draws.
  apply map_m_run. intros p g0 _. apply update_row_run.
Qed.

(** C1: [update_pod_data] never raises; it calls [random()] exactly twice
    for each Operational row and never for the others, in row order; and
    every row comes out related to its input by [row_update]: speed
    [min(1000, speed + d)] and battery [max(0, min(100, battery - u))]
    with [d] in [[-50, 50]] and [u] in [[0, 1]] when Operational, the row
    unchanged otherwise, name and status kept. *)
Theorem update_pod_data_run (pods : list Pod) (g : G) :
  exists pods',
    update_pod_data pods g = (Ok pods', after_randoms (2 * n_operational pods) g)
    /\ Forall2 row_update pods pods'.
Proof. exact (update_pod_data_rows pods g). Qed.

(** Row [i] after the update is [row_update] of row [i] before it. *)
Lemma update_pod_data_at (pods : list Pod) (g : G) i p :
  pods !! i = Some p ->
  exists pods' p', (update_pod_data pods g).1 = Ok pods' /\ pods' !! i = Some p'
                   /\ row_update p p'.
Proof.
  intros Hp. destruct (update_pod_data_rows pods g) as (pods' & -> & HR).
  destruct (Forall2_lookup_l _ _ _ _ _ HR Hp) as (p' & Hp' & Hr). eauto.
Qed.

(** C2: the update keeps every row in its invariant: battery in
    [[0, 100]] and speed at most 1000. *)
Theorem update_pod_data_inv (pods : list Pod) (g : G) :
  Forall pod_inv pods ->
  exists pods', (update_pod_data pods g).1 = Ok pods' /\ Forall pod_inv pods'.
Proof.
  intros Hinv. destruct (update_pod_data_rows pods g) as (pods' & -> & HR).
  exists pods'. split; [done|]. eapply Forall2_Forall_transport; eauto with pyq.
Qed.

(** C3: the update drains a battery by at most one point and never
    charges it (per call, not only in expectation). *)
Theorem update_pod_data_battery (pods : list Pod) (g : G) i p :
  pods !! i = Some p -> 0 <= battery p <= 100 ->
  exists pods' p', (update_pod_data pods g).1 = Ok pods' /\ pods' !! i = Some p'
                   /\ battery p - 1 <= battery p' <= battery p.
Proof.
  intros Hp Hb. destruct (update_pod_data_at pods g i p Hp) as (pods' & p' & Hr & Hp' & Hu).
  exists pods', p'. eauto using row_update_battery.
Qed.

(** C4: the update moves a speed of at most 1000 by at most 50 either
    way and never above 1000. *)
Theorem update_pod_data_speed (pods : list Pod) (g : G) i p :
  pods !! i = Some p -> speed p <= 1000 ->
  exists pods' p', (update_pod_data pods g).1 = Ok pods' /\ pods' !! i = Some p'
                   /\ speed p - 50 <= speed p' /\ speed p' <= py_min 1000 (speed p + 50).
Proof.
  intros Hp Hs. destruct (update_pod_data_at pods g i p Hp) as (pods' & p' & Hr & Hp' & Hu).
  exists pods', p'. eauto using row_update_speed.
Qed.
End UpdateSpec.

Section Init.
Context {G : Type} `{!PyRandom G, !PyRandomLaws G}.

(** The ranges [init_pods] draws from. *)
Definition init_ranges (p : Pod) : Prop :=
  600 <= speed p <= 1000 /\ 60 <= battery p <= 100.

(** The draws of [init_pods], in the order of the source. *)
Lemma init_pods_draws (g : G) :
  exists pods, init_pods g = (Ok pods, after_randoms 9 g)
    /\ map pod_name pods = pod_names
    /\ Forall init_ranges pods /\ Forall (fun p => status p ∈ statuses) pods.
Proof.
  destruct (uniforms_run 3 600 1000 g) as (sp & Hsp & Lsp & Rsp); [lra|].
  destruct (uniforms_run 3 60 100 (after_randoms 3 g)) as (bt & Hbt & Lbt & Rbt); [lra|].
  destruct (choices_run statuses 3 (after_randoms 3 (after_randoms 3 g)))
    as (sts & Hst & Lst & Rst); [done|].
  rewrite !after_randoms_add in Hst.
  unfold init_pods. rewrite (py_bind_ok _ _ _ _ _ Hsp), (py_bind_ok _ _ _ _ _ Hbt),
    (py_bind_ok _ _ _ _ _ Hst).
  destruct sp as [|s1 [|s2 [|s3 [|]]]]; try discriminate.
  destruct bt as [|b1 [|b2 [|b3 [|]]]]; try discriminate.
  destruct sts as [|t1 [|t2 [|t3 [|]]]]; try discriminate.
  rewrite !Forall_cons_iff in Rsp, Rbt, Rst.
  eexists. split; [reflexivity|]. split; [done|]. unfold init_ranges.
  split; repeat apply List.Forall_cons; try apply List.Forall_nil; simpl; tauto.
Qed.

(** C6: a new session's fleet is the three pods Avishkar-1..3 in this
    order, with speed in [[600, 1000]], battery in [[60, 100]], a status of
    the enumeration; building it takes nine calls of [random()] and never
    raises. *)
Theorem init_pods_run (g : G) :
  exists pods, init_pods g = (Ok pods, after_randoms 9 g)
    /\ map pod_name pods = pod_names
    /\ Forall init_ranges pods /\ Forall (fun p => status p ∈ statuses) pods.
Proof. exact (init_pods_draws g). Qed.
End Init.

(** ** The spec's update rule *)

(** The rule as the spec states it: an Operational row gets
    [clamp(speed + d, 0, 1000)] and [clamp(battery - u, 0, 100)] for some
    [d] in [[-50, 50]] and [u] in [[0, 1]]; any other row is unchanged. *)
Definition spec_clamp (lo hi x : Q) : Q := Qmax lo (Qmin hi x).

Definition spec_row_update (p p' : Pod) : Prop :=
  pod_name p' = pod_name p /\ status p' = status p /\
  if decide (status p = Operational) then
    exists d u, -50 <= d <= 50 /\ 0 <= u <= 1 /\
      speed p' == spec_clamp 0 1000 (speed p + d) /\
      battery p' == spec_clamp 0 100 (battery p - u)
  else p' = p.

(** Rows the missing lower clamp cannot reach in one update. *)
Definition clear_of_floor (p : Pod) : Prop := status p <> Operational \/ 50 <= speed p.

(** [max(lo, min(hi, x))] is the spec's clamp, and so is [min(hi, x)] on
    an [x] above [lo]. *)
Lemma py_clamp_spec lo hi x : lo <= hi -> py_max lo (py_min hi x) == spec_clamp lo hi x.
Proof.
  intros Hlh. unfold spec_clamp. destruct (Qlt_le_dec x hi).
  - rewrite (Q.min_r hi x), py_min_r by lra.
    destruct (Qlt_le_dec lo x).
    + rewrite Q.max_r, py_max_r by lra. reflexivity.
    + rewrite Q.max_l, py_max_l by lra. reflexivity.
  - rewrite (Q.min_l hi x), Q.max_r by lra. py_minmax.
Qed.

Lemma py_min_spec_clamp lo hi x : lo <= hi -> lo <= x -> py_min hi x == spec_clamp lo hi x.
Proof.
  intros Hlh Hx. rewrite <- py_clamp_spec by done. py_minmax.
Qed.

Lemma row_update_refines p p' :
  row_update p p' -> clear_of_floor p -> spec_row_update p p'.
Proof.
  intros (Hn & Hs & Hr) Hc. split; [done|]. split; [done|].
  case_decide as Hop; [|done]. destruct Hc as [Hc|Hc]; [contradiction|].
  destruct Hr as (d & u & Hd & Hu & -> & ->). exists d, u.
  split; [done|]. split; [done|].
  split; [apply py_min_spec_clamp; lra | apply py_clamp_spec; lra].
Qed.

Section Refinement.
Context {G : Type} `{!PyRandom G, !PyRandomLaws G}.

(** C18: on a fleet where every Operational row has speed at least 50,
    [update_pod_data] implements the spec's update rule, with the clamps
    read up to equality of numbers. *)
Theorem update_pod_data_refines_spec (pods : list Pod) (g : G) :
  Forall clear_of_floor pods ->
  exists pods', (update_pod_data pods g).1 = Ok pods' /\ Forall2 spec_row_update pods pods'.
Proof.
  intros Hc. destruct (update_pod_data_rows pods g) as (pods' & -> & HR).
  exists pods'. split; [done|]. induction HR as [|p p' ps ps' Hr HR IH]; [constructor|].
  inversion Hc; subst. constructor; [by apply row_update_refines | by apply IH].
Qed.
End Refinement.

(** ** Witnesses on the fleet of the spec's example *)

(** [(A, 700, 80, Operational), (B, 900, 50, Docked), (C, 650, 90, Operational)] *)
Definition sample_fleet : list Pod :=
  [mkPod "A" 700 80 Operational; mkPod "B" 900 50 Docked; mkPod "C" 650 90 Operational].

(** Recorded [random()] values: row A draws [d = 0], [u = 1/4]; row C
    draws [d = -50], [u = 1/2]. *)
Definition sample_draws : Replay := {| recorded := [1#2; 1#4; 0; 1#2] |}.

Definition row_values (pods : list Pod) : list (string * Q * Q) :=
  map (fun p => (pod_name p, Qred (speed p), Qred (battery p))) pods.

Example update_sample :
  match update_pod_data sample_fleet sample_draws with
  | (Ok pods, g) => Some (row_values pods, recorded g)
  | _ => None
  end = Some ([("A", 700, 319#4); ("B", 900, 50); ("C", 600, 179#2)], []).
Proof. vm_compute. reflexivity. Qed.

Lemma update_pod_data_inv_witness :
  Forall pod_inv sample_fleet /\
  exists pods', (update_pod_data sample_fleet sample_draws).1 = Ok pods' /\ Forall pod_inv pods'.
Proof.
  assert (H : Forall pod_inv sample_fleet) by decide_by_eval.
  split; [exact H | exact (update_pod_data_inv sample_fleet sample_draws H)].
Defined.

Lemma update_pod_data_battery_witness :
  sample_fleet !! 0%nat = Some (mkPod "A" 700 80 Operational) /\ 0 <= 80 <= 100 /\
  exists pods' p', (update_pod_data sample_fleet sample_draws).1 = Ok pods'
    /\ pods' !! 0%nat = Some p' /\ 80 - 1 <= battery p' <= 80.
Proof.
  assert (H1 : sample_fleet !! 0%nat = Some (mkPod "A" 700 80 Operational)) by reflexivity.
  assert (H2 : 0 <= 80 <= 100) by decide_by_eval.
  split; [exact H1 | split; [exact H2 |]].
  exact (update_pod_data_battery sample_fleet sample_draws 0 _ H1 H2).
Defined.

Lemma update_pod_data_speed_witness :
  sample_fleet !! 2%nat = Some (mkPod "C" 650 90 Operational) /\ 650 <= 1000 /\
  exists pods' p', (update_pod_data sample_fleet sample_draws).1 = Ok pods'
    /\ pods' !! 2%nat = Some p' /\ 650 - 50 <= speed p' /\ speed p' <= py_min 1000 (650 + 50).
Proof.
  assert (H1 : sample_fleet !! 2%nat = Some (mkPod "C" 650 90 Operational)) by reflexivity.
  assert (H2 : 650 <= 1000) by decide_by_eval.
  split; [exact H1 | split; [exact H2 |]].
  exact (update_pod_data_speed sample_fleet sample_draws 2 _ H1 H2).
Defined.

Lemma update_pod_data_run_witness :
  exists pods', update_pod_data sample_fleet sample_draws
                = (Ok pods', after_randoms (2 * n_operational sample_fleet) sample_draws)
                /\ Forall2 row_update sample_fleet pods'.
Proof. exact (update_pod_data_run sample_fleet sample_draws). Defined.

Lemma init_pods_run_witness :
  exists pods, init_pods sample_draws = (Ok pods, after_randoms 9 sample_draws)
    /\ map pod_name pods = pod_names
    /\ Forall init_ranges pods /\ Forall (fun p => status p ∈ statuses) pods.
Proof. exact (init_pods_run sample_draws). Defined.

Lemma update_pod_data_refines_spec_witness :
  Forall clear_of_floor sample_fleet /\
  exists pods', (update_pod_data sample_fleet sample_draws).1 = Ok pods'
                /\ Forall2 spec_row_update sample_fleet pods'.
Proof.
  assert (H : Forall clear_of_floor sample_fleet) by (unfold clear_of_floor; decide_by_eval).
  split; [exact H | exact (update_pod_data_refines_spec sample_fleet sample_draws H)].
Defined.
