(* ===== verification/StableSort.v ===== *)
(** * StableSort: the descending sort behind [DataFrame.sort_values]

    [pod_tracker] (main.py 128) calls
    [filtered_pods.sort_values(by=sort_by, ascending=False)] with the
    default [kind='quicksort'].  pandas computes the row order with
    [nargsort]: for [ascending=False] it reverses the column, takes
    numpy's ascending [argsort], and reverses the result.  pandas
    promises only a sorted permutation for this kind; the record
    [DescSort] states that contract, and [Tracker] is proved against it.

    Two algorithms meet the contract here.  [nargsort_desc] is pandas'
    reversal around numpy's ascending sort, with numpy's small-array
    path (an insertion sort, used by [quicksort] below 17 elements) as
    [np_insertion_sort]; it is stable.  [naive_desc], the ascending sort
    reversed without the first reversal, meets the same contract and
    puts rows with equal keys in reverse order.  The abstract
    specification [stable_desc_of] (sorted, and for every key value the
    rows of that key in their original order) has exactly one solution
    ([stable_desc_unique]); [nargsort_desc] and the reference
    [sort_desc_ref] both meet it and are therefore equal.

    Only numpy's scalar path is modelled.  numpy 1.25 and later may
    dispatch [argsort] to a vectorised routine on CPUs with AVX-512;
    that routine is not modelled here, and the theorems about the order
    of ties in Tracker.v are about the scalar path. *)

From S2P Require Import Prelude.

Local Open Scope Q_scope.

Section Sorting.
Context {A : Type} (key : A -> Q).

Definition asc (x y : A) : Prop := key x <= key y.
Definition desc (x y : A) : Prop := key y <= key x.
Definition same_key (q : Q) (x : A) : Prop := key x == q.

(** numpy's insertion step: [v = a[i]], shift while [v < a[j-1]]; on a
    sorted prefix this places [v] after every element not greater. *)
Fixpoint insert_asc (x : A) (l : list A) : list A :=
  match l with
  | [] => [x]
  | y :: l' => if Qltb (key x) (key y) then x :: l else y :: insert_asc x l'
  end.

(** numpy's [argsort(kind='quicksort')] on fewer than 17 elements. *)
Definition np_insertion_sort (l : list A) : list A :=
  fold_left (fun acc x => insert_asc x acc) l [].

(** pandas' [nargsort(items, ascending=False)]: [items[::-1]], sort,
    [indexer[::-1]]. *)
Definition nargsort_desc (l : list A) : list A :=
  reverse (np_insertion_sort (reverse l)).

(** The ascending sort reversed, without reversing the input first. *)
Definition naive_desc (l : list A) : list A :=
  reverse (np_insertion_sort l).

(** The reference: a descending insertion sort that puts each row before
    the rows of the same key that follow it. *)
Fixpoint insert_desc (x : A) (l : list A) : list A :=
  match l with
  | [] => [x]
  | y :: l' => if Qltb (key x) (key y) then y :: insert_desc x l' else x :: l
  end.

Definition sort_desc_ref (l : list A) : list A := fold_right insert_desc [] l.

(** The abstract specification of a stable descending sort of [l]. *)
Definition stable_desc_of (l r : list A) : Prop :=
  Sorted desc r /\ forall q, filter (same_key q) r = filter (same_key q) l.

End Sorting.

(** pandas' contract for [sort_values(ascending=False, kind='quicksort')]:
    a permutation sorted by decreasing key, nothing said about ties. *)
Record DescSort := {
  dsort : forall {A : Type}, (A -> Q) -> list A -> list A;
  dsort_perm : forall {A : Type} (key : A -> Q) (l : list A), dsort key l ≡ₚ l;
  dsort_sorted : forall {A : Type} (key : A -> Q) (l : list A), Sorted (desc key) (dsort key l)
}.

Section SortProofs.
Context {A : Type} (key : A -> Q).

#[local] Instance desc_trans : Transitive (desc key).
Proof. intros x y z. unfold desc. lra. Qed.

#[local] Instance asc_trans : Transitive (asc key).
Proof. intros x y z. unfold asc. lra. Qed.

(** *** numpy's insertion sort *)

Lemma insert_asc_perm x l : insert_asc key x l ≡ₚ x :: l.
Proof.
  induction l as [|y l IH]; simpl; [done|].
  destruct (Qltb_spec (key x) (key y)); [done|]. rewrite IH. apply perm_swap.
Qed.

Lemma insert_asc_sorted x l : Sorted (asc key) l -> Sorted (asc key) (insert_asc key x l).
Proof.
  unfold asc. induction 1 as [|y l Hs IH Hhd]; simpl; [by repeat constructor|].
  destruct (Qltb_spec (key x) (key y)).
  - constructor; [by constructor | constructor; lra].
  - constructor; [exact IH|]. destruct l as [|z l]; simpl; [constructor; lra|].
    destruct (Qltb_spec (key x) (key z)); constructor; [lra | by inversion Hhd].
Qed.

(** Every row after the head of a sorted list has a key on the head's side. *)
Lemma sorted_head_forall (R : relation A) `{!Transitive R} y l :
  Sorted R (y :: l) -> Forall (R y) l.
Proof. intros Hs. apply Sorted_StronglySorted in Hs; [|done]. by inversion Hs. Qed.

(** Inserting [x] keeps, for every key value, the rows of that value in
    order, with [x] last among them. *)
Lemma insert_asc_filter q x l :
  Sorted (asc key) l ->
  filter (same_key key q) (insert_asc key x l)
  = filter (same_key key q) l ++ filter (same_key key q) [x].
Proof.
  induction l as [|y l IH]; intros Hs; simpl; [done|].
  destruct (Qltb_spec (key x) (key y)) as [Hlt|Hge].
  - destruct (decide (same_key key q x)) as [Hx|Hx].
    + rewrite (filter_cons_True _ x (y :: l) Hx), (filter_cons_True _ x [] Hx).
      rewrite (filter_none _ (y :: l)); [done|].
      constructor; [unfold same_key in *; lra|].
      pose proof (sorted_head_forall (asc key) y l Hs) as Hf.
      eapply Forall_impl; [exact Hf|]. unfold asc, same_key in *. intros z Hz. lra.
    + by rewrite (filter_cons_False _ x (y :: l) Hx), (filter_cons_False _ x [] Hx), app_nil_r.
  - rewrite !(filter_cons _ y), IH by (by inversion Hs). by case_decide.
Qed.

Lemma np_insertion_sort_aux l acc :
  Sorted (asc key) acc ->
  Sorted (asc key) (fold_left (fun acc x => insert_asc key x acc) l acc)
  /\ fold_left (fun acc x => insert_asc key x acc) l acc ≡ₚ acc ++ l
  /\ forall q, filter (same_key key q) (fold_left (fun acc x => insert_asc key x acc) l acc)
               = filter (same_key key q) acc ++ filter (same_key key q) l.
Proof.
  revert acc. induction l as [|x l IH]; intros acc Hs; simpl.
  - split; [done|]. split; [by rewrite app_nil_r|]. intros q. by rewrite filter_nil, app_nil_r.
  - destruct (IH (insert_asc key x acc)) as (H1 & H2 & H3); [by apply insert_asc_sorted|].
    split; [done|]. split.
    + rewrite H2, insert_asc_perm. apply Permutation_middle.
    + intros q. rewrite H3, insert_asc_filter by done.
      rewrite <- app_assoc. f_equal. by rewrite <- filter_app.
Qed.

Lemma np_insertion_sort_sorted l : Sorted (asc key) (np_insertion_sort key l).
Proof. apply np_insertion_sort_aux. constructor. Qed.

Lemma np_insertion_sort_perm l : np_insertion_sort key l ≡ₚ l.
Proof. apply np_insertion_sort_aux. constructor. Qed.

Lemma np_insertion_sort_filter q l :
  filter (same_key key q) (np_insertion_sort key l) = filter (same_key key q) l.
Proof. apply np_insertion_sort_aux. constructor. Qed.

(** *** The reference descending sort *)

Lemma insert_desc_perm x l : insert_desc key x l ≡ₚ x :: l.
Proof.
  induction l as [|y l IH]; simpl; [done|].
  destruct (Qltb_spec (key x) (key y)); [|done]. rewrite IH. apply perm_swap.
Qed.

Lemma insert_desc_sorted x l : Sorted (desc key) l -> Sorted (desc key) (insert_desc key x l).
Proof.
  unfold desc. induction 1 as [|y l Hs IH Hhd]; simpl; [by repeat constructor|].
  destruct (Qltb_spec (key x) (key y)).
  - constructor; [exact IH|]. destruct l as [|z l]; simpl; [constructor; lra|].
    destruct (Qltb_spec (key x) (key z)); constructor; [by inversion Hhd | lra].
  - constructor; [by constructor | constructor; lra].
Qed.

Lemma insert_desc_filter q x l :
  filter (same_key key q) (insert_desc key x l)
  = filter (same_key key q) [x] ++ filter (same_key key q) l.
Proof.
  induction l as [|y l IH]; simpl; [by rewrite app_nil_r|].
  destruct (Qltb_spec (key x) (key y)) as [Hlt|Hge].
  - rewrite !(filter_cons _ y), IH. unfold same_key in *.
    destruct (decide (key x == q)).
    + by rewrite !decide_False by lra.
    + rewrite filter_cons_False, filter_nil by done. simpl.
      destruct (decide (key y == q)); repeat (rewrite decide_True by done || rewrite decide_False by done); done.
  - by rewrite <- filter_app.
Qed.

(** *** The specification and its unique solution *)

Lemma sorted_desc_head x t z : Sorted (desc key) (x :: t) -> z ∈ x :: t -> key z <= key x.
Proof.
  intros Hs Hz. apply elem_of_cons in Hz as [->|Hz]; [lra|].
  pose proof (sorted_head_forall (desc key) x t Hs) as Hf.
  rewrite Forall_forall in Hf. exact (Hf z Hz).
Qed.

Lemma same_filters_elem (r1 r2 : list A) y :
  (forall q, filter (same_key key q) r1 = filter (same_key key q) r2) -> y ∈ r2 -> y ∈ r1.
Proof.
  intros Hf Hy.
  assert (Hin : y ∈ filter (same_key key (key y)) r2)
    by (apply list_elem_of_filter; split; [unfold same_key; lra | done]).
  rewrite <- Hf in Hin. by apply list_elem_of_filter in Hin as [_ ?].
Qed.

(** Two lists sorted by decreasing key that keep, for every key value,
    the same rows in the same order are equal. *)
Theorem stable_desc_unique (r1 r2 : list A) :
  Sorted (desc key) r1 -> Sorted (desc key) r2 ->
  (forall q, filter (same_key key q) r1 = filter (same_key key q) r2) -> r1 = r2.
Proof.
  revert r2. induction r1 as [|x t1 IH]; intros [|y t2] S1 S2 Hf; [done| | |].
  - assert (Hy : y ∈ ([] : list A)) by (eapply same_filters_elem; [exact Hf | constructor]).
    by apply not_elem_of_nil in Hy.
  - assert (Hx : x ∈ ([] : list A)).
    { eapply same_filters_elem; [intros q; symmetry; apply Hf | constructor]. }
    by apply not_elem_of_nil in Hx.
  - assert (Hxy : key x == key y).
    { apply Qle_antisym.
      - apply (sorted_desc_head y t2 x S2).
        eapply same_filters_elem; [intros q; symmetry; apply Hf | constructor].
      - apply (sorted_desc_head x t1 y S1). eapply same_filters_elem; [exact Hf | constructor]. }
    assert (x = y) as <-.
    { specialize (Hf (key x)). unfold same_key in Hf.
      rewrite !filter_cons, !decide_True in Hf by lra. by injection Hf. }
    f_equal. apply IH; [by inversion S1 | by inversion S2 |].
    intros q. specialize (Hf q). rewrite !filter_cons in Hf.
    case_decide; [by injection Hf | exact Hf].
Qed.

Lemma stable_desc_of_sort_desc_ref l : stable_desc_of key l (sort_desc_ref key l).
Proof.
  induction l as [|x l [IHs IHf]]; [split; [constructor | done]|].
  split; [by apply insert_desc_sorted|].
  intros q. simpl. by rewrite insert_desc_filter, IHf, <- filter_app.
Qed.

Lemma nargsort_desc_sorted l : Sorted (desc key) (nargsort_desc key l).
Proof. apply Sorted_reverse, np_insertion_sort_sorted. Qed.

(** For each key value, the rows of that value keep their input order. *)
Lemma nargsort_desc_filter l q :
  filter (same_key key q) (nargsort_desc key l) = filter (same_key key q) l.
Proof.
  unfold nargsort_desc.
  by rewrite filter_reverse, np_insertion_sort_filter, filter_reverse, reverse_involutive.
Qed.

(** The descending sort pandas runs is the reference stable sort. *)
Lemma nargsort_desc_ref l : nargsort_desc key l = sort_desc_ref key l.
Proof.
  destruct (stable_desc_of_sort_desc_ref l) as [S2 F2].
  apply stable_desc_unique; [apply nargsort_desc_sorted | done |].
  intros q. by rewrite nargsort_desc_filter, F2.
Qed.

(** Pandas' descending sort ([nargsort] around numpy's insertion
    path) meets the stable-sort specification: its result is sorted by
    decreasing key, and for every key value it lists the rows of that
    value in their input order. *)
Lemma nargsort_desc_stable l : stable_desc_of key l (nargsort_desc key l).
Proof. split; [apply nargsort_desc_sorted | apply nargsort_desc_filter]. Qed.

Lemma nargsort_desc_perm l : nargsort_desc key l ≡ₚ l.
Proof.
  unfold nargsort_desc. by rewrite reverse_Permutation, np_insertion_sort_perm, reverse_Permutation.
Qed.

Lemma naive_desc_perm l : naive_desc key l ≡ₚ l.
Proof. unfold naive_desc. by rewrite reverse_Permutation, np_insertion_sort_perm. Qed.

Lemma naive_desc_sorted l : Sorted (desc key) (naive_desc key l).
Proof. apply Sorted_reverse, np_insertion_sort_sorted. Qed.

(** Two rows of equal key come out of [naive_desc] swapped. *)
Lemma naive_desc_swaps_ties x y : key x == key y -> naive_desc key [x; y] = [y; x].
Proof.
  intros H. unfold naive_desc, np_insertion_sort. simpl.
  destruct (Qltb_spec (key y) (key x)); [lra | done].
Qed.
End SortProofs.

(** The algorithm pandas runs on the tracker's few rows. *)
Definition pandas_sort : DescSort := {|
  dsort := @nargsort_desc;
  dsort_perm := @nargsort_desc_perm;
  dsort_sorted := @nargsort_desc_sorted
|}.

(** Another algorithm within pandas' contract, which breaks ties the
    other way. *)
Definition unstable_sort : DescSort := {|
  dsort := @naive_desc;
  dsort_perm := @naive_desc_perm;
  dsort_sorted := @naive_desc_sorted
|}.
