(* ===== verification/Tracker.v ===== *)
(** * Tracker: the Pod Tracker table ([pod_tracker], main.py 116-137)

    Two select boxes choose a status filter among ['All'] followed by the
    distinct statuses of the fleet in order of appearance
    ([Series.unique]), and a sort column among 'Speed (km/h)' and
    'Battery (%)'.  The table shown is the fleet, filtered by a boolean
    mask when the filter is not 'All', then sorted by decreasing value
    of the column.  A select box is modelled by the index the user
    picked in its options ([selectbox]); the sort by the [DescSort]
    contract of [StableSort], so that every theorem of the section holds
    for any algorithm within pandas' contract, and the stability theorem
    for the one pandas runs ([pandas_sort]). *)

From S2P Require Import Prelude PyRandom Telemetry StableSort.

Local Open Scope Q_scope.

(** [pd.Series.unique()]: the distinct values in order of first
    appearance. *)
Definition py_unique (l : list string) : list string :=
  fold_left (fun acc x => if decide (x ∈ acc) then acc else acc ++ [x]) l [].

(** [['All'] + list(st.session_state.pods['Status'].unique())] *)
Definition filter_options (pods : list Pod) : list string :=
  "All" :: py_unique (map (fun p => status_str (status p)) pods).

(** [['Speed (km/h)', 'Battery (%)']] *)
Definition sort_options : list string := ["Speed (km/h)"; "Battery (%)"].

(** The numeric columns a sort can name; any other name is a
    [KeyError] of [sort_values]. *)
Definition column (c : string) : option (Pod -> Q) :=
  if decide (c = "Speed (km/h)") then Some speed
  else if decide (c = "Battery (%)") then Some battery
  else None.

(** [st.selectbox(label, options)]: [None] when there are no options,
    otherwise the option at the index the user picked. *)
Definition selectbox {S A} (options : list A) (choice : nat) : PyM S (option A) :=
  match options with
  | [] => py_ret None
  | _ => x <- of_option IndexError (options !! choice);; py_ret (Some x)
  end.

(** main.py 125-127: [None] matches no row. *)
Definition filter_rows (status_filter : option string) (pods : list Pod) : list Pod :=
  if decide (status_filter <> Some "All")
  then filter (fun p => Some (status_str (status p)) = status_filter) pods
  else pods.

(** The user's picks in the two select boxes. *)
Record TrackerInput := { filter_choice : nat; sort_choice : nat }.

(** main.py 116-137: the rows handed to [st.dataframe]. *)
Definition pod_tracker {S} (alg : DescSort) (pods : list Pod) (inp : TrackerInput)
    : PyM S (list Pod) :=
  status_filter <- selectbox (filter_options pods) (filter_choice inp);;
  sort_by <- selectbox sort_options (sort_choice inp);;
  k <- of_option KeyError (sort_by ≫= column);;
  py_ret (dsort alg k (filter_rows status_filter pods)).

(** ** The status options *)

Lemma py_unique_aux (l acc : list string) :
  NoDup acc ->
  NoDup (fold_left (fun acc x => if decide (x ∈ acc) then acc else acc ++ [x]) l acc)
  /\ forall s, s ∈ fold_left (fun acc x => if decide (x ∈ acc) then acc else acc ++ [x]) l acc
               <-> s ∈ acc \/ s ∈ l.
Proof.
  revert acc. induction l as [|x l IH]; intros acc Hnd; simpl.
  - split; [done|]. intros s. split; [by left | intros [?|Hs]; [done | by apply not_elem_of_nil in Hs]].
  - case_decide as Hx.
    + destruct (IH acc Hnd) as [H1 H2]. split; [done|]. intros s. rewrite H2, elem_of_cons.
      split; [tauto|]. intros [?|[->|?]]; tauto.
    + destruct (IH (acc ++ [x])) as [H1 H2].
      { apply NoDup_app. split; [done|]. split; [|apply NoDup_singleton].
        intros y Hy Hy'. apply list_elem_of_singleton in Hy' as ->. contradiction. }
      split; [done|]. intros s. rewrite H2, elem_of_app, list_elem_of_singleton, elem_of_cons. tauto.
Qed.

Lemma status_str_not_all s : status_str s <> "All".
Proof. by destruct s. Qed.

(** C9: the filter select box offers 'All' first, then each status
    present in the fleet exactly once, and nothing else. *)
Theorem filter_options_spec (pods : list Pod) :
  filter_options pods !! 0%nat = Some "All" /\ NoDup (filter_options pods) /\
  forall s, s ∈ filter_options pods <-> s = "All" \/ exists p, p ∈ pods /\ status_str (status p) = s.
Proof.
  destruct (py_unique_aux (map (fun p => status_str (status p)) pods) [] (NoDup_nil_2))
    as [Hnd Hin].
  split; [done|]. split.
  - apply NoDup_cons. split; [|done]. rewrite Hin, list_elem_of_fmap.
    intros [Hs|(p & Hp & _)]; [by apply not_elem_of_nil in Hs | by apply (status_str_not_all (status p))].
  - intros s. unfold filter_options. rewrite elem_of_cons, Hin, list_elem_of_fmap.
    split; intros [?|H]; [by left | right | by left | right].
    + destruct H as [Hs|(p & -> & Hp)]; [by apply not_elem_of_nil in Hs | eauto].
    + destruct H as (p & Hp & <-). right. eauto.
Qed.

(** ** The table *)

Lemma selectbox_ok {S A} (options : list A) i x (s : S) :
  options !! i = Some x -> selectbox options i s = (Ok (Some x), s).
Proof. unfold selectbox. intros H. destruct options; [done|]. by rewrite H. Qed.

Lemma filter_rows_elem sel pods p :
  p ∈ filter_rows (Some sel) pods <-> p ∈ pods /\ (sel = "All" \/ status_str (status p) = sel).
Proof.
  unfold filter_rows. case_decide as Hs.
  - rewrite list_elem_of_filter.
    split; [intros [[=] ?]; auto | intros [? [->|?]]; [done | subst; auto]].
  - injection Hs as ->. split; [intros ?; auto | by intros [? _]].
Qed.

(** The sort column the second select box names. *)
Definition sort_key_of (j : nat) (k : Pod -> Q) : Prop :=
  (j = 0%nat /\ k = speed) \/ (j = 1%nat /\ k = battery).

(** The run of [pod_tracker] on valid picks, for any sort algorithm. *)
Lemma pod_tracker_ok {S} (alg : DescSort) pods inp (s : S) :
  (filter_choice inp < length (filter_options pods))%nat -> (sort_choice inp < 2)%nat ->
  exists sel k, filter_options pods !! filter_choice inp = Some sel
    /\ sort_key_of (sort_choice inp) k
    /\ pod_tracker alg pods inp s = (Ok (dsort alg k (filter_rows (Some sel) pods)), s).
Proof.
  intros Hf Hs. destruct (lookup_lt_is_Some_2 _ _ Hf) as [sel Hsel].
  exists sel. unfold pod_tracker, sort_key_of.
  rewrite (py_bind_ok _ _ _ _ _ (selectbox_ok _ _ _ s Hsel)).
  destruct inp as [fc [|[|j]]]; simpl in *; [| |lia].
  - exists speed. split; [done|]. split; [by left|]. done.
  - exists battery. split; [done|]. split; [by right|]. done.
Qed.

(** C7: on valid picks the table is, for any algorithm within pandas'
    contract, exactly the fleet rows whose status matches the filter
    ('All' keeps all), each once, in decreasing order of the chosen
    column; the call never raises and changes no state. *)
Theorem pod_tracker_spec {S} (alg : DescSort) pods inp (s : S) :
  (filter_choice inp < length (filter_options pods))%nat -> (sort_choice inp < 2)%nat ->
  exists sel k rows,
    filter_options pods !! filter_choice inp = Some sel /\ sort_key_of (sort_choice inp) k
    /\ pod_tracker alg pods inp s = (Ok rows, s)
    /\ rows ≡ₚ filter_rows (Some sel) pods /\ Sorted (desc k) rows
    /\ forall p, p ∈ rows <-> p ∈ pods /\ (sel = "All" \/ status_str (status p) = sel).
Proof.
  intros Hf Hs. destruct (pod_tracker_ok alg pods inp s Hf Hs) as (sel & k & Hsel & Hk & Hrun).
  exists sel, k, (dsort alg k (filter_rows (Some sel) pods)).
  do 3 (split; [done|]). split; [apply dsort_perm|]. split; [apply dsort_sorted|].
  intros p. by rewrite dsort_perm, filter_rows_elem.
Qed.

(** C8: with the algorithm pandas runs, rows that tie on the sort column
    keep their fleet order: the table is the reference stable descending
    sort of the filtered rows. *)
Theorem pod_tracker_stable {S} pods inp (s : S) :
  (filter_choice inp < length (filter_options pods))%nat -> (sort_choice inp < 2)%nat ->
  exists sel k rows,
    filter_options pods !! filter_choice inp = Some sel /\ sort_key_of (sort_choice inp) k
    /\ pod_tracker pandas_sort pods inp s = (Ok rows, s)
    /\ rows = sort_desc_ref k (filter_rows (Some sel) pods)
    /\ forall q, filter (same_key k q) rows = filter (same_key k q) (filter_rows (Some sel) pods).
Proof.
  intros Hf Hs. destruct (pod_tracker_ok pandas_sort pods inp s Hf Hs) as (sel & k & Hsel & Hk & Hrun).
  exists sel, k, (nargsort_desc k (filter_rows (Some sel) pods)).
  do 3 (split; [done|]). split; [apply nargsort_desc_ref|]. apply nargsort_desc_filter.
Qed.

(** Two operational pods both capped at 1000 km/h. *)
Definition tie_fleet : list Pod :=
  [mkPod "Avishkar-1" 1000 50 Operational; mkPod "Avishkar-2" 1000 60 Operational].

Definition speed_all : TrackerInput := {| filter_choice := 0; sort_choice := 0 |}.

(** Pandas' contract for [kind='quicksort'] does not fix the order of
    tied rows: pandas' small-array path lists two pods tied at the speed
    cap in fleet order, and another algorithm within the same contract
    lists them in reverse. *)
Example pod_tracker_ties :
  pod_tracker pandas_sort tie_fleet speed_all tt = (Ok tie_fleet, tt) /\
  pod_tracker unstable_sort tie_fleet speed_all tt = (Ok (reverse tie_fleet), tt).
Proof. split; vm_compute; reflexivity. Qed.

(** ** Witnesses: the spec's example, Operational rows by speed *)

Definition operational_by_speed : TrackerInput := {| filter_choice := 1; sort_choice := 0 |}.

Example pod_tracker_sample :
  pod_tracker pandas_sort sample_fleet operational_by_speed tt
  = (Ok [mkPod "A" 700 80 Operational; mkPod "C" 650 90 Operational], tt).
Proof. vm_compute. reflexivity. Qed.

Lemma pod_tracker_spec_witness :
  (filter_choice operational_by_speed < length (filter_options sample_fleet))%nat /\
  (sort_choice operational_by_speed < 2)%nat /\
  exists sel k rows,
    filter_options sample_fleet !! filter_choice operational_by_speed = Some sel
    /\ sort_key_of (sort_choice operational_by_speed) k
    /\ pod_tracker unstable_sort sample_fleet operational_by_speed tt = (Ok rows, tt)
    /\ rows ≡ₚ filter_rows (Some sel) sample_fleet /\ Sorted (desc k) rows
    /\ forall p, p ∈ rows <-> p ∈ sample_fleet /\ (sel = "All" \/ status_str (status p) = sel).
Proof.
  assert (H1 : (filter_choice operational_by_speed < length (filter_options sample_fleet))%nat)
    by (vm_compute; lia).
  assert (H2 : (sort_choice operational_by_speed < 2)%nat) by (vm_compute; lia).
  split; [exact H1 | split; [exact H2 |]].
  exact (pod_tracker_spec unstable_sort sample_fleet operational_by_speed tt H1 H2).
Defined.

Lemma pod_tracker_stable_witness :
  (filter_choice speed_all < length (filter_options tie_fleet))%nat /\
  (sort_choice speed_all < 2)%nat /\
  exists sel k rows,
    filter_options tie_fleet !! filter_choice speed_all = Some sel
    /\ sort_key_of (sort_choice speed_all) k
    /\ pod_tracker pandas_sort tie_fleet speed_all tt = (Ok rows, tt)
    /\ rows = sort_desc_ref k (filter_rows (Some sel) tie_fleet)
    /\ forall q, filter (same_key k q) rows = filter (same_key k q) (filter_rows (Some sel) tie_fleet).
Proof.
  assert (H1 : (filter_choice speed_all < length (filter_options tie_fleet))%nat)
    by (vm_compute; lia).
  assert (H2 : (sort_choice speed_all < 2)%nat) by (vm_compute; lia).
  split; [exact H1 | split; [exact H2 |]].
  exact (pod_tracker_stable tie_fleet speed_all tt H1 H2).
Defined.

(** ** The tracker changes no state *)

Lemma selectbox_keeps {S A} (R : relation S) `{!PreOrder R} (options : list A) i :
  keeps R (selectbox options i).
Proof. unfold selectbox. destruct options; eauto with pyq typeclass_instances. Qed.

Lemma pod_tracker_keeps {S} (R : relation S) `{!PreOrder R} alg pods inp :
  keeps R (pod_tracker alg pods inp).
Proof.
  unfold pod_tracker. repeat (keeps_step || (apply selectbox_keeps; typeclasses eauto)).
Qed.

(** Every row the table shows is a row of the fleet. *)
Lemma filter_rows_sub sel pods p : p ∈ filter_rows sel pods -> p ∈ pods.
Proof.
  unfold filter_rows. case_decide; [|done]. rewrite list_elem_of_filter. by intros [_ ?].
Qed.

Lemma pod_tracker_rows_in {S} alg pods inp (s s' : S) rows :
  pod_tracker alg pods inp s = (Ok rows, s') -> forall p, p ∈ rows -> p ∈ pods.
Proof.
  unfold pod_tracker, py_bind.
  destruct (selectbox (filter_options pods) (filter_choice inp) s) as [[sf|e] s1]; [|done].
  destruct (selectbox sort_options (sort_choice inp) s1) as [[sb|e] s2]; [|done].
  destruct (sb ≫= column) as [k|]; simpl; [|done].
  intros [= <- _] p Hp. rewrite dsort_perm in Hp. by eapply filter_rows_sub.
Qed.
