(* ===== verification/Widgets.v ===== *)
(** * Widgets: the weather monitor, the energy tip and the pod comparison

    [route_monitor] (main.py 139-156) draws a weather sample (a condition
    with [random.choice], a temperature and a humidity with
    [random.uniform]) and shows it as three metrics (the temperature and
    humidity as [format(x, '.1f')] texts with their units, [route_panel])
    and the recommended speed limit as a warning text.  [energy_section]
    (158-166) shows one of four fixed tips drawn with [random.choice].  [pod_comparison] (168-207) lets the user
    pick two pod names among the fleet's and builds one bar trace per pod
    with its speed and battery, reading each pod as the first row of that
    name ([df[df['Pod Name'] == name].iloc[0]], an [IndexError] when no
    row has the name).  The figure's layout is not modelled. *)

From stdpp Require Import pretty.
From Stdlib Require Import Ascii.
From S2P Require Import Prelude PyRandom Format Telemetry StableSort Tracker.

Local Open Scope Q_scope.

(** ** Route weather monitor *)

Record Weather := mkWeather {
  condition : string;
  temperature : Q;
  humidity : Q
}.

Definition weather_conditions : list string := ["Clear"; "Rain"; "Cloudy"].

(** main.py 155: [1000 if weather['condition'] == 'Clear' else 700] *)
Definition speed_limit_for (c : string) : Z :=
  if decide (c = "Clear") then 1000%Z else 700%Z.

(** main.py 156: the text of [st.warning]. *)
Definition speed_warning (limit : Z) : string :=
  "Recommended Speed Limit: " +:+ pretty limit +:+ " km/h".

(** main.py 151: the value of the temperature metric.  The source file
    holds the five bytes C3 82 C2 B0 43 after the number, the UTF-8 text
    of the three characters U+00C2 U+00B0 'C'; a Rocq string literal is a
    byte string, so the literal below is those same five bytes. *)
Definition temperature_metric (t : Q) : string := format_1f t +:+ "Â°C".

(** main.py 153: the value of the humidity metric. *)
Definition humidity_metric (h : Q) : string := format_1f h +:+ "%".

(** What the panel shows: the sample, the two metric texts and the
    warning text. *)
Record RoutePanel := {
  weather : Weather;
  temperature_text : string;
  humidity_text : string;
  warning : string
}.

(** main.py 147-156: the three metrics and the warning of a sample. *)
Definition route_panel (w : Weather) : RoutePanel :=
  {| weather := w;
     temperature_text := temperature_metric (temperature w);
     humidity_text := humidity_metric (humidity w);
     warning := speed_warning (speed_limit_for (condition w)) |}.

Section Route.
Context {G : Type} `{!PyRandom G}.

(** main.py 139-156 *)
Definition route_monitor : PyM G RoutePanel :=
  c <- choice weather_conditions;;
  t <- uniform 20 35;;
  h <- uniform 40 90;;
  py_ret (route_panel (mkWeather c t h)).

(** main.py 160-165 *)
Definition tips : list string := [
  "Optimize pod aerodynamics to reduce energy consumption";
  "Schedule maintenance during off-peak hours";
  "Use regenerative braking to recover energy";
  "Monitor battery temperature for optimal performance"].

(** main.py 158-166: the text of [st.info]. *)
Definition energy_section : PyM G string := choice tips.
End Route.

(** ** Pod comparison *)

Record BarTrace := {
  trace_name : string;
  trace_x : list string;
  trace_y : list Q;
  marker_color : string
}.

(** main.py 182 *)
Definition parameters : list string := ["Speed (km/h)"; "Battery (%)"].

(** main.py 178-179: [df[df['Pod Name'] == name].iloc[0]]. *)
Definition first_row_named {S} (name : string) (pods : list Pod) : PyM S Pod :=
  of_option IndexError (head (filter (fun p => pod_name p = name) pods)).

(** main.py 184-196: [go.Bar(name=..., x=parameters, y=[speed, battery],
    marker_color=...)]. *)
Definition bar_of (name color : string) (p : Pod) : BarTrace :=
  {| trace_name := name; trace_x := parameters; trace_y := [speed p; battery p];
     marker_color := color |}.

(** Python truthiness of a selected name ([None] and [''] are false). *)
Definition py_truthy (o : option string) : bool :=
  match o with
  | Some s => negb (bool_decide (s = ""))
  | None => false
  end.

Record CompareInput := { pod1_choice : nat; pod2_choice : nat }.

(** main.py 168-207: the traces of the chart, [None] when no chart is
    drawn. *)
Definition pod_comparison {S} (pods : list Pod) (inp : CompareInput)
    : PyM S (option (list BarTrace)) :=
  pod1 <- selectbox (map pod_name pods) (pod1_choice inp);;
  pod2 <- selectbox (map pod_name pods) (pod2_choice inp);;
  match pod1, pod2 with
  | Some n1, Some n2 =>
      if py_truthy pod1 && py_truthy pod2 then
        data1 <- first_row_named n1 pods;;
        data2 <- first_row_named n2 pods;;
        py_ret (Some [bar_of n1 "#00ff00" data1; bar_of n2 "#004400" data2])
      else py_ret None
  | _, _ => py_ret None
  end.

(** ** Properties *)

Lemma speed_warning_1000 : speed_warning 1000 = "Recommended Speed Limit: 1000 km/h".
Proof. vm_compute. reflexivity. Qed.

Lemma speed_warning_700 : speed_warning 700 = "Recommended Speed Limit: 700 km/h".
Proof. vm_compute. reflexivity. Qed.

Section RouteProofs.
Context {G : Type} `{!PyRandom G, !PyRandomLaws G}.

(** The weather panel draws its sample with one [_randbelow(3)] and two
    [random()] calls, within the ranges of main.py 142-144. *)
Lemma route_monitor_draws (g : G) :
  exists c t h,
    route_monitor g = (Ok (route_panel (mkWeather c t h)), after_randoms 2 (randbelow_step 3 g).2)
    /\ c ∈ weather_conditions /\ 20 <= t <= 35 /\ 40 <= h <= 90.
Proof.
  destruct (choice_run weather_conditions g) as (c & Hc & Hin); [done|].
  destruct (uniform_spec 20 35 (randbelow_step 3 g).2) as (t & Ht & Rt); [lra|].
  destruct (uniform_spec 40 90 (after_randoms 1 (randbelow_step 3 g).2)) as (h & Hh & Rh); [lra|].
  exists c, t, h. unfold route_monitor.
  rewrite (py_bind_ok _ _ _ _ _ Hc), (py_bind_ok _ _ _ _ _ Ht), (py_bind_ok _ _ _ _ _ Hh), after_randoms_add.
  done.
Qed.

(** C10: the weather panel never raises; it takes one [_randbelow(3)] and
    two [random()] calls, shows a condition of the list, a temperature in
    [[20, 35]] and a humidity in [[40, 90]], and recommends 1000 km/h
    exactly when the condition is 'Clear', 700 km/h otherwise. *)
Theorem route_monitor_run (g : G) :
  exists panel,
    route_monitor g = (Ok panel, after_randoms 2 (randbelow_step 3 g).2)
    /\ condition (weather panel) ∈ weather_conditions
    /\ 20 <= temperature (weather panel) <= 35 /\ 40 <= humidity (weather panel) <= 90
    /\ (condition (weather panel) = "Clear"
          /\ warning panel = "Recommended Speed Limit: 1000 km/h"
        \/ condition (weather panel) <> "Clear"
          /\ warning panel = "Recommended Speed Limit: 700 km/h").
Proof.
  destruct (route_monitor_draws g) as (c & t & h & Hr & Hin & Rt & Rh).
  eexists. split; [exact Hr|]. simpl. do 3 (split; [done|]).
  unfold speed_limit_for. case_decide; [left | right]; by rewrite ?speed_warning_1000, ?speed_warning_700.
Qed.

(** C20: the two metric texts of the weather panel are a number in
    [format(x, '.1f')] followed by the unit, and the number reads back
    within [0.05] of the sample: a temperature between [19.95] and [35.05]
    before the bytes of ['Â°C'], a humidity between [39.95] and [90.05]
    before ['%']. *)
Theorem route_metrics_read_back (g : G) :
  exists panel tt ht yt yh,
    route_monitor g = (Ok panel, after_randoms 2 (randbelow_step 3 g).2)
    /\ temperature_text panel = tt +:+ "Â°C" /\ parse_fixed tt = Some yt
    /\ temperature (weather panel) - (1#20) <= yt <= temperature (weather panel) + (1#20)
    /\ 20 - (1#20) <= yt <= 35 + (1#20)
    /\ humidity_text panel = ht +:+ "%" /\ parse_fixed ht = Some yh
    /\ humidity (weather panel) - (1#20) <= yh <= humidity (weather panel) + (1#20)
    /\ 40 - (1#20) <= yh <= 90 + (1#20).
Proof.
  destruct (route_monitor_draws g) as (c & t & h & Hr & _ & Rt & Rh).
  destruct (format_1f_reads_back t) as (yt & Ht & _ & Bt).
  destruct (format_1f_reads_back h) as (yh & Hh & _ & Bh).
  exists (route_panel (mkWeather c t h)), (format_1f t), (format_1f h), yt, yh.
  simpl. split_and!; done || lra.
Qed.

(** The temperature metric, decoded as UTF-8 the way the page shows
    it, is the number followed by the three characters U+00C2 ('Â'),
    U+00B0 ('°') and 'C', not by the two of '°C': the bytes C3 82 of
    main.py 151 encode a stray 'Â'. *)
Lemma temperature_metric_shows (t : Q) :
  utf8_decode (temperature_metric t)
  = Some ((N_of_ascii <$> String.list_ascii_of_string (format_1f t)) ++ [194; 176; 67])%N.
Proof.
  unfold temperature_metric. rewrite utf8_decode_ascii_app by apply ascii_text_format_1f.
  reflexivity.
Qed.

End RouteProofs.

(** With unique names, the rows of a name are exactly the one row. *)
Lemma filter_name_unique (pods : list Pod) i p :
  NoDup (map pod_name pods) -> pods !! i = Some p ->
  filter (fun q => pod_name q = pod_name p) pods = [p].
Proof.
  revert i. induction pods as [|q pods IH]; intros i Hnd Hp; [done|].
  simpl in Hnd. apply NoDup_cons in Hnd as [Hq Hnd].
  rewrite filter_cons. destruct i as [|i]; simpl in Hp.
  - injection Hp as ->. rewrite decide_True by done. f_equal.
    apply filter_none, Forall_forall. intros r Hr Heq. apply Hq.
    rewrite <- Heq. by apply list_elem_of_fmap_2.
  - rewrite decide_False; [by eapply IH|]. intros Heq. apply Hq. rewrite Heq.
    apply list_elem_of_fmap_2. by eapply list_elem_of_lookup_2.
Qed.

(** The row found for a name of the fleet is that pod's row. *)
Lemma first_row_named_hit {S} (pods : list Pod) i p (s : S) :
  NoDup (map pod_name pods) -> pods !! i = Some p ->
  first_row_named (pod_name p) pods s = (Ok p, s).
Proof. intros Hnd Hp. unfold first_row_named. by rewrite (filter_name_unique pods i p). Qed.

(** C12: looking up a name no row has raises [IndexError] (the [.iloc[0]]
    of an empty selection). *)
Theorem first_row_named_miss {S} (pods : list Pod) name (s : S) :
  name ∉ map pod_name pods -> first_row_named name pods s = (Raise IndexError, s).
Proof.
  intros Hn. unfold first_row_named.
  rewrite filter_none; [done|]. apply Forall_forall. intros p Hp <-.
  apply Hn. by apply list_elem_of_fmap_2.
Qed.

(** The two bar traces of two picked rows. *)
Lemma pod_comparison_bars {S} (pods : list Pod) (inp : CompareInput) p1 p2 (s : S) :
  NoDup (map pod_name pods) ->
  pods !! pod1_choice inp = Some p1 -> pods !! pod2_choice inp = Some p2 ->
  pod_name p1 <> "" -> pod_name p2 <> "" ->
  pod_comparison pods inp s
  = (Ok (Some [bar_of (pod_name p1) "#00ff00" p1; bar_of (pod_name p2) "#004400" p2]), s).
Proof.
  intros Hnd H1 H2 N1 N2. unfold pod_comparison.
  rewrite (py_bind_ok _ _ _ _ _ (selectbox_ok _ _ (pod_name p1) s (lookup_map_Some _ _ _ _ H1))).
  rewrite (py_bind_ok _ _ _ _ _ (selectbox_ok _ _ (pod_name p2) s (lookup_map_Some _ _ _ _ H2))).
  cbn [py_truthy]. rewrite !bool_decide_eq_false_2 by done. cbn [negb andb].
  rewrite (py_bind_ok _ _ _ _ _ (first_row_named_hit pods _ p1 s Hnd H1)).
  by rewrite (py_bind_ok _ _ _ _ _ (first_row_named_hit pods _ p2 s Hnd H2)).
Qed.

(** C11: on a fleet with unique, non-empty names, picking rows [i] and
    [j] draws the two bar traces with exactly the stored speed and
    battery of those rows, green for the first and dark green for the
    second, and changes no state. *)
Theorem pod_comparison_spec {S} (pods : list Pod) (inp : CompareInput) p1 p2 (s : S) :
  NoDup (map pod_name pods) ->
  pods !! pod1_choice inp = Some p1 -> pods !! pod2_choice inp = Some p2 ->
  pod_name p1 <> "" -> pod_name p2 <> "" ->
  pod_comparison pods inp s
  = (Ok (Some [bar_of (pod_name p1) "#00ff00" p1; bar_of (pod_name p2) "#004400" p2]), s).
Proof. exact (pod_comparison_bars pods inp p1 p2 s). Qed.

(** ** Witnesses *)

Lemma route_monitor_run_witness :
  exists panel,
    route_monitor sample_draws = (Ok panel, after_randoms 2 (randbelow_step 3 sample_draws).2)
    /\ condition (weather panel) ∈ weather_conditions
    /\ 20 <= temperature (weather panel) <= 35 /\ 40 <= humidity (weather panel) <= 90
    /\ (condition (weather panel) = "Clear"
          /\ warning panel = "Recommended Speed Limit: 1000 km/h"
        \/ condition (weather panel) <> "Clear"
          /\ warning panel = "Recommended Speed Limit: 700 km/h").
Proof. exact (route_monitor_run sample_draws). Defined.

Definition compare_A_C : CompareInput := {| pod1_choice := 0; pod2_choice := 2 |}.

Lemma pod_comparison_spec_witness :
  NoDup (map pod_name sample_fleet) /\
  sample_fleet !! pod1_choice compare_A_C = Some (mkPod "A" 700 80 Operational) /\
  sample_fleet !! pod2_choice compare_A_C = Some (mkPod "C" 650 90 Operational) /\
  pod_comparison sample_fleet compare_A_C tt
  = (Ok (Some [bar_of "A" "#00ff00" (mkPod "A" 700 80 Operational);
               bar_of "C" "#004400" (mkPod "C" 650 90 Operational)]), tt).
Proof.
  assert (H0 : NoDup (map pod_name sample_fleet)) by decide_by_eval.
  assert (H1 : sample_fleet !! pod1_choice compare_A_C = Some (mkPod "A" 700 80 Operational))
    by reflexivity.
  assert (H2 : sample_fleet !! pod2_choice compare_A_C = Some (mkPod "C" 650 90 Operational))
    by reflexivity.
  assert (N1 : pod_name (mkPod "A" 700 80 Operational) <> "") by decide_by_eval.
  assert (N2 : pod_name (mkPod "C" 650 90 Operational) <> "") by decide_by_eval.
  split; [exact H0 | split; [exact H1 | split; [exact H2 |]]].
  exact (pod_comparison_spec sample_fleet compare_A_C _ _ tt H0 H1 H2 N1 N2).
Defined.

Lemma first_row_named_miss_witness :
  ("Avishkar-9" ∉ map pod_name sample_fleet) /\
  first_row_named "Avishkar-9" sample_fleet tt = (Raise IndexError, tt).
Proof.
  assert (H : "Avishkar-9" ∉ map pod_name sample_fleet) by decide_by_eval.
  split; [exact H | exact (first_row_named_miss sample_fleet "Avishkar-9" tt H)].
Defined.

(** The comparison changes no state. *)
Lemma pod_comparison_keeps {S} (R : relation S) `{!PreOrder R} pods inp :
  keeps R (pod_comparison pods inp).
Proof.
  unfold pod_comparison, first_row_named.
  repeat (keeps_step || (apply selectbox_keeps; typeclasses eauto)).
  repeat case_match; repeat keeps_step.
Qed.

Lemma route_metrics_read_back_witness :
  exists panel tt ht yt yh,
    route_monitor sample_draws = (Ok panel, after_randoms 2 (randbelow_step 3 sample_draws).2)
    /\ temperature_text panel = tt +:+ "Â°C" /\ parse_fixed tt = Some yt
    /\ temperature (weather panel) - (1#20) <= yt <= temperature (weather panel) + (1#20)
    /\ 20 - (1#20) <= yt <= 35 + (1#20)
    /\ humidity_text panel = ht +:+ "%" /\ parse_fixed ht = Some yh
    /\ humidity (weather panel) - (1#20) <= yh <= humidity (weather panel) + (1#20)
    /\ 40 - (1#20) <= yh <= 90 + (1#20).
Proof. exact (route_metrics_read_back sample_draws). Defined.
