(* ===== verification/App.v ===== *)
(** * App: one run of the script, and a server of sessions

    Streamlit runs [src/main.py] from the top on every interaction of a
    session.  A run sees that session's [st.session_state] (here
    [Session], whose only entry the script uses is 'pods') and the
    process-wide state of [random] (the generator [G]), and leaves both
    changed: [run_script] threads them as the state [World].  The run
    initialises the fleet when the session has none (main.py 101-108,
    [init_session]), then [main] (209-222) updates the fleet once and
    renders the tracker, the weather panel, the tip and the comparison,
    in this order, which is also the order of their random draws.  The
    [Page] a run returns keeps, besides what the panels show, the fleets
    the tracker and the comparison read their select-box options from
    (Page.v builds the run's Streamlit calls from it).

    A [Server] holds the sessions by key and the one generator they
    share.  [rerun] is one run of the script for one session;
    [reach n] are the servers reachable from the empty server by [n]
    runs, of any sessions with any widget inputs.  The theorems are
    proved by induction on [reach]: every reachable fleet keeps its names
    and its battery and upper speed bounds, the battery never rises from
    one run to the next, and after [n] runs every speed is at least
    [600 - 50 n].  That bound is attained (by induction on the runs of
    one session with every draw [0]), so speed falls below 0 from the
    13th run on: main.py 113 clamps speed only from above.  [shared_generator_couples_sessions] shows on recorded
    draws that one session's fleet depends on the runs of another. *)

From stdpp Require Import gmap.
From S2P Require Import Prelude PyRandom Telemetry StableSort Tracker Widgets.

Local Open Scope Q_scope.

(** [st.session_state] of one session: the 'pods' entry, if set. *)
Record Session := { ss_pods : option (list Pod) }.

Definition new_session : Session := {| ss_pods := None |}.

(** The state a run of the script reads and writes. *)
Record World (G : Type) := { session : Session; rng : G }.
Arguments session {G}.
Arguments rng {G}.

(** The widget inputs of one run. *)
Record UserInput := { tracker_in : TrackerInput; compare_in : CompareInput }.

(** What a run shows, with the fleets its two select-box panels read
    their options from. *)
Record Page := {
  tracker_fleet : list Pod;
  table : list Pod;
  route : RoutePanel;
  tip : string;
  compare_fleet : list Pod;
  chart : option (list BarTrace)
}.

Section Script.
Context {G : Type} `{!PyRandom G}.

(** A draw of the process-wide generator inside a run. *)
Definition with_rng {A} (m : PyM G A) : PyM (World G) A :=
  fun w => let '(r, g') := m (rng w) in (r, {| session := session w; rng := g' |}).

(** [st.session_state.pods] *)
Definition session_pods : PyM (World G) (list Pod) :=
  fun w => of_option KeyError (ss_pods (session w)) w.

(** [st.session_state.pods = ...] *)
Definition put_pods (ps : list Pod) : PyM (World G) unit :=
  fun w => (Ok tt, {| session := {| ss_pods := Some ps |}; rng := rng w |}).

(** main.py 101-108 *)
Definition init_session : PyM (World G) unit :=
  fun w =>
    match ss_pods (session w) with
    | Some _ => py_ret tt w
    | None => (ps <- with_rng init_pods;; put_pods ps) w
    end.

(** main.py 210: [update_pod_data()] on the session's DataFrame. *)
Definition update_session : PyM (World G) unit :=
  ps <- session_pods;;
  ps' <- with_rng (update_pod_data ps);;
  put_pods ps'.

(** main.py 212-222: the four panels, each reading the session's fleet
    afresh. *)
Definition render (alg : DescSort) (inp : UserInput) : PyM (World G) Page :=
  ps <- session_pods;;
  rows <- pod_tracker alg ps (tracker_in inp);;
  panel <- with_rng route_monitor;;
  t <- with_rng energy_section;;
  ps2 <- session_pods;;
  c <- pod_comparison ps2 (compare_in inp);;
  py_ret {| tracker_fleet := ps; table := rows; route := panel; tip := t;
            compare_fleet := ps2; chart := c |}.

(** main.py 209-222 *)
Definition main (alg : DescSort) (inp : UserInput) : PyM (World G) Page :=
  update_session;;; render alg inp.

(** One run of main.py: the session guard, then [main()]. *)
Definition run_script (alg : DescSort) (inp : UserInput) : PyM (World G) Page :=
  init_session;;; main alg inp.
End Script.

(** ** A server of sessions sharing one generator *)

Record Server (G : Type) := { sessions : gmap string Session; srv_rng : G }.
Arguments sessions {G}.
Arguments srv_rng {G}.

Definition init_server {G} (g : G) : Server G := {| sessions := ∅; srv_rng := g |}.

Section Server.
Context {G : Type} `{!PyRandom G}.

(** A run of the script for session [k]; a key without a session starts
    a new one. *)
Definition rerun (alg : DescSort) (k : string) (inp : UserInput) (srv : Server G)
    : Server G * Result Page :=
  let sess := default new_session (sessions srv !! k) in
  let '(r, w) := run_script alg inp {| session := sess; rng := srv_rng srv |} in
  ({| sessions := <[k := session w]> (sessions srv); srv_rng := rng w |}, r).

(** The servers reachable from [init_server g0] by [n] runs. *)
Inductive reach (alg : DescSort) (g0 : G) : nat -> Server G -> Prop :=
  | reach_init : reach alg g0 0 (init_server g0)
  | reach_rerun n srv k inp :
      reach alg g0 n srv -> reach alg g0 (S n) (rerun alg k inp srv).1.
End Server.

(** ** The fleet invariant of a session *)

(** The fleet keeps the names Avishkar-1..3, every row its invariant,
    and every speed is at least [m]. *)
Definition fleet_inv (m : Q) (ps : list Pod) : Prop :=
  map pod_name ps = pod_names /\ Forall (fun p => pod_inv p /\ m <= speed p) ps.

Definition session_inv (m : Q) (s : Session) : Prop :=
  match ss_pods s with
  | None => True
  | Some ps => fleet_inv m ps
  end.

(** The lowest speed after [n] runs. *)
Definition speed_floor (n : nat) : Q := 600 - 50 * inject_Z (Z.of_nat n).

Lemma speed_floor_succ n : speed_floor (S n) == speed_floor n - 50.
Proof. unfold speed_floor. rewrite Nat2Z.inj_succ, <- Z.add_1_r, inject_Z_plus. change (inject_Z 1) with 1. lra. Qed.

Lemma speed_floor_S n : speed_floor (S n) <= speed_floor n - 50.
Proof. rewrite speed_floor_succ. lra. Qed.

Lemma speed_floor_le n : speed_floor n <= 600.
Proof.
  unfold speed_floor. assert (0 <= inject_Z (Z.of_nat n)) by (unfold Qle; simpl; lia). lra.
Qed.

Lemma fleet_inv_mono m m' ps : m' <= m -> fleet_inv m ps -> fleet_inv m' ps.
Proof.
  intros Hm [Hn Hf]. split; [done|]. eapply Forall_impl; [exact Hf|]. intros p [? ?]. split; [done | lra].
Qed.

Lemma row_update_names (ps ps' : list Pod) :
  Forall2 row_update ps ps' -> map pod_name ps' = map pod_name ps.
Proof. induction 1 as [|p p' ps ps' [Hn _] _ IH]; simpl; [done|]. by rewrite Hn, IH. Qed.

Lemma row_update_statuses (ps ps' : list Pod) :
  Forall2 row_update ps ps' -> map (fun p => status_str (status p)) ps' = map (fun p => status_str (status p)) ps.
Proof. induction 1 as [|p p' ps ps' (_ & Hs & _) _ IH]; simpl; [done|]. by rewrite Hs, IH. Qed.

Section Invariant.
Context {G : Type} `{!PyRandom G, !PyRandomLaws G}.

(** One update moves the floor down by 50 and keeps the rest. *)
Lemma update_fleet_inv m ps (g : G) :
  fleet_inv m ps ->
  exists ps', update_pod_data ps g = (Ok ps', after_randoms (2 * n_operational ps) g)
              /\ fleet_inv (m - 50) ps' /\ Forall2 row_update ps ps'.
Proof.
  intros [Hn Hf]. destruct (update_pod_data_rows ps g) as (ps' & Hrun & HR).
  exists ps'. split; [done|]. split; [|done]. split; [by rewrite (row_update_names ps ps' HR)|].
  eapply Forall2_Forall_transport; [|exact HR|exact Hf].
  intros p p' Hr [Hi Hs]. split; [eauto with pyq|].
  destruct (row_update_speed p p' Hr (proj2 Hi)). lra.
Qed.

Lemma init_fleet_inv (g : G) :
  exists ps, init_pods g = (Ok ps, after_randoms 9 g) /\ fleet_inv 600 ps.
Proof.
  destruct (init_pods_draws g) as (ps & Hrun & Hn & Hr & _). exists ps. split; [done|].
  split; [done|]. eapply Forall_impl; [exact Hr|]. intros p [Hs Hb]. repeat split; lra.
Qed.
End Invariant.

(** ** One run of the script *)

Section RunProofs.
Context {G : Type} `{!PyRandom G, !PyRandomLaws G}.

Definition same_session (w w' : World G) : Prop := session w' = session w.

#[local] Instance same_session_preorder : PreOrder same_session.
Proof. split; [intros w; done | intros w1 w2 w3 H1 H2; unfold same_session in *; congruence]. Qed.

Lemma with_rng_keeps {A} (m : PyM G A) : keeps same_session (with_rng m).
Proof. intros w. unfold with_rng, same_session. by destruct (m (rng w)). Qed.

Lemma session_pods_keeps : keeps same_session session_pods.
Proof. intros w. unfold session_pods, same_session. by destruct (ss_pods (session w)). Qed.

(** The panels read the session but do not write it. *)
Lemma render_keeps alg inp : keeps same_session (render alg inp).
Proof.
  unfold render.
  repeat ((apply pod_tracker_keeps; typeclasses eauto)
          || (apply pod_comparison_keeps; typeclasses eauto)
          || apply with_rng_keeps || apply session_pods_keeps || keeps_step).
Qed.

(** After the session guard the session has a fleet. *)
Lemma init_session_run m (w : World G) :
  m <= 600 -> session_inv m (session w) ->
  exists ps w', init_session w = (Ok tt, w') /\ ss_pods (session w') = Some ps
                /\ fleet_inv m ps.
Proof.
  intros Hm Hs. unfold init_session, session_inv in *.
  destruct (ss_pods (session w)) as [ps|] eqn:E; [by exists ps, w|].
  destruct (init_fleet_inv (rng w)) as (ps & Hi & Hinv).
  exists ps. eexists. unfold py_bind, with_rng. rewrite Hi.
  split; [reflexivity|]. split; [done|]. by apply (fleet_inv_mono 600).
Qed.

Lemma update_session_step (w : World G) ps ps' g' :
  ss_pods (session w) = Some ps -> update_pod_data ps (rng w) = (Ok ps', g') ->
  update_session w = put_pods ps' {| session := session w; rng := g' |}.
Proof.
  intros E Hu. unfold update_session, session_pods, py_bind, with_rng.
  rewrite E. cbn [of_option py_ret]. by rewrite Hu.
Qed.

(** [update_pod_data()] writes one update of the stored fleet back. *)
Lemma update_session_run m ps (w : World G) :
  ss_pods (session w) = Some ps -> fleet_inv m ps ->
  exists ps' w', update_session w = (Ok tt, w') /\ ss_pods (session w') = Some ps'
    /\ fleet_inv (m - 50) ps' /\ Forall2 row_update ps ps'
    /\ rng w' = after_randoms (2 * n_operational ps) (rng w).
Proof.
  intros E Hinv. destruct (update_fleet_inv m ps (rng w) Hinv) as (ps' & Hu & Hinv' & HR).
  rewrite (update_session_step w ps ps' _ E Hu). eexists _, _. split; [reflexivity|]. simpl. eauto.
Qed.

(** A page the panels return shows rows of the fleet the session held,
    and both select-box panels read that fleet. *)
Lemma render_post alg inp (w w' : World G) pg :
  render alg inp w = (Ok pg, w') ->
  ss_pods (session w) = Some (tracker_fleet pg) /\ compare_fleet pg = tracker_fleet pg
  /\ (forall p, p ∈ table pg -> p ∈ tracker_fleet pg)
  /\ exists s s' : World G, pod_tracker alg (tracker_fleet pg) (tracker_in inp) s = (Ok (table pg), s').
Proof.
  unfold render, session_pods, py_bind.
  destruct (ss_pods (session w)) as [ps|] eqn:E; cbn [of_option py_ret py_raise]; [|done].
  destruct (pod_tracker alg ps (tracker_in inp) w) as [[rows|e] w1] eqn:Et; [|done].
  destruct (with_rng route_monitor w1) as [[panel|e] w2] eqn:Er; [|done].
  destruct (with_rng energy_section w2) as [[t|e] w3] eqn:Ee; [|done].
  pose proof (with_rng_keeps route_monitor w1) as K2. rewrite Er in K2.
  pose proof (with_rng_keeps energy_section w2) as K3. rewrite Ee in K3.
  pose proof (pod_tracker_keeps same_session alg ps (tracker_in inp) w) as K1. rewrite Et in K1.
  unfold same_session in K1, K2, K3. simpl in K1, K2, K3.
  rewrite K3, K2, K1, E. cbn [of_option py_ret].
  destruct (pod_comparison ps (compare_in inp) w3) as [[c|e] w4]; [|done].
  intros [= <- _]. simpl. split_and!; [done | done | |by exists w, w1].
  exact (pod_tracker_rows_in alg ps _ w w1 rows Et).
Qed.

(** After a run that returns a page, the session holds the fleet the
    page was drawn from. *)
Lemma run_script_post alg inp (w w' : World G) pg :
  run_script alg inp w = (Ok pg, w') ->
  ss_pods (session w') = Some (tracker_fleet pg) /\ compare_fleet pg = tracker_fleet pg
  /\ (forall p, p ∈ table pg -> p ∈ tracker_fleet pg)
  /\ exists s s' : World G, pod_tracker alg (tracker_fleet pg) (tracker_in inp) s = (Ok (table pg), s').
Proof.
  unfold run_script, main, py_bind.
  destruct (init_session w) as [[[]|e] w1]; [|done].
  destruct (update_session w1) as [[[]|e] w2]; [|done].
  intros Hr. pose proof (render_keeps alg inp w2) as K. rewrite Hr in K. unfold same_session in K.
  simpl in K. rewrite K. exact (render_post alg inp w2 w' pg Hr).
Qed.

(** After a run the session holds a fleet one update further down. *)
Lemma run_script_session alg inp m (w : World G) :
  m <= 600 -> session_inv m (session w) ->
  exists ps, ss_pods (session (run_script alg inp w).2) = Some ps /\ fleet_inv (m - 50) ps.
Proof.
  intros Hm Hs. destruct (init_session_run m w Hm Hs) as (ps & w1 & Hi & E1 & Hinv).
  destruct (update_session_run m ps w1 E1 Hinv) as (ps' & w2 & Hu & E2 & Hinv' & _).
  unfold run_script, main. rewrite (py_bind_ok _ _ _ _ _ Hi), (py_bind_ok _ _ _ _ _ Hu).
  pose proof (render_keeps alg inp w2) as Hk. unfold same_session in Hk. rewrite Hk. eauto.
Qed.
End RunProofs.

(** ** Every reachable server *)

Section Reachable.
Context {G : Type} `{!PyRandom G, !PyRandomLaws G}.

Lemma session_inv_mono m m' s : m' <= m -> session_inv m s -> session_inv m' s.
Proof. unfold session_inv. destruct (ss_pods s); [apply fleet_inv_mono | done]. Qed.

(** After [n] runs every session satisfies the invariant with floor
    [600 - 50 n]. *)
Lemma reach_inv alg (g0 : G) n srv :
  reach alg g0 n srv -> map_Forall (fun _ s => session_inv (speed_floor n) s) (sessions srv).
Proof.
  induction 1 as [|n srv k inp Hr IH]; [apply map_Forall_empty|].
  pose proof (speed_floor_S n) as Hfl.
  unfold rerun. set (sess := default new_session (sessions srv !! k)).
  assert (Hs : session_inv (speed_floor n) sess).
  { unfold sess. destruct (sessions srv !! k) eqn:E; simpl; [by apply (IH k) | done]. }
  destruct (run_script_session alg inp (speed_floor n) {| session := sess; rng := srv_rng srv |}
              (speed_floor_le n) Hs) as (ps & E & Hinv).
  destruct (run_script alg inp {| session := sess; rng := srv_rng srv |}) as [r w] eqn:Er.
  simpl in *. apply map_Forall_insert_2.
  - unfold session_inv. rewrite E. by apply (fleet_inv_mono (speed_floor n - 50)).
  - eapply map_Forall_impl; [exact IH|]. intros i s Hs'. simpl in *.
    eapply session_inv_mono; [|exact Hs']. lra.
Qed.
End Reachable.

(** ** Properties of the script and the server *)

Section Claims.
Context {G : Type} `{!PyRandom G, !PyRandomLaws G}.

(** C13: in every reachable server, every session's fleet has the rows
    Avishkar-1..3 in this order, each with battery in [[0, 100]] and
    speed at most 1000. *)
Theorem reachable_fleet_inv alg (g0 : G) n srv k s ps :
  reach alg g0 n srv -> sessions srv !! k = Some s -> ss_pods s = Some ps ->
  map pod_name ps = pod_names /\ Forall pod_inv ps.
Proof.
  intros Hr Hk Hp. pose proof (reach_inv alg g0 n srv Hr k s Hk) as Hs.
  unfold session_inv in Hs. rewrite Hp in Hs. destruct Hs as [Hn Hf].
  split; [done|]. eapply Forall_impl; [exact Hf | by intros ? [? ?]].
Qed.

(** C14: after [n] runs of the script, in any sessions and with any
    inputs, every speed is at least [600 - 50 n]: the spec's [0 <= speed]
    holds through the first 12 runs. *)
Theorem reach_speed_floor alg (g0 : G) n srv k s ps :
  reach alg g0 n srv -> sessions srv !! k = Some s -> ss_pods s = Some ps ->
  Forall (fun p => 600 - 50 * inject_Z (Z.of_nat n) <= speed p) ps.
Proof.
  intros Hr Hk Hp. pose proof (reach_inv alg g0 n srv Hr k s Hk) as Hs.
  unfold session_inv in Hs. rewrite Hp in Hs. destruct Hs as [_ Hf].
  eapply Forall_impl; [exact Hf | by intros ? [? ?]].
Qed.

Lemma with_rng_ok {A} (m : PyM G A) (w : World G) a g' :
  m (rng w) = (Ok a, g') -> with_rng m w = (Ok a, {| session := session w; rng := g' |}).
Proof. intros H. unfold with_rng. by rewrite H. Qed.

Lemma fleet_names_lookup (ps : list Pod) i :
  map pod_name ps = pod_names -> (i < 3)%nat -> exists p, ps !! i = Some p /\ pod_name p <> "".
Proof.
  intros Hn Hi. assert (Hl : length ps = 3%nat) by (by rewrite <- (length_map pod_name), Hn).
  destruct (lookup_lt_is_Some_2 ps i) as [p Hp]; [lia|]. exists p. split; [done|].
  pose proof (lookup_map_Some pod_name _ _ _ Hp) as Hm. rewrite Hn in Hm.
  destruct i as [|[|[|i]]]; simpl in Hm; [..|lia]; injection Hm as <-; done.
Qed.

(** The four panels succeed on a fleet of the three pods when the picks
    are within the options. *)
Lemma render_ok alg inp (w : World G) ps :
  ss_pods (session w) = Some ps -> map pod_name ps = pod_names ->
  (filter_choice (tracker_in inp) < length (filter_options ps))%nat ->
  (sort_choice (tracker_in inp) < 2)%nat ->
  (pod1_choice (compare_in inp) < 3)%nat -> (pod2_choice (compare_in inp) < 3)%nat ->
  exists page w', render alg inp w = (Ok page, w').
Proof.
  intros E Hn Hf Hs H1 H2.
  assert (Hsp : forall g : G, session_pods {| session := session w; rng := g |}
                          = (Ok ps, {| session := session w; rng := g |}))
    by (intros g; unfold session_pods; simpl; by rewrite E).
  assert (Hsp0 : session_pods w = (Ok ps, w)) by (unfold session_pods; by rewrite E).
  destruct (pod_tracker_ok alg ps (tracker_in inp) w Hf Hs) as (sel & k & _ & _ & Ht).
  destruct (route_monitor_draws (rng w)) as (c & t0 & h & Hr & _).
  destruct (choice_run tips (after_randoms 2 (randbelow_step 3 (rng w)).2)) as (t & He & _); [done|].
  destruct (fleet_names_lookup ps _ Hn H1) as (p1 & Hp1 & N1).
  destruct (fleet_names_lookup ps _ Hn H2) as (p2 & Hp2 & N2).
  assert (Hnd : NoDup (map pod_name ps)) by (rewrite Hn; decide_by_eval).
  unfold render. run_with Hsp0. run_with Ht.
  run_with (with_rng_ok route_monitor _ _ _ Hr). run_with (with_rng_ok energy_section
    {| session := session w; rng := after_randoms 2 (randbelow_step 3 (rng w)).2 |} _ _ He).
  run_with (Hsp (randbelow_step 4 (after_randoms 2 (randbelow_step 3 (rng w)).2)).2).
  do 2 eexists. unfold py_bind at 1.
  rewrite (pod_comparison_bars ps (compare_in inp) p1 p2 _ Hnd Hp1 Hp2 N1 N2). reflexivity.
Qed.

(** A run succeeds when the picks are within the options. *)
Lemma run_script_succeeds alg inp (w : World G) ps m :
  ss_pods (session w) = Some ps -> fleet_inv m ps ->
  (filter_choice (tracker_in inp) < length (filter_options ps))%nat ->
  (sort_choice (tracker_in inp) < 2)%nat ->
  (pod1_choice (compare_in inp) < 3)%nat -> (pod2_choice (compare_in inp) < 3)%nat ->
  exists page w', run_script alg inp w = (Ok page, w').
Proof.
  intros E Hinv Hf Hs H1 H2.
  assert (Hi : init_session w = (Ok tt, w)) by (unfold init_session; by rewrite E).
  destruct (update_session_run m ps w E Hinv) as (ps' & w2 & Hu & E2 & [Hn _] & HR & _).
  unfold run_script, main. rewrite (py_bind_ok _ _ _ _ _ Hi), (py_bind_ok _ _ _ _ _ Hu).
  apply (render_ok alg inp w2 ps' E2 Hn); [|done..].
  unfold filter_options. by rewrite (row_update_statuses ps ps' HR).
Qed.

(** A run of a session without a fleet builds one and succeeds with the
    first filter option and picks within the options. *)
Lemma run_script_new_session alg inp (w : World G) :
  ss_pods (session w) = None -> filter_choice (tracker_in inp) = 0%nat ->
  (sort_choice (tracker_in inp) < 2)%nat ->
  (pod1_choice (compare_in inp) < 3)%nat -> (pod2_choice (compare_in inp) < 3)%nat ->
  exists page w', run_script alg inp w = (Ok page, w').
Proof.
  intros E Hf Hs H1 H2.
  destruct (init_session_run 600 w ltac:(lra) ltac:(by unfold session_inv; rewrite E))
    as (ps & w1 & Hi & E1 & Hinv).
  assert (Hi1 : init_session w1 = (Ok tt, w1)) by (unfold init_session; by rewrite E1).
  destruct (run_script_succeeds alg inp w1 ps 600 E1 Hinv) as (page & w' & Hr); [rewrite Hf; unfold filter_options; simpl; lia | exact Hs | exact H1 | exact H2 |].
  exists page, w'. unfold run_script in *. unfold py_bind in *. rewrite Hi. by rewrite Hi1 in Hr.
Qed.

(** C17: a run of a session whose fleet satisfies the invariant never
    raises when the picks are within the options the page offers. *)
Theorem run_script_ok alg inp (w : World G) ps m :
  ss_pods (session w) = Some ps -> fleet_inv m ps ->
  (filter_choice (tracker_in inp) < length (filter_options ps))%nat ->
  (sort_choice (tracker_in inp) < 2)%nat ->
  (pod1_choice (compare_in inp) < 3)%nat -> (pod2_choice (compare_in inp) < 3)%nat ->
  exists page w', run_script alg inp w = (Ok page, w').
Proof. exact (run_script_succeeds alg inp w ps m). Qed.

(** The fleet a run stores is the update of the fleet it found. *)
Lemma run_script_stores_update alg inp (w : World G) ps :
  ss_pods (session w) = Some ps ->
  exists ps', (update_pod_data ps (rng w)).1 = Ok ps'
              /\ ss_pods (session (run_script alg inp w).2) = Some ps'.
Proof.
  intros E. destruct (update_pod_data_rows ps (rng w)) as (ps' & Hu & _).
  exists ps'. rewrite Hu. split; [done|].
  assert (Hi : init_session w = (Ok tt, w)) by (unfold init_session; by rewrite E).
  unfold run_script, main.
  rewrite (py_bind_ok _ _ _ _ _ Hi), (py_bind_ok _ _ _ _ _ (update_session_step _ _ _ _ E Hu)).
  match goal with |- context [render alg inp ?w2] => pose proof (render_keeps alg inp w2) as Hk end.
  unfold same_session in Hk. by rewrite Hk.
Qed.

(** C16: a run of a session that has a fleet stores exactly one update of
    that fleet, whatever the rest of the run returns. *)
Theorem run_script_updates_once alg inp (w : World G) ps :
  ss_pods (session w) = Some ps ->
  exists ps', (update_pod_data ps (rng w)).1 = Ok ps'
              /\ ss_pods (session (run_script alg inp w).2) = Some ps'.
Proof. exact (run_script_stores_update alg inp w ps). Qed.
End Claims.

(** ** From one run to the next *)

Section Transitions.
Context {G : Type} `{!PyRandom G, !PyRandomLaws G}.

(** The fleet stored by a run of a session that has one. *)
Lemma rerun_stored alg k inp (srv : Server G) s ps :
  sessions srv !! k = Some s -> ss_pods s = Some ps ->
  exists ps', sessions (rerun alg k inp srv).1 !! k = Some {| ss_pods := Some ps' |}
              /\ Forall2 row_update ps ps'.
Proof.
  intros Hk Hp. unfold rerun. rewrite Hk. simpl.
  destruct (run_script_stores_update alg inp {| session := s; rng := srv_rng srv |} ps Hp)
    as (ps' & Hu & Hst).
  destruct (update_pod_data_rows ps (srv_rng srv)) as (ps'' & Hu' & HR).
  simpl in Hu. rewrite Hu' in Hu. injection Hu as <-.
  destruct (run_script alg inp _) as [r w]. simpl in *.
  exists ps''. rewrite lookup_insert_eq. split; [|done].
  destruct (session w) as [sp]. simpl in Hst. by subst.
Qed.

(** C19: in a reachable server, the next run of a session lowers each
    pod's battery by at most one point and never raises it: the battery
    is non-increasing along every sequence of runs, not only in
    expectation. *)
Theorem rerun_battery_nonincreasing alg (g0 : G) n srv k inp s ps :
  reach alg g0 n srv -> sessions srv !! k = Some s -> ss_pods s = Some ps ->
  exists ps', sessions (rerun alg k inp srv).1 !! k = Some {| ss_pods := Some ps' |}
    /\ Forall2 (fun p p' => pod_name p' = pod_name p
                            /\ battery p - 1 <= battery p' <= battery p) ps ps'.
Proof.
  intros Hr Hk Hp. pose proof (reach_inv alg g0 n srv Hr k s Hk) as Hs.
  unfold session_inv in Hs. rewrite Hp in Hs. destruct Hs as [_ Hinv].
  destruct (rerun_stored alg k inp srv s ps Hk Hp) as (ps' & Hst & HR).
  exists ps'. split; [done|]. clear Hst Hk Hp Hr.
  induction HR as [|p p' ps ps' Hrow _ IH]; [constructor|].
  inversion Hinv as [|? ? [[Hb _] _] Hinv']; subst. constructor; [|by apply IH].
  split; [apply Hrow | by apply row_update_battery].
Qed.
End Transitions.

(** ** The missing lower clamp on speed *)

(** A generator whose every [random()] is [0]: every [uniform(a, b)] is
    [a], [choice] picks the first element. *)
Definition zero_draws : Replay := {| recorded := [] |}.

(** The default picks: filter 'All', sort by speed, compare the first two
    pods. *)
Definition default_input : UserInput :=
  {| tracker_in := {| filter_choice := 0; sort_choice := 0 |};
     compare_in := {| pod1_choice := 0; pod2_choice := 1 |} |}.

(** [n] runs of session [k] from the empty server. *)
Definition reruns (k : string) (n : nat) : Server Replay :=
  Nat.iter n (fun srv => (rerun pandas_sort k default_input srv).1) (init_server zero_draws).

Lemma reach_reruns k n : reach pandas_sort zero_draws n (reruns k n).
Proof. induction n as [|n IH]; [constructor | by apply reach_rerun]. Qed.

(** With every draw [0], an Operational row loses exactly 50 km/h:
    [uniform(-50, 50)] is [-50], and [min(1000, ...)] does not bite. *)
Definition drops_50 (p p' : Pod) : Prop :=
  pod_name p' = pod_name p /\ status p' = Operational /\ speed p' == speed p - 50.

Lemma update_row_zero (p : Pod) :
  status p = Operational -> speed p <= 1000 ->
  exists p', update_row p zero_draws = (Ok p', zero_draws) /\ drops_50 p p'.
Proof.
  intros Hop Hs. unfold update_row. rewrite decide_True by done.
  eexists. split; [reflexivity|]. unfold drops_50. simpl. split_and!; [done | done |]. py_minmax.
Qed.

Lemma map_update_zero (ps : list Pod) :
  Forall (fun p => status p = Operational /\ speed p <= 1000) ps ->
  exists ps', map_m update_row ps zero_draws = (Ok ps', zero_draws) /\ Forall2 drops_50 ps ps'.
Proof.
  induction 1 as [|p ps [Hop Hs] _ IH]; [by exists [] |].
  destruct (update_row_zero p Hop Hs) as (p' & Hp & Hd). destruct IH as (ps' & Hm & HR).
  exists (p' :: ps'). cbn [map_m]. run_with Hp. run_with Hm. split; [done | by constructor].
Qed.

Lemma update_pod_data_zero (ps : list Pod) :
  Forall (fun p => status p = Operational /\ speed p <= 1000) ps ->
  exists ps', update_pod_data ps zero_draws = (Ok ps', zero_draws) /\ Forall2 drops_50 ps ps'.
Proof.
  intros Hps. unfold update_pod_data. pose proof (update_loop_from [] ps zero_draws) as H. simpl in H.
  rewrite H, py_bind_ret_r. by apply map_update_zero.
Qed.

(** The state of the generator stays [zero_draws] through a run. *)
Definition rng_zero (w w' : World Replay) : Prop := rng w = zero_draws -> rng w' = zero_draws.

#[local] Instance rng_zero_preorder : PreOrder rng_zero.
Proof. split; [intros w H; exact H | intros w1 w2 w3 H1 H2 H; auto]. Qed.

Lemma with_rng_zero {A} (m : PyM Replay A) :
  (m zero_draws).2 = zero_draws -> keeps rng_zero (with_rng m).
Proof. intros Hm w Hw. unfold with_rng. rewrite Hw. by destruct (m zero_draws). Qed.

Lemma session_pods_keeps_any (R : relation (World Replay)) `{!PreOrder R} : keeps R session_pods.
Proof. intros w. unfold session_pods. destruct (ss_pods (session w)); simpl; reflexivity. Qed.

(** The weather panel and the tip draw [0]s and leave the generator
    where it was. *)
Lemma render_rng_zero alg inp : keeps rng_zero (render alg inp).
Proof.
  unfold render.
  repeat ((apply pod_tracker_keeps; typeclasses eauto)
          || (apply pod_comparison_keeps; typeclasses eauto)
          || (apply with_rng_zero; vm_compute; reflexivity)
          || (apply session_pods_keeps_any; typeclasses eauto) || keeps_step).
Qed.

(** A run of a session whose pods are all Operational, every draw [0]:
    each pod loses exactly 50 km/h and the generator stays put. *)
Lemma run_script_zero alg inp (w : World Replay) ps :
  rng w = zero_draws -> ss_pods (session w) = Some ps ->
  Forall (fun p => status p = Operational /\ speed p <= 1000) ps ->
  exists ps', ss_pods (session (run_script alg inp w).2) = Some ps'
              /\ rng (run_script alg inp w).2 = zero_draws /\ Forall2 drops_50 ps ps'.
Proof.
  intros Hg E Hps. destruct (update_pod_data_zero ps Hps) as (ps' & Hu & HR).
  rewrite <- Hg in Hu.
  assert (Hi : init_session w = (Ok tt, w)) by (unfold init_session; by rewrite E).
  unfold run_script, main.
  rewrite (py_bind_ok _ _ _ _ _ Hi), (py_bind_ok _ _ _ _ _ (update_session_step _ _ _ _ E Hu)).
  match goal with |- context [render alg inp ?w2] =>
    pose proof (render_keeps alg inp w2) as Hk; pose proof (render_rng_zero alg inp w2 Hg) as Hz end.
  unfold same_session in Hk. rewrite Hk. by exists ps'.
Qed.

Lemma drops_50_fleet ps ps' m :
  Forall2 drops_50 ps ps' -> Forall (fun p => status p = Operational /\ speed p == m) ps ->
  map pod_name ps' = map pod_name ps /\ Forall (fun p => status p = Operational /\ speed p == m - 50) ps'.
Proof.
  induction 1 as [|p p' ps ps' (Hn & Hs & Hv) _ IH]; intros Hf; [done|].
  inversion Hf as [|? ? [_ Hm] Hf']; subst. destruct (IH Hf') as [Hn' Hf''].
  simpl. rewrite Hn, Hn'. split; [done|]. constructor; [split; [done | lra] | done].
Qed.

(** The session after [n + 1] runs, every draw [0]. *)
Lemma reruns_zero n :
  exists ps, sessions (reruns "s" (S n)) !! "s" = Some {| ss_pods := Some ps |}
    /\ srv_rng (reruns "s" (S n)) = zero_draws /\ map pod_name ps = pod_names
    /\ Forall (fun p => status p = Operational /\ speed p == speed_floor (S n)) ps.
Proof.
  induction n as [|n (ps & Hk & Hg & Hn & Hf)].
  - eexists. split; [vm_compute; reflexivity|]. split; [reflexivity|]. split; [reflexivity|].
    repeat constructor.
  - change (reruns "s" (S (S n))) with (rerun pandas_sort "s" default_input (reruns "s" (S n))).1.
    unfold rerun. rewrite Hk, Hg. cbn [default].
    destruct (run_script_zero pandas_sort default_input
                {| session := {| ss_pods := Some ps |}; rng := zero_draws |} ps)
      as (ps' & E' & Hg' & HR); [done | done | |].
    { eapply Forall_impl; [exact Hf|]. intros p [Hop Hv]. pose proof (speed_floor_le (S n)). split; [done | lra]. }
    destruct (run_script _ _ _) as [r w']. simpl in E', Hg'. simpl.
    destruct (drops_50_fleet ps ps' _ HR Hf) as [Hn' Hf'].
    exists ps'. rewrite lookup_insert_eq. destruct (session w') as [sp]. simpl in E'. subst sp.
    split_and!; [done | done | by rewrite Hn', Hn |].
    eapply Forall_impl; [exact Hf'|]. intros p [Hop Hv]. split; [done|]. rewrite speed_floor_succ. lra.
Qed.

(** C15: the speed floor [600 - 50 n] of every reachable server is
    attained, so speed has no floor at all: with every draw [0] (each [uniform(-50, 50)] is
    [-50]), [n + 1] runs of one session leave its three pods Operational
    at exactly [600 - 50 (n + 1)] km/h, below 0 from the 13th run on,
    because main.py 113 clamps speed with [min(1000, ...)] only. *)
Theorem speed_floor_attained n :
  reach pandas_sort zero_draws (S n) (reruns "s" (S n))
  /\ exists ps, sessions (reruns "s" (S n)) !! "s" = Some {| ss_pods := Some ps |}
       /\ map pod_name ps = pod_names
       /\ Forall (fun p => status p = Operational /\ speed p == speed_floor (S n)) ps.
Proof.
  split; [apply reach_reruns|].
  destruct (reruns_zero n) as (ps & Hk & _ & Hn & Hf). by exists ps.
Qed.

(** ** Witnesses *)

Lemma reachable_fleet_inv_witness :
  reach pandas_sort zero_draws 2 (reruns "s" 2) /\
  exists s ps, sessions (reruns "s" 2) !! "s" = Some s /\ ss_pods s = Some ps /\
    map pod_name ps = pod_names /\ Forall pod_inv ps.
Proof.
  pose proof (reach_reruns "s" 2) as Hr. split; [exact Hr|].
  destruct (sessions (reruns "s" 2) !! "s") as [s|] eqn:Hk; [|vm_compute in Hk; discriminate].
  destruct (ss_pods s) as [ps|] eqn:Hp; [|vm_compute in Hk; injection Hk as <-; discriminate].
  exists s, ps. do 2 (split; [done|]).
  exact (reachable_fleet_inv pandas_sort zero_draws 2 (reruns "s" 2) "s" s ps Hr Hk Hp).
Defined.

Lemma reach_speed_floor_witness :
  reach pandas_sort zero_draws 12 (reruns "s" 12) /\
  exists s ps, sessions (reruns "s" 12) !! "s" = Some s /\ ss_pods s = Some ps /\
    Forall (fun p => 600 - 50 * inject_Z (Z.of_nat 12) <= speed p) ps.
Proof.
  pose proof (reach_reruns "s" 12) as Hr. split; [exact Hr|].
  destruct (sessions (reruns "s" 12) !! "s") as [s|] eqn:Hk; [|vm_compute in Hk; discriminate].
  destruct (ss_pods s) as [ps|] eqn:Hp; [|vm_compute in Hk; injection Hk as <-; discriminate].
  exists s, ps. do 2 (split; [done|]).
  exact (reach_speed_floor pandas_sort zero_draws 12 (reruns "s" 12) "s" s ps Hr Hk Hp).
Defined.

(** A session holding the spec's example fleet under the pods' names. *)
Definition sample_world : World Replay :=
  {| session := {| ss_pods := Some [mkPod "Avishkar-1" 700 80 Operational;
                                    mkPod "Avishkar-2" 900 50 Docked;
                                    mkPod "Avishkar-3" 650 90 Operational] |};
     rng := sample_draws |}.

Lemma run_script_updates_once_witness :
  exists ps, ss_pods (session sample_world) = Some ps /\
  exists ps', (update_pod_data ps (rng sample_world)).1 = Ok ps'
              /\ ss_pods (session (run_script pandas_sort default_input sample_world).2) = Some ps'.
Proof.
  eexists. split; [reflexivity|].
  exact (run_script_updates_once pandas_sort default_input sample_world _ eq_refl).
Defined.

Lemma run_script_ok_witness :
  exists ps, ss_pods (session sample_world) = Some ps /\ fleet_inv 600 ps /\
  exists page w', run_script pandas_sort default_input sample_world = (Ok page, w').
Proof.
  eexists. split; [reflexivity|].
  assert (Hinv : fleet_inv 600 [mkPod "Avishkar-1" 700 80 Operational;
                                mkPod "Avishkar-2" 900 50 Docked;
                                mkPod "Avishkar-3" 650 90 Operational])
    by (unfold fleet_inv; decide_by_eval).
  split; [exact Hinv|].
  apply (run_script_ok pandas_sort default_input sample_world _ 600 eq_refl Hinv);
    vm_compute; lia.
Defined.

(** ** The generator is shared by the sessions *)

(** Recorded draws, all distinct. *)
Definition distinct_draws : Replay :=
  {| recorded := map (fun k => inject_Z (Z.of_nat k) / 64) (seq 1 40) |}.

(** What a session's new fleet is depends on the runs of other
    sessions: starting from the same server, session "a"'s first fleet
    differs according to whether session "b" ran first, since both draw
    from the one process-wide generator. *)
Example shared_generator_couples_sessions :
  let srv0 := init_server distinct_draws in
  option_map ss_pods (sessions (rerun pandas_sort "a" default_input srv0).1 !! "a")
  <> option_map ss_pods
       (sessions (rerun pandas_sort "a" default_input
                    (rerun pandas_sort "b" default_input srv0).1).1 !! "a").
Proof. vm_compute. congruence. Qed.

Lemma rerun_battery_nonincreasing_witness :
  reach pandas_sort zero_draws 1 (reruns "s" 1) /\
  exists s ps, sessions (reruns "s" 1) !! "s" = Some s /\ ss_pods s = Some ps /\
  exists ps', sessions (rerun pandas_sort "s" default_input (reruns "s" 1)).1 !! "s"
              = Some {| ss_pods := Some ps' |}
    /\ Forall2 (fun p p' => pod_name p' = pod_name p
                           /\ battery p - 1 <= battery p' <= battery p) ps ps'.
Proof.
  pose proof (reach_reruns "s" 1) as Hr. split; [exact Hr|].
  destruct (sessions (reruns "s" 1) !! "s") as [s|] eqn:Hk; [|vm_compute in Hk; discriminate].
  destruct (ss_pods s) as [ps|] eqn:Hp; [|vm_compute in Hk; injection Hk as <-; discriminate].
  exists s, ps. do 2 (split; [done|]).
  exact (rerun_battery_nonincreasing pandas_sort zero_draws 1 (reruns "s" 1) "s" default_input
           s ps Hr Hk Hp).
Defined.
