(* ===== verification/Page.v ===== *)
(** * Page: the Streamlit calls of a run, in the order the script makes them

    Besides the values the panels compute, a run of main.py makes a
    sequence of Streamlit calls that build the page: [st.set_page_config]
    (main.py 11-14), the [st.markdown] of the style sheet (17-96),
    [st.title] (99), then the headers, columns, select boxes, the data
    frame, metrics, warning, info and chart of the four panels (116-222).
    [Element] has one constructor per call, with the arguments the script
    passes; [Columns] holds what each [with colN:] block adds to its
    column.  [script_elements] is the sequence of a run, built from the
    [Page] the run returns (App.v), which records the fleets the select
    boxes read.

    Streamlit checks two things while it runs a script: that
    [st.set_page_config] is the first call of the page and is made once,
    and that no two widgets have the same identity (the widget type with
    its label, options and key) and no two the same key; a violation
    raises [StreamlitAPIException], [DuplicateWidgetID] or
    [StreamlitDuplicateElementKey].  [st_run] is that check over the calls
    in execution order, the registry of identities and keys as its state.
    The check is the library's, modelled from its documentation.

    The theorems: every page passes the check; on every reachable server
    the battery progress bars stay within their configured range; and
    consecutive runs of a session give each select box the same identity
    ([widget_identities]), so its selection is kept. *)

From stdpp Require Import gmap.
From S2P Require Import Prelude PyRandom Format Css Telemetry StableSort Tracker Widgets App.

Local Open Scope Q_scope.
Local Set Warnings "-register-all".

(** main.py 11-14: [st.set_page_config(page_title=..., layout="wide")] *)
Record PageConfig := { page_title : string; layout : string }.

Definition page_config : PageConfig :=
  {| page_title := "Avishkar Hyperloop Control Center"; layout := "wide" |}.

(** main.py 132-135: the [column_config] of the tracker's data frame. *)
Inductive ColumnKind :=
  | NumberColumn (format : string)
  | ProgressColumn (min_value max_value : Q).

Definition tracker_columns : list (string * ColumnKind) :=
  [("Speed (km/h)", NumberColumn "%.2f"); ("Battery (%)", ProgressColumn 0 100)].

(** main.py 198-205: [fig.update_layout(...)] *)
Record FigureLayout := {
  barmode : string;
  plot_bgcolor : string;
  paper_bgcolor : string;
  font_color : string;
  title_text : string;
  title_font_color : string
}.

Definition comparison_layout : FigureLayout := {|
  barmode := "group";
  plot_bgcolor := "rgba(0,0,0,0)";
  paper_bgcolor := "rgba(0,0,0,0)";
  font_color := "#00ff00";
  title_text := "Pod Performance Comparison";
  title_font_color := "#00ff00"
|}.

Inductive Element :=
  | SetPageConfig (cfg : PageConfig)
  | Markdown (body : string) (unsafe_allow_html : bool)
  | Title (text : string)
  | Header (text : string)
  | Divider
  | Columns (cols : list (list Element))
  | Selectbox (label : string) (options : list string) (key : option string)
  | Dataframe (rows : list Pod) (column_config : list (string * ColumnKind)) (hide_index : bool)
  | Metric (label value : string)
  | Warning (body : string)
  | Info (body : string)
  | PlotlyChart (traces : list BarTrace) (fig_layout : FigureLayout) (use_container_width : bool).

(** main.py 10-99: the calls before the session guard. *)
Definition script_prelude : list Element :=
  [SetPageConfig page_config; Markdown css_source true; Title "Avishkar Hyperloop Control Center"].

(** main.py 116-137 *)
Definition tracker_elements (ps rows : list Pod) : list Element :=
  [Header "Pod Tracker";
   Columns [[Selectbox "Filter by Status" (filter_options ps) None];
            [Selectbox "Sort by" sort_options None]];
   Dataframe rows tracker_columns true].

(** main.py 139-156 *)
Definition route_elements (panel : RoutePanel) : list Element :=
  [Header "Route Weather Monitor";
   Columns [[Metric "Weather" (condition (weather panel))];
            [Metric "Temperature" (temperature_text panel)];
            [Metric "Humidity" (humidity_text panel)]];
   Warning (warning panel)].

(** main.py 158-166 *)
Definition energy_elements (tip : string) : list Element :=
  [Header "Energy Optimization"; Info tip].

(** main.py 168-207: the chart only when both picks are truthy. *)
Definition comparison_elements (ps : list Pod) (chart : option (list BarTrace)) : list Element :=
  [Header "Pod Comparison";
   Columns [[Selectbox "Select First Pod" (map pod_name ps) (Some "pod1")];
            [Selectbox "Select Second Pod" (map pod_name ps) (Some "pod2")]]]
  ++ match chart with
     | Some traces => [PlotlyChart traces comparison_layout true]
     | None => []
     end.

(** main.py 209-222 *)
Definition main_elements (pg : Page) : list Element :=
  tracker_elements (tracker_fleet pg) (table pg) ++ [Divider]
  ++ [Columns [route_elements (route pg); energy_elements (tip pg)]]
  ++ [Divider] ++ comparison_elements (compare_fleet pg) (chart pg).

Definition script_elements (pg : Page) : list Element := script_prelude ++ main_elements pg.

(** The calls in execution order: a [Columns] call, then what its
    [with] blocks add, column after column. *)
Fixpoint flatten (e : Element) : list Element :=
  match e with
  | Columns cols =>
      e :: (fix go_cols (cs : list (list Element)) : list Element :=
              match cs with
              | [] => []
              | c :: cs' =>
                  (fix go (l : list Element) : list Element :=
                     match l with
                     | [] => []
                     | x :: l' => flatten x ++ go l'
                     end) c ++ go_cols cs'
              end) cols
  | _ => [e]
  end.

Definition calls (els : list Element) : list Element := flat_map flatten els.

(** The configuration of a column by name. *)
Fixpoint column_kind (cfg : list (string * ColumnKind)) (name : string) : option ColumnKind :=
  match cfg with
  | [] => None
  | (n, k) :: cfg' => if decide (n = name) then Some k else column_kind cfg' name
  end.

(** The share of a progress bar a value fills: [(v - min) / (max - min)]. *)
Definition progress_fill (k : ColumnKind) (v : Q) : option Q :=
  match k with
  | ProgressColumn lo hi => Some ((v - lo) / (hi - lo))
  | NumberColumn _ => None
  end.

(** ** What Streamlit checks while the script runs *)

Inductive StError := PageConfigNotFirst | DuplicateWidgetID | DuplicateElementKey.

#[export] Instance StError_eq_dec : EqDecision StError.
Proof. solve_decision. Defined.

(** A widget's identity: its type (here always a select box), label,
    options and key. *)
Definition WidgetId : Type := string * list string * option string.

Record Registry := { made_calls : nat; widget_ids : list WidgetId; user_keys : list string }.

Definition empty_registry : Registry := {| made_calls := 0; widget_ids := []; user_keys := [] |}.

Definition count_call (r : Registry) : Registry :=
  {| made_calls := S (made_calls r); widget_ids := widget_ids r; user_keys := user_keys r |}.

(** One call: [st.set_page_config] only as the first call; a select box
    only with a key and an identity not yet registered. *)
Definition st_call (r : Registry) (e : Element) : StError + Registry :=
  match e with
  | SetPageConfig _ =>
      if decide (made_calls r = 0%nat) then inr (count_call r) else inl PageConfigNotFirst
  | Selectbox label options key =>
      let id := (label, options, key) in
      match key with
      | Some k => if decide (k ∈ user_keys r) then inl DuplicateElementKey else
                  if decide (id ∈ widget_ids r) then inl DuplicateWidgetID else
                  inr {| made_calls := S (made_calls r); widget_ids := id :: widget_ids r;
                         user_keys := k :: user_keys r |}
      | None => if decide (id ∈ widget_ids r) then inl DuplicateWidgetID else
                inr {| made_calls := S (made_calls r); widget_ids := id :: widget_ids r;
                       user_keys := user_keys r |}
      end
  | _ => inr (count_call r)
  end.

Fixpoint st_run (r : Registry) (cs : list Element) : StError + Registry :=
  match cs with
  | [] => inr r
  | e :: cs' => match st_call r e with inl err => inl err | inr r' => st_run r' cs' end
  end.

(** The page a run of the script builds is accepted. *)
Definition st_accepts (els : list Element) : bool :=
  match st_run empty_registry (calls els) with inl _ => false | inr _ => true end.

(** The identities of the select boxes among the calls, in order. *)
Definition widget_identities (els : list Element) : list WidgetId :=
  omap (fun e => match e with Selectbox l o k => Some (l, o, k) | _ => None end) (calls els).

(** ** Properties *)

(** C21: whatever a run shows, Streamlit accepts the calls of the
    script: [st.set_page_config] comes first and once, and the four
    select boxes ('Filter by Status', 'Sort by', and the comparison's two
    with keys 'pod1' and 'pod2') have distinct identities and keys, so no
    run raises [StreamlitAPIException], [DuplicateWidgetID] or
    [StreamlitDuplicateElementKey]. *)
Theorem script_elements_accepted (pg : Page) : st_accepts (script_elements pg) = true.
Proof. destruct pg as [tf tb rt tp cf [traces|]]; reflexivity. Qed.

Lemma widget_identities_page (pg : Page) :
  widget_identities (script_elements pg)
  = [("Filter by Status", filter_options (tracker_fleet pg), None);
     ("Sort by", sort_options, None);
     ("Select First Pod", map pod_name (compare_fleet pg), Some "pod1");
     ("Select Second Pod", map pod_name (compare_fleet pg), Some "pod2")].
Proof. destruct pg as [tf tb rt tp cf [traces|]]; reflexivity. Qed.

Section Reachable.
Context {G : Type} `{!PyRandom G, !PyRandomLaws G}.

(** A run of a session that holds [ps] shows a page drawn from one
    update of [ps]. *)
Lemma run_script_page_fleet alg inp (w w' : World G) ps pg :
  ss_pods (session w) = Some ps -> run_script alg inp w = (Ok pg, w') ->
  Forall2 row_update ps (tracker_fleet pg) /\ compare_fleet pg = tracker_fleet pg
  /\ ss_pods (session w') = Some (tracker_fleet pg).
Proof.
  intros E Hr. destruct (run_script_post alg inp w w' pg Hr) as (Hp & Hc & _).
  destruct (run_script_stores_update alg inp w ps E) as (ps' & Hu & Hs).
  destruct (update_pod_data_rows ps (rng w)) as (ps'' & Hu' & HR).
  rewrite Hu' in Hu. simpl in Hu. injection Hu as <-.
  rewrite Hr in Hs. simpl in Hs. rewrite Hp in Hs. injection Hs as Heq. split_and!; [by rewrite Heq | done | done].
Qed.

(** C23: two consecutive runs of a session give every select box the
    same identity (label, options, key): the fleet's names and statuses
    never change, so Streamlit keeps each box's selection from one run to
    the next instead of resetting it. *)
Theorem widget_identities_stable alg k inp1 inp2 (srv srv1 srv2 : Server G) pg1 pg2 :
  rerun alg k inp1 srv = (srv1, Ok pg1) -> rerun alg k inp2 srv1 = (srv2, Ok pg2) ->
  widget_identities (script_elements pg1) = widget_identities (script_elements pg2).
Proof.
  unfold rerun. intros H1 H2.
  destruct (run_script alg inp1 _) as [r1 w1] eqn:E1. injection H1 as <- ->.
  simpl in H2. rewrite lookup_insert_eq in H2. simpl in H2.
  destruct (run_script alg inp2 _) as [r2 w2] eqn:E2. injection H2 as <- ->.
  destruct (run_script_post alg inp1 _ w1 pg1 E1) as (Hp1 & Hc1 & _).
  destruct (run_script_page_fleet alg inp2 {| session := session w1; rng := rng w1 |} w2 _ pg2 Hp1 E2)
    as (HR & Hc2 & _).
  rewrite !widget_identities_page, Hc1, Hc2. unfold filter_options.
  by rewrite (row_update_names _ _ HR), (row_update_statuses _ _ HR).
Qed.

(** C22: on every server reachable by runs of the script, the table of
    the next run's page shows each battery as a progress bar filled to a
    share in [[0, 1]] of the column's configured range [[0, 100]]: the
    battery invariant the update keeps is the range the tracker's column
    configuration (main.py 132-135) assumes. *)
Theorem rendered_battery_fill alg (g0 : G) n srv k inp srv' pg :
  reach alg g0 n srv -> rerun alg k inp srv = (srv', Ok pg) ->
  Forall (fun p => exists f, (column_kind tracker_columns "Battery (%)" ≫= fun c => progress_fill c (battery p))
                             = Some f /\ 0 <= f <= 1) (table pg).
Proof.
  intros Hr Hrun. pose proof (reach_rerun alg g0 n srv k inp Hr) as Hr'.
  pose proof (reach_inv alg g0 (S n) _ Hr') as Hinv. rewrite Hrun in Hinv. simpl in Hinv.
  unfold rerun in Hrun.
  destruct (run_script alg inp _) as [r w] eqn:Er. injection Hrun as <- ->.
  destruct (run_script_post alg inp _ w pg Er) as (Hp & _ & Hsub & _).
  specialize (Hinv k (session w) ltac:(simpl; by rewrite lookup_insert_eq)). simpl in Hinv.
  unfold session_inv in Hinv. rewrite Hp in Hinv. destruct Hinv as [_ Hall].
  apply Forall_forall. intros p Hin.
  rewrite Forall_forall in Hall. destruct (Hall p (Hsub p Hin)) as [[Hb _] _].
  eexists. split; [reflexivity|]. unfold Qdiv. change (/ (100 - 0)) with (1#100). lra.
Qed.
End Reachable.

Lemma rendered_battery_fill_witness :
  exists srv' pg,
    rerun pandas_sort "s" default_input (init_server zero_draws) = (srv', Ok pg)
    /\ Forall (fun p => exists f, (column_kind tracker_columns "Battery (%)"
                                   ≫= fun c => progress_fill c (battery p)) = Some f /\ 0 <= f <= 1)
              (table pg).
Proof.
  remember (rerun pandas_sort "s" default_input (init_server zero_draws)) as x eqn:E.
  destruct x as [srv' [pg|e]].
  - exists srv', pg. split; [done|].
    exact (rendered_battery_fill pandas_sort zero_draws 0 _ "s" default_input srv' pg
             (reach_init _ _) (eq_sym E)).
  - exfalso. vm_compute in E. discriminate.
Defined.

Lemma widget_identities_stable_witness :
  exists srv1 srv2 pg1 pg2,
    rerun pandas_sort "s" default_input (init_server zero_draws) = (srv1, Ok pg1)
    /\ rerun pandas_sort "s" default_input srv1 = (srv2, Ok pg2)
    /\ widget_identities (script_elements pg1) = widget_identities (script_elements pg2).
Proof.
  remember (rerun pandas_sort "s" default_input (init_server zero_draws)) as x1 eqn:E1.
  destruct x1 as [srv1 [pg1|e]]; [|exfalso; vm_compute in E1; discriminate].
  remember (rerun pandas_sort "s" default_input srv1) as x2 eqn:E2.
  destruct x2 as [srv2 [pg2|e]].
  - exists srv1, srv2, pg1, pg2. split; [done|]. split; [done|].
    exact (widget_identities_stable pandas_sort "s" default_input default_input _ srv1 srv2 pg1 pg2
             (eq_sym E1) (eq_sym E2)).
  - exfalso. vm_compute in E1. injection E1 as -> _. vm_compute in E2. discriminate.
Defined.
