(* ===== verification/Protocol.v ===== *)
(** * Protocol: widget state across the reruns of a session

    A Streamlit session keeps, between runs, the state of the widgets the
    last run drew, by widget identity: for a select box, the index of the
    option selected.  A select box that finds a state for its identity
    shows that option, otherwise its default (index 0, the script passes
    no [index=]).  Picking an option in the browser stores the new index
    under the box's identity and reruns the script; at the end of a run
    Streamlit keeps the states of the widgets that run drew, with the
    value each showed, and drops the others.

    [PServer] adds to the server of App.v the widget states and the last
    page of each session.  [input_of] turns a session's widget states
    into the picks of [run_script], looking each box up under the
    identity it has in the run (its options come from the fleet; the
    update keeps names and statuses, so the identities before the run
    are those of the page the run draws, [input_of_page]).  [pstep]
    handles one event: a rerun of a session, or a pick in one of the four
    boxes of its last page followed by a rerun.  [preach] are the servers
    reachable by events.  This is Streamlit's protocol, modelled from its
    documentation; the script's side is the model of App.v. *)

From stdpp Require Import gmap.
From S2P Require Import Prelude PyRandom Telemetry StableSort Tracker Widgets App Page.

Local Open Scope Q_scope.

(** The selected index of each select box drawn, by identity. *)
Abbreviation WidgetStates := (gmap WidgetId nat).

(** What a select box shows: its stored index, else index 0. *)
Definition pick (st : WidgetStates) (id : WidgetId) : nat := default 0%nat (st !! id).

Definition filter_id (ps : list Pod) : WidgetId := ("Filter by Status", filter_options ps, None).
Definition sort_id : WidgetId := ("Sort by", sort_options, None).
Definition pod1_id (ps : list Pod) : WidgetId := ("Select First Pod", map pod_name ps, Some "pod1").
Definition pod2_id (ps : list Pod) : WidgetId := ("Select Second Pod", map pod_name ps, Some "pod2").

(** The picks of a run, from the states and the fleet the session holds. *)
Definition input_of (st : WidgetStates) (ps : list Pod) : UserInput :=
  {| tracker_in := {| filter_choice := pick st (filter_id ps); sort_choice := pick st sort_id |};
     compare_in := {| pod1_choice := pick st (pod1_id ps); pod2_choice := pick st (pod2_id ps) |} |}.

(** The states Streamlit keeps after a run drew [pg] with the states [st]:
    each box drawn, with the index it showed. *)
Definition kept_states (st : WidgetStates) (pg : Page) : WidgetStates :=
  list_to_map ((fun id => (id, pick st id)) <$> widget_identities (script_elements pg)).

Record PServer (G : Type) := {
  pserver : Server G;
  pstates : gmap string WidgetStates;
  ppages : gmap string Page
}.
Arguments pserver {G}.
Arguments pstates {G}.
Arguments ppages {G}.

Inductive Event :=
  | Rerun (k : string)
  | Select (k : string) (box : nat) (choice : nat).

Definition init_pserver {G} (g : G) : PServer G :=
  {| pserver := init_server g; pstates := ∅; ppages := ∅ |}.

Section Steps.
Context {G : Type} `{!PyRandom G}.

Definition session_fleet (srv : Server G) (k : string) : list Pod :=
  default [] (sessions srv !! k ≫= ss_pods).

(** A run of session [k] with its widget states. *)
Definition prerun (alg : DescSort) (k : string) (ps : PServer G) : PServer G * Result Page :=
  let st := default ∅ (pstates ps !! k) in
  let inp := input_of st (session_fleet (pserver ps) k) in
  let '(srv', r) := rerun alg k inp (pserver ps) in
  match r with
  | Ok pg => ({| pserver := srv'; pstates := <[k := kept_states st pg]> (pstates ps);
                 ppages := <[k := pg]> (ppages ps) |}, r)
  | Raise _ => ({| pserver := srv'; pstates := pstates ps; ppages := ppages ps |}, r)
  end.

(** One event; a pick outside the last page's boxes and options is not
    an event the browser can send, and changes nothing. *)
Definition pstep (alg : DescSort) (e : Event) (ps : PServer G) : PServer G * option (Result Page) :=
  match e with
  | Rerun k => let '(ps', r) := prerun alg k ps in (ps', Some r)
  | Select k box c =>
      match ppages ps !! k ≫= fun pg => widget_identities (script_elements pg) !! box with
      | Some id =>
          if decide (c < length id.1.2)%nat then
            let st := default ∅ (pstates ps !! k) in
            let ps1 := {| pserver := pserver ps; pstates := <[k := <[id := c]> st]> (pstates ps);
                          ppages := ppages ps |} in
            let '(ps', r) := prerun alg k ps1 in (ps', Some r)
          else (ps, None)
      | None => (ps, None)
      end
  end.

(** The servers reachable by [n] runs of the script, through events. *)
Inductive preach (alg : DescSort) (g0 : G) : nat -> PServer G -> Prop :=
  | preach_init : preach alg g0 0 (init_pserver g0)
  | preach_run n ps e ps' r :
      preach alg g0 n ps -> pstep alg e ps = (ps', Some r) -> preach alg g0 (S n) ps'.
End Steps.

(** ** The protocol's invariant *)

(** A stored index is within the options of its box. *)
Definition states_ok (st : WidgetStates) : Prop :=
  map_Forall (fun id c => (c < length id.1.2)%nat) st.

(** A session has widget states only once it has a page; a session's
    last page was drawn from the fleet it holds. *)
Definition pinv {G} (ps : PServer G) : Prop :=
  (forall k st, pstates ps !! k = Some st -> is_Some (ppages ps !! k) /\ states_ok st)
  /\ (forall k pg, ppages ps !! k = Some pg ->
        exists s, sessions (pserver ps) !! k = Some s /\ ss_pods s = Some (tracker_fleet pg)
                  /\ compare_fleet pg = tracker_fleet pg).

Lemma pick_lt st id : states_ok st -> (0 < length id.1.2)%nat -> (pick st id < length id.1.2)%nat.
Proof.
  intros Hst Hn. unfold pick, default. case_match eqn:E; [exact (Hst id _ E) | exact Hn].
Qed.

Lemma states_ok_empty : states_ok ∅.
Proof. apply map_Forall_empty. Qed.

Lemma states_ok_insert st id c :
  states_ok st -> (c < length id.1.2)%nat -> states_ok (<[id := c]> st).
Proof. intros Hst Hc. by apply map_Forall_insert_2. Qed.

Lemma pick_empty id : pick ∅ id = 0%nat.
Proof. reflexivity. Qed.

Lemma filter_options_nonempty ps : (0 < length (filter_options ps))%nat.
Proof. unfold filter_options. simpl. lia. Qed.

(** The four boxes of a page have distinct identities: their labels
    differ. *)
Lemma widget_ids_nodup pg : NoDup (widget_identities (script_elements pg)).
Proof.
  rewrite widget_identities_page.
  repeat constructor; rewrite ?elem_of_cons; intros H;
    repeat (destruct H as [H|H]; [discriminate H|]); by apply not_elem_of_nil in H.
Qed.

(** After a run, each box drawn has the index it showed. *)
Lemma kept_states_lookup st pg id :
  id ∈ widget_identities (script_elements pg) -> kept_states st pg !! id = Some (pick st id).
Proof.
  intros Hin. unfold kept_states. apply elem_of_list_to_map_1.
  - rewrite <- list_fmap_compose. unfold compose. simpl. rewrite list_fmap_id. apply widget_ids_nodup.
  - apply list_elem_of_fmap. by exists id.
Qed.

Section Runs.
Context {G : Type} `{!PyRandom G}.

(** A rerun that returns a page stores it as the session's last page. *)
Lemma pstep_rerun_page alg k (ps ps' : PServer G) pg :
  pstep alg (Rerun k) ps = (ps', Some (Ok pg)) -> ppages ps' !! k = Some pg.
Proof.
  simpl. unfold prerun. destruct (rerun alg k _ (pserver ps)) as [srv' [pg'|e]]; [|done].
  intros [= <- <-]. simpl. by rewrite lookup_insert_eq.
Qed.

Lemma prerun_parts alg k (ps : PServer G) :
  let inp := input_of (default ∅ (pstates ps !! k)) (session_fleet (pserver ps) k) in
  pserver (prerun alg k ps).1 = (rerun alg k inp (pserver ps)).1
  /\ (prerun alg k ps).2 = (rerun alg k inp (pserver ps)).2.
Proof.
  unfold prerun. simpl. destruct (rerun alg k _ (pserver ps)) as [srv' [pg|e]]; done.
Qed.
End Runs.

(** The picks read from valid states are within the options of a fleet
    of the three pods. *)
Lemma input_of_bounds st f :
  states_ok st -> map pod_name f = pod_names ->
  let inp := input_of st f in
  (filter_choice (tracker_in inp) < length (filter_options f))%nat
  /\ (sort_choice (tracker_in inp) < 2)%nat
  /\ (pod1_choice (compare_in inp) < 3)%nat /\ (pod2_choice (compare_in inp) < 3)%nat.
Proof.
  intros Hst Hn. simpl.
  pose proof (pick_lt st (filter_id f) Hst (filter_options_nonempty f)).
  pose proof (pick_lt st sort_id Hst ltac:(simpl; lia)).
  assert (H3 : length (map pod_name f) = 3%nat) by (by rewrite Hn).
  pose proof (pick_lt st (pod1_id f) Hst ltac:(simpl; lia)).
  pose proof (pick_lt st (pod2_id f) Hst ltac:(simpl; lia)).
  simpl in *. rewrite H3 in *. split_and!; done.
Qed.

(** The states kept after a run that drew [pg] from a fleet of the three
    pods are valid when the states before were. *)
Lemma kept_states_ok st pg :
  states_ok st -> compare_fleet pg = tracker_fleet pg -> map pod_name (tracker_fleet pg) = pod_names ->
  states_ok (kept_states st pg).
Proof.
  intros Hst Hc Hn id c Hid. unfold kept_states in Hid.
  apply elem_of_list_to_map_2, list_elem_of_fmap in Hid as [id' [[= -> ->] Hin]].
  apply pick_lt; [done|]. rewrite widget_identities_page, Hc in Hin.
  assert (H3 : length (map pod_name (tracker_fleet pg)) = 3%nat) by (by rewrite Hn).
  repeat (apply elem_of_cons in Hin as [->|Hin]; [simpl; try lia; apply filter_options_nonempty|]).
  by apply not_elem_of_nil in Hin.
Qed.

Section Invariant.
Context {G : Type} `{!PyRandom G, !PyRandomLaws G}.

(** A session without a fleet has no widget states. *)
Lemma no_fleet_no_states (ps : PServer G) k :
  pinv ps -> ss_pods (default new_session (sessions (pserver ps) !! k)) = None ->
  pstates ps !! k = None.
Proof.
  intros [Ha Hb] Hnone. destruct (pstates ps !! k) as [st|] eqn:E; [|done].
  destruct (Ha k st E) as [[pg Hpg] _]. destruct (Hb k pg Hpg) as (s & Es & Hs & _).
  rewrite Es in Hnone. simpl in Hnone. congruence.
Qed.

(** On a reachable server satisfying the invariant, the run a session's
    states ask for succeeds. *)
Lemma prerun_run_ok alg (g0 : G) n k (ps : PServer G) :
  reach alg g0 n (pserver ps) -> pinv ps ->
  let st := default ∅ (pstates ps !! k) in
  let w := {| session := default new_session (sessions (pserver ps) !! k); rng := srv_rng (pserver ps) |} in
  states_ok st /\ exists pg w', run_script alg (input_of st (session_fleet (pserver ps) k)) w = (Ok pg, w').
Proof.
  intros Hr Hp st w. pose proof Hp as [Ha Hb].
  assert (Hst : states_ok st).
  { unfold st. destruct (pstates ps !! k) as [st0|] eqn:E; [apply (Ha k st0 E) | apply states_ok_empty]. }
  split; [done|]. pose proof (reach_inv alg g0 n _ Hr) as Hinv.
  destruct (ss_pods (session w)) as [f|] eqn:Ef.
  - destruct (sessions (pserver ps) !! k) as [s|] eqn:Es; [|done].
    pose proof (Hinv k s Es) as Hs. unfold session_inv in Hs. simpl in Ef. rewrite Ef in Hs.
    assert (Hfl : session_fleet (pserver ps) k = f) by (unfold session_fleet; rewrite Es; simpl; by rewrite Ef).
    rewrite Hfl. destruct (input_of_bounds st f Hst (proj1 Hs)) as (B1 & B2 & B3 & B4).
    exact (run_script_succeeds alg _ w f (speed_floor n) Ef Hs B1 B2 B3 B4).
  - unfold st. rewrite (no_fleet_no_states ps k Hp Ef). simpl.
    apply run_script_new_session; [exact Ef | ..];
      cbn [input_of tracker_in compare_in filter_choice sort_choice pod1_choice pod2_choice];
      rewrite pick_empty; lia.
Qed.

(** A run of a session on a reachable server: it returns a page, keeps
    the invariant, and stores the page and the states it showed. *)
Lemma prerun_step alg (g0 : G) n k (ps : PServer G) :
  reach alg g0 n (pserver ps) -> pinv ps ->
  let st := default ∅ (pstates ps !! k) in
  exists pg w w',
    run_script alg (input_of st (session_fleet (pserver ps) k)) w = (Ok pg, w')
    /\ ss_pods (session w) = ss_pods (default new_session (sessions (pserver ps) !! k))
    /\ prerun alg k ps
       = ({| pserver := {| sessions := <[k := session w']> (sessions (pserver ps)); srv_rng := rng w' |};
             pstates := <[k := kept_states st pg]> (pstates ps); ppages := <[k := pg]> (ppages ps) |}, Ok pg)
    /\ pinv (prerun alg k ps).1 /\ reach alg g0 (S n) (pserver (prerun alg k ps).1).
Proof.
  intros Hr Hp st. destruct (prerun_run_ok alg g0 n k ps Hr Hp) as (Hst & pg & w' & Hrun).
  assert (Hpr : prerun alg k ps
       = ({| pserver := {| sessions := <[k := session w']> (sessions (pserver ps)); srv_rng := rng w' |};
             pstates := <[k := kept_states st pg]> (pstates ps); ppages := <[k := pg]> (ppages ps) |}, Ok pg)).
  { unfold prerun, rerun. cbv zeta. rewrite Hrun. reflexivity. }
  pose proof (reach_rerun alg g0 n _ k (input_of (default ∅ (pstates ps !! k)) (session_fleet (pserver ps) k)) Hr) as Hr'.
  unfold rerun in Hr'. cbv zeta in Hr'. rewrite Hrun in Hr'. simpl in Hr'.
  eexists pg, _, w'. rewrite Hpr. split_and!; [done | done | done | | exact Hr'].
  destruct (run_script_post alg _ _ w' pg Hrun) as (Hf & Hc & _ & _).
  pose proof (reach_inv alg g0 (S n) _ Hr' k (session w') ltac:(simpl; by rewrite lookup_insert_eq)) as Hs.
  unfold session_inv in Hs. rewrite Hf in Hs. destruct Hs as [Hn _].
  destruct Hp as [Ha Hb]. split; simpl.
  - intros k' st'. destruct (decide (k' = k)) as [->|Hne].
    + rewrite lookup_insert_eq. intros [= <-]. rewrite lookup_insert_eq.
      split; [by eexists | by apply kept_states_ok].
    + rewrite !lookup_insert_ne by done. apply Ha.
  - intros k' pg'. destruct (decide (k' = k)) as [->|Hne].
    + rewrite lookup_insert_eq. intros [= <-]. rewrite lookup_insert_eq. by eexists.
    + rewrite !lookup_insert_ne by done. apply Hb.
Qed.

(** Storing a pick within the options of a box of the session's page
    keeps the invariant. *)
Lemma pinv_select (ps : PServer G) k id c :
  pinv ps -> is_Some (ppages ps !! k) -> (c < length id.1.2)%nat ->
  pinv {| pserver := pserver ps;
          pstates := <[k := <[id := c]> (default ∅ (pstates ps !! k))]> (pstates ps);
          ppages := ppages ps |}.
Proof.
  intros [Ha Hb] Hk Hc. split; [|exact Hb]. simpl. intros k' st'.
  destruct (decide (k' = k)) as [->|Hne].
  - rewrite lookup_insert_eq. intros [= <-]. split; [done|].
    apply states_ok_insert; [|done].
    destruct (pstates ps !! k) as [st0|] eqn:E; [apply (Ha k st0 E) | apply states_ok_empty].
  - rewrite lookup_insert_ne by done. apply Ha.
Qed.

(** Every event that runs the script on a reachable server returns a
    page and keeps the invariant. *)
Lemma pstep_step alg (g0 : G) n e (ps ps' : PServer G) r :
  reach alg g0 n (pserver ps) -> pinv ps -> pstep alg e ps = (ps', Some r) ->
  (exists pg, r = Ok pg) /\ pinv ps' /\ reach alg g0 (S n) (pserver ps').
Proof.
  intros Hr Hp. destruct e as [k | k box c]; simpl.
  - destruct (prerun_step alg g0 n k ps Hr Hp) as (pg & w & w' & _ & _ & Hpr & Hinv & Hr').
    rewrite Hpr in *. intros [= <- <-]. eauto.
  - destruct (ppages ps !! k) as [pg0|] eqn:Epg; simpl; [|done].
    destruct (widget_identities (script_elements pg0) !! box) as [id|]; [|done].
    case_decide as Hc; [|done].
    set (ps1 := {| pserver := pserver ps;
                   pstates := <[k := <[id := c]> (default ∅ (pstates ps !! k))]> (pstates ps);
                   ppages := ppages ps |}).
    assert (Hp1 : pinv ps1) by (apply pinv_select; [done | by eexists | done]).
    destruct (prerun_step alg g0 n k ps1 Hr Hp1) as (pg & w & w' & _ & _ & Hpr & Hinv & Hr').
    fold ps1. rewrite Hpr in *. intros [= <- <-]. eauto.
Qed.

Lemma preach_inv alg (g0 : G) n (ps : PServer G) :
  preach alg g0 n ps -> pinv ps /\ reach alg g0 n (pserver ps).
Proof.
  induction 1 as [|n ps e ps' r Hr [Hp Hreach] Hs].
  - split; [split; intros ?? H; simpl in H; by rewrite lookup_empty in H | apply reach_init].
  - by destruct (pstep_step alg g0 n e ps ps' r Hreach Hp Hs) as (_ & ? & ?).
Qed.

(** A run of a session that has a page: the run starts from the fleet
    the page was drawn from, draws a page whose boxes have the same
    identities, and stores the states that page showed. *)
Lemma prerun_same_ids alg (g0 : G) n k (ps ps' : PServer G) pg0 pg :
  reach alg g0 n (pserver ps) -> pinv ps -> ppages ps !! k = Some pg0 ->
  prerun alg k ps = (ps', Ok pg) ->
  let st := default ∅ (pstates ps !! k) in
  widget_identities (script_elements pg) = widget_identities (script_elements pg0)
  /\ filter_options (tracker_fleet pg) = filter_options (tracker_fleet pg0)
  /\ pstates ps' !! k = Some (kept_states st pg)
  /\ exists s s' : World G,
       pod_tracker alg (tracker_fleet pg) (tracker_in (input_of st (tracker_fleet pg0))) s = (Ok (table pg), s').
Proof.
  intros Hr Hp Hk Hrun st.
  destruct (prerun_step alg g0 n k ps Hr Hp) as (pg' & w & w' & Hw & Hs & Hpr & _ & _).
  rewrite Hpr in Hrun. injection Hrun as <- <-.
  pose proof Hp as [_ Hb]. destruct (Hb k pg0 Hk) as (s & Es & Hf & Hc0).
  assert (Hfl : session_fleet (pserver ps) k = tracker_fleet pg0)
    by (unfold session_fleet; rewrite Es; simpl; by rewrite Hf).
  rewrite Es in Hs. simpl in Hs. rewrite Hf in Hs. fold st in Hw. rewrite Hfl in Hw.
  destruct (run_script_page_fleet alg _ _ _ _ pg' Hs Hw) as (HR & Hc & _).
  destruct (run_script_post alg _ _ _ pg' Hw) as (_ & _ & _ & Ht).
  assert (Hfo : filter_options (tracker_fleet pg') = filter_options (tracker_fleet pg0))
    by (unfold filter_options; by rewrite (row_update_statuses _ _ HR)).
  split_and!; [| done | simpl; by rewrite lookup_insert_eq | exact Ht].
  rewrite !widget_identities_page, Hc, Hc0, Hfo. by rewrite (row_update_names _ _ HR).
Qed.
(** A pick in box [box] of a session's page: the run it triggers reads
    the session's states with the pick stored and starts from the fleet
    the page was drawn from; its page has the same boxes, and the session
    keeps the states that page showed. *)
Lemma select_step alg (g0 : G) n k box c (ps ps1 : PServer G) pg0 pg1 id :
  preach alg g0 n ps -> ppages ps !! k = Some pg0 ->
  widget_identities (script_elements pg0) !! box = Some id ->
  pstep alg (Select k box c) ps = (ps1, Some (Ok pg1)) ->
  let st1 := <[id := c]> (default ∅ (pstates ps !! k)) in
  (c < length id.1.2)%nat /\ states_ok st1
  /\ widget_identities (script_elements pg1) = widget_identities (script_elements pg0)
  /\ filter_options (tracker_fleet pg1) = filter_options (tracker_fleet pg0)
  /\ pstates ps1 !! k = Some (kept_states st1 pg1)
  /\ exists s s' : World G,
       pod_tracker alg (tracker_fleet pg1) (tracker_in (input_of st1 (tracker_fleet pg0))) s = (Ok (table pg1), s').
Proof.
  intros Hr Hk Hbox Hs st1. destruct (preach_inv alg g0 n ps Hr) as [Hp Hreach].
  cbn [pstep] in Hs. rewrite Hk in Hs. cbn [mbind option_bind] in Hs. rewrite Hbox in Hs.
  case_decide as Hc; [|done]. fold st1 in Hs.
  set (ps1' := {| pserver := pserver ps; pstates := <[k := st1]> (pstates ps); ppages := ppages ps |}) in *.
  destruct (prerun alg k ps1') as [ps2 r2] eqn:E. injection Hs as -> ->.
  assert (Hp1 : pinv ps1') by (apply pinv_select; [done | by eexists | done]).
  assert (Hst1 : pstates ps1' !! k = Some st1) by (simpl; by rewrite lookup_insert_eq).
  destruct (prerun_same_ids alg g0 n k ps1' ps1 pg0 pg1 Hreach Hp1 Hk E) as (Hids & Hfo & Hst & Ht).
  rewrite Hst1 in Hst, Ht. simpl in Hst, Ht. split_and!; try done.
  destruct Hp1 as [Ha _]. exact (proj2 (Ha k st1 Hst1)).
Qed.

End Invariant.

(** ** Properties *)

Section Claims.
Context {G : Type} `{!PyRandom G, !PyRandomLaws G}.

(** C24: in every server reachable by reruns and picks, an event that
    runs the script returns a page: the picks the widget states ask for
    are always within the options, and the fleet keeps its invariant, so
    no run raises. *)
Theorem protocol_never_raises alg (g0 : G) n e (ps ps' : PServer G) r :
  preach alg g0 n ps -> pstep alg e ps = (ps', Some r) -> exists pg, r = Ok pg.
Proof.
  intros Hr Hs. destruct (preach_inv alg g0 n ps Hr) as [Hp Hreach].
  by destruct (pstep_step alg g0 n e ps ps' r Hreach Hp Hs) as (? & _ & _).
Qed.

(** C25: picking option [c] of the status filter of a session's page
    takes effect in the run it triggers: the new table shows exactly the
    rows of the fleet whose status is that option (every row for 'All'),
    and the session keeps [c] as the filter's state for the runs after. *)
Theorem select_filter_takes_effect alg (g0 : G) n k c (ps ps1 : PServer G) pg0 pg1 :
  preach alg g0 n ps -> ppages ps !! k = Some pg0 ->
  pstep alg (Select k 0 c) ps = (ps1, Some (Ok pg1)) ->
  exists sel, filter_options (tracker_fleet pg0) !! c = Some sel
    /\ (forall p, p ∈ table pg1 <-> p ∈ tracker_fleet pg1 /\ (sel = "All" \/ status_str (status p) = sel))
    /\ (pstates ps1 !! k ≫= fun st => st !! filter_id (tracker_fleet pg1)) = Some c.
Proof.
  intros Hr Hk Hs.
  assert (Hbox : widget_identities (script_elements pg0) !! 0%nat = Some (filter_id (tracker_fleet pg0)))
    by (rewrite widget_identities_page; reflexivity).
  destruct (select_step alg g0 n k 0 c ps ps1 pg0 pg1 _ Hr Hk Hbox Hs)
    as (Hc & Hok & Hids & Hfo & Hst & s & s' & Ht).
  set (st1 := <[filter_id (tracker_fleet pg0) := c]> (default ∅ (pstates ps !! k))) in *.
  assert (Hpick : pick st1 (filter_id (tracker_fleet pg0)) = c)
    by (unfold pick, st1; by rewrite lookup_insert_eq).
  destruct (pod_tracker_ok alg (tracker_fleet pg1) (tracker_in (input_of st1 (tracker_fleet pg0))) s)
    as (sel & key & Hsel & _ & Hrun).
  { cbn [input_of tracker_in filter_choice]. rewrite Hpick, Hfo. exact Hc. }
  { exact (pick_lt st1 sort_id Hok ltac:(simpl; lia)). }
  pose proof (eq_trans (eq_sym Ht) Hrun) as Htab. injection Htab as Htab _.
  simpl in Hsel. rewrite Hpick, Hfo in Hsel.
  assert (Hid : filter_id (tracker_fleet pg1) = filter_id (tracker_fleet pg0))
    by (unfold filter_id; by rewrite Hfo).
  exists sel. split_and!; [done | |].
  - intros p. rewrite Htab, dsort_perm. apply filter_rows_elem.
  - rewrite Hst. simpl. rewrite Hid, kept_states_lookup.
    + unfold pick. try unfold st1. by rewrite lookup_insert_eq.
    + rewrite Hids. by eapply list_elem_of_lookup_2.
Qed.

(** C26: picking option [c] of the 'Sort by' box of a session's page
    takes effect in the run it triggers and leaves the filter alone: the
    new table holds, each once, the rows the session's filter pick
    selects, in decreasing order of the column option [c] names ('Speed
    (km/h)' for 0, 'Battery (%)' for 1), and the session keeps [c] as
    the box's state for the runs after. *)
Theorem select_sort_takes_effect alg (g0 : G) n k c (ps ps1 : PServer G) pg0 pg1 :
  preach alg g0 n ps -> ppages ps !! k = Some pg0 ->
  pstep alg (Select k 1 c) ps = (ps1, Some (Ok pg1)) ->
  exists sel key,
    filter_options (tracker_fleet pg0) !! pick (default ∅ (pstates ps !! k)) (filter_id (tracker_fleet pg0))
      = Some sel
    /\ sort_key_of c key
    /\ table pg1 ≡ₚ filter_rows (Some sel) (tracker_fleet pg1) /\ Sorted (desc key) (table pg1)
    /\ (pstates ps1 !! k ≫= fun st => st !! sort_id) = Some c.
Proof.
  intros Hr Hk Hs.
  assert (Hbox : widget_identities (script_elements pg0) !! 1%nat = Some sort_id)
    by (rewrite widget_identities_page; reflexivity).
  destruct (select_step alg g0 n k 1 c ps ps1 pg0 pg1 _ Hr Hk Hbox Hs)
    as (Hc & Hok & Hids & Hfo & Hst & s & s' & Ht).
  set (st0 := default ∅ (pstates ps !! k)) in *.
  assert (Hpf : pick (<[sort_id := c]> st0) (filter_id (tracker_fleet pg0)) = pick st0 (filter_id (tracker_fleet pg0)))
    by (unfold pick; rewrite lookup_insert_ne; [done | by intros [=]]).
  assert (Hps : pick (<[sort_id := c]> st0) sort_id = c) by (unfold pick; by rewrite lookup_insert_eq).
  destruct (pod_tracker_ok alg (tracker_fleet pg1) (tracker_in (input_of (<[sort_id := c]> st0) (tracker_fleet pg0))) s)
    as (sel & key & Hsel & Hkey & Hrun).
  { cbn [input_of tracker_in filter_choice]. rewrite Hfo. apply pick_lt; [done | apply filter_options_nonempty]. }
  { cbn [input_of tracker_in sort_choice]. rewrite Hps. exact Hc. }
  pose proof (eq_trans (eq_sym Ht) Hrun) as Htab. injection Htab as Htab _.
  cbn [input_of tracker_in filter_choice sort_choice] in Hsel, Hkey. rewrite Hpf, Hfo in Hsel. rewrite Hps in Hkey.
  exists sel, key. split_and!; [done | done | rewrite Htab; apply dsort_perm | rewrite Htab; apply dsort_sorted |].
  rewrite Hst. simpl. rewrite kept_states_lookup; [unfold pick; by rewrite lookup_insert_eq|].
  rewrite Hids. by eapply list_elem_of_lookup_2.
Qed.
End Claims.

(** ** Witnesses: one session of the server with the replayed draws *)

(** An event's result is read off its tag, without computing the whole
    server. *)
Lemma ok_of_tag {A B} (x : A * option (Result B)) :
  match x.2 with Some (Ok _) => True | _ => False end -> exists a b, x = (a, Some (Ok b)).
Proof. destruct x as [a [[b|e]|]]; simpl; [eauto | done | done]. Qed.

(** The server after one run of session "s". *)
Definition first_run : PServer Replay := (pstep pandas_sort (Rerun "s") (init_pserver zero_draws)).1.

Lemma first_run_facts :
  exists pg, pstep pandas_sort (Rerun "s") (init_pserver zero_draws) = (first_run, Some (Ok pg))
             /\ preach pandas_sort zero_draws 1 first_run /\ ppages first_run !! "s" = Some pg.
Proof.
  pose proof (ok_of_tag (pstep pandas_sort (Rerun "s") (init_pserver zero_draws))) as Htag.
  destruct (Htag ltac:(vm_compute; exact I)) as (ps & pg & E).
  assert (Hf : first_run = ps) by (unfold first_run; by rewrite E).
  rewrite Hf. exists pg. split; [done|]. split.
  - eapply preach_run; [apply preach_init | exact E].
  - exact (pstep_rerun_page pandas_sort "s" _ ps pg E).
Qed.

Lemma protocol_never_raises_witness :
  exists ps' r, pstep pandas_sort (Rerun "s") (init_pserver zero_draws) = (ps', Some r)
                /\ exists pg, r = Ok pg.
Proof.
  pose proof (ok_of_tag (pstep pandas_sort (Rerun "s") (init_pserver zero_draws))) as Htag.
  destruct (Htag ltac:(vm_compute; exact I)) as (ps' & pg & E).
  exists ps', (Ok pg). split; [done|].
  exact (protocol_never_raises pandas_sort zero_draws 0 (Rerun "s") _ ps' (Ok pg) (preach_init _ _) E).
Defined.

Lemma select_filter_takes_effect_witness :
  exists pg0 ps1 pg1,
    preach pandas_sort zero_draws 1 first_run /\ ppages first_run !! "s" = Some pg0
    /\ pstep pandas_sort (Select "s" 0 1) first_run = (ps1, Some (Ok pg1))
    /\ exists sel, filter_options (tracker_fleet pg0) !! 1%nat = Some sel
       /\ (forall p, p ∈ table pg1 <-> p ∈ tracker_fleet pg1 /\ (sel = "All" \/ status_str (status p) = sel))
       /\ (pstates ps1 !! "s" ≫= fun st => st !! filter_id (tracker_fleet pg1)) = Some 1%nat.
Proof.
  destruct first_run_facts as (pg0 & _ & Hr & Hk).
  pose proof (ok_of_tag (pstep pandas_sort (Select "s" 0 1) first_run)) as Htag.
  destruct (Htag ltac:(vm_compute; exact I)) as (ps1 & pg1 & E).
  exists pg0, ps1, pg1. do 3 (split; [done|]).
  exact (select_filter_takes_effect pandas_sort zero_draws 1 "s" 1 first_run ps1 pg0 pg1 Hr Hk E).
Defined.

Lemma select_sort_takes_effect_witness :
  exists pg0 ps1 pg1,
    preach pandas_sort zero_draws 1 first_run /\ ppages first_run !! "s" = Some pg0
    /\ pstep pandas_sort (Select "s" 1 1) first_run = (ps1, Some (Ok pg1))
    /\ exists sel key,
       filter_options (tracker_fleet pg0)
         !! pick (default ∅ (pstates first_run !! "s")) (filter_id (tracker_fleet pg0)) = Some sel
       /\ sort_key_of 1 key
       /\ table pg1 ≡ₚ filter_rows (Some sel) (tracker_fleet pg1) /\ Sorted (desc key) (table pg1)
       /\ (pstates ps1 !! "s" ≫= fun st => st !! sort_id) = Some 1%nat.
Proof.
  destruct first_run_facts as (pg0 & _ & Hr & Hk).
  pose proof (ok_of_tag (pstep pandas_sort (Select "s" 1 1) first_run)) as Htag.
  destruct (Htag ltac:(vm_compute; exact I)) as (ps1 & pg1 & E).
  exists pg0, ps1, pg1. do 3 (split; [done|]).
  exact (select_sort_takes_effect pandas_sort zero_draws 1 "s" 1 first_run ps1 pg0 pg1 Hr Hk E).
Defined.
